(** * telegrambot.py: answer scoring, first-attempt statistics and the session gate

    A shallow embedding of the test-checking bot of [src/telegrambot.py]:
    Python [str] values are strings of code points below 256, Python [int]
    is [Z], Python [float] is the binary64 instance of [SpecFloat], a
    [dict] whose order is observable is an insertion-ordered association
    list, the [user_states] dictionary is a [gmap], and the handlers run in
    a state-and-exception monad over the process globals and the files
    under [stats/].  What the platform decides (whether a file can be
    opened, what a write that fails leaves behind, which sheet
    [df.to_excel] refuses) is part of that state. *)

From Stdlib Require Import ZArith List String Ascii Bool Lia.
From Stdlib Require Import Sorting.Sorted Sorting.Permutation.
From Stdlib Require Import Numbers.DecimalString.
From Stdlib Require Import Floats.SpecFloat.
From stdpp Require Import gmap.
Import ListNotations.

Local Open Scope Z_scope.
#[local] Set Warnings "-register-all".

(** ** Python strings *)

Module PyStr.

(** [str.isspace] on the code points below 256: TAB..CR, FS..US, SPACE,
    NEL (0x85) and NBSP (0xA0). *)
Definition isspace (c : ascii) : bool :=
  let n := Z.of_N (N_of_ascii c) in
  ((9 <=? n) && (n <=? 13)) || ((28 <=? n) && (n <=? 32))
  || (n =? 133) || (n =? 160).

(** [str.lower] on one code point below 256: A..Z and the Latin-1 capitals
    0xC0..0xDE (the multiplication sign 0xD7 apart) move up by 32. *)
Definition lower_char (c : ascii) : ascii :=
  let n := Z.of_N (N_of_ascii c) in
  if ((65 <=? n) && (n <=? 90))
     || ((192 <=? n) && (n <=? 222) && negb (n =? 215))
  then ascii_of_N (Z.to_N (n + 32)) else c.

(** [str.lower] on a string of code points below 256, where it works one
    code point at a time.  Above 255 it does not: U+0130 becomes two code
    points and U+03A3 depends on what follows it. *)
Fixpoint lower (s : string) : string :=
  match s with
  | EmptyString => EmptyString
  | String c s' => String (lower_char c) (lower s')
  end.

Definition is_empty (s : string) : bool :=
  match s with EmptyString => true | _ => false end.

(** [s.split()] with no separator: the maximal runs of non-blank
    characters, in order; [cur] is the run being read. *)
Fixpoint split_from (cur s : string) : list string :=
  match s with
  | EmptyString => if is_empty cur then [] else [cur]
  | String c s' =>
      if isspace c
      then (if is_empty cur then split_from EmptyString s'
            else cur :: split_from EmptyString s')
      else split_from (String.append cur (String c EmptyString)) s'
  end.

Definition split (s : string) : list string := split_from EmptyString s.

(** [sep.join(parts)]. *)
Fixpoint join (sep : string) (parts : list string) : string :=
  match parts with
  | [] => EmptyString
  | [p] => p
  | p :: rest => String.append p (String.append sep (join sep rest))
  end.

Fixpoint lstrip (s : string) : string :=
  match s with
  | EmptyString => EmptyString
  | String c s' => if isspace c then lstrip s' else s
  end.

(** [rstrip]: a character is kept when it is not blank or when something
    is kept after it. *)
Fixpoint rstrip (s : string) : string :=
  match s with
  | EmptyString => EmptyString
  | String c s' =>
      let t := rstrip s' in
      if isspace c && is_empty t then EmptyString else String c t
  end.

Definition strip (s : string) : string := rstrip (lstrip s).

(** [list(s)]: the one-character strings of [s]. *)
Fixpoint chars (s : string) : list string :=
  match s with
  | EmptyString => []
  | String c s' => String c EmptyString :: chars s'
  end.

(** The characters of [s] that are not blank. *)
Fixpoint remove_blanks (s : string) : string :=
  match s with
  | EmptyString => EmptyString
  | String c s' =>
      if isspace c then remove_blanks s' else String c (remove_blanks s')
  end.

End PyStr.

(** ** Scoring *)

(** [normalize_answer], line 58. *)
Definition normalize_answer (answer : string) : string :=
  PyStr.lower (PyStr.join EmptyString (PyStr.split answer)).

(** The loop of [submit_answers], lines 158-162: [i] is the index that
    [enumerate] has reached, [correct_answers] and [incorrect_answers] are
    the two accumulators.  [ANSWER_KEY[i]] is read only under the guard
    [i < len(ANSWER_KEY)]. *)
Fixpoint score_loop (ANSWER_KEY : list string) (i : nat)
    (user_answers : list string)
    (correct_answers : Z) (incorrect_answers : list (Z * string))
  : Z * list (Z * string) :=
  match user_answers with
  | [] => (correct_answers, incorrect_answers)
  | answer :: rest =>
      match nth_error ANSWER_KEY i with
      | Some k =>
          if String.eqb (normalize_answer answer) (normalize_answer k)
          then score_loop ANSWER_KEY (S i) rest
                 (correct_answers + 1) incorrect_answers
          else score_loop ANSWER_KEY (S i) rest correct_answers
                 (incorrect_answers ++ [(Z.of_nat i + 1, answer)])
      | None =>
          score_loop ANSWER_KEY (S i) rest correct_answers
            (incorrect_answers ++ [(Z.of_nat i + 1, answer)])
      end
  end.

Definition score (ANSWER_KEY user_answers : list string)
  : Z * list (Z * string) :=
  score_loop ANSWER_KEY 0 user_answers 0 [].

(** ** Exceptions *)

(** The Python exceptions that the modelled code can meet. *)
Inductive exn : Set :=
  | FileNotFoundError
  | UnicodeDecodeError   (* a ValueError *)
  | JSONDecodeError      (* a ValueError *)
  | ValueError
  | AttributeError
  | KeyError
  | IndexError
  | TypeError
  | ZeroDivisionError
  | OverflowError
  | IOError
  | PermissionError         (* an OSError *)
  | IsADirectoryError       (* an OSError *)
  | IllegalCharacterError.  (* openpyxl's, an Exception *)

(** [isinstance(e, ValueError)]. *)
Definition is_ValueError (e : exn) : bool :=
  match e with
  | UnicodeDecodeError | JSONDecodeError | ValueError => true
  | _ => false
  end.

(** [isinstance(e, IOError)]; [IOError] is [OSError]. *)
Definition is_IOError (e : exn) : bool :=
  match e with
  | IOError | FileNotFoundError | PermissionError | IsADirectoryError => true
  | _ => false
  end.

Inductive result (A : Type) : Type :=
  | Ok (a : A)
  | Raise (e : exn).
Arguments Ok {A} a.
Arguments Raise {A} e.

Definition rbind {A B} (r : result A) (f : A -> result B) : result B :=
  match r with
  | Ok a => f a
  | Raise e => Raise e
  end.

(** ** Python floats *)

Module PyFloat.

(** binary64. *)
Definition prec : Z := 53.
Definition emax : Z := 1024.

(** [float(z)] for an [int] that converts exactly, such as [100]. *)
Definition of_int (z : Z) : spec_float := binary_normalize prec emax z 0 false.

(** [a / b] on two [int]s: the quotient of the integers, rounded once to
    the nearest double, ties to even. *)
Definition truediv (a b : Z) : result spec_float :=
  if b =? 0 then Raise ZeroDivisionError
  else
    let s := xorb (a <? 0) (b <? 0) in
    if a =? 0 then Ok (S754_zero s)
    else
      let '(q, e, l) := SFdiv_core_binary prec emax (Z.abs a) 0 (Z.abs b) 0 in
      match binary_round_aux prec emax s q e l with
      | S754_infinity _ => Raise OverflowError
      | x => Ok x
      end.

(** [x * y] on two [float]s. *)
Definition mul (x y : spec_float) : spec_float := SFmul prec emax x y.

(** [m / d] rounded to the nearest integer, ties to even ([0 < d]). *)
Definition div_half_even (m d : Z) : Z :=
  let q := m / d in
  let r := m mod d in
  match 2 * r ?= d with
  | Lt => q
  | Gt => q + 1
  | Eq => if Z.even q then q else q + 1
  end.

(** [round(x)] with one argument: the nearest [int], ties to even. *)
Definition round (x : spec_float) : result Z :=
  match x with
  | S754_zero _ => Ok 0
  | S754_infinity _ => Raise OverflowError
  | S754_nan => Raise ValueError
  | S754_finite s m e =>
      let a := if 0 <=? e then Z.pos m * 2 ^ e
               else div_half_even (Z.pos m) (2 ^ (- e)) in
      Ok (if s then - a else a)
  end.

End PyFloat.

(** [calculate_percentage], line 185. *)
Definition calculate_percentage (correct_answers total_questions : Z)
  : result Z :=
  if total_questions =? 0 then Ok 0
  else
    rbind (PyFloat.truediv correct_answers total_questions) (fun x =>
    PyFloat.round (PyFloat.mul x (PyFloat.of_int 100))).

(** ** Python values *)

(** The keys that reach a dictionary of this program: Telegram user ids
    ([int]) and JSON member names ([str]).  An [int] key never equals a
    [str] key. *)
Inductive pykey : Set :=
  | KInt (z : Z)
  | KStr (s : string).

(** The values that [json.load] builds and that the handlers store.
    Numbers are integers: documents with fractional numbers are outside
    the model. *)
Inductive value : Set :=
  | VNone
  | VBool (b : bool)
  | VInt (z : Z)
  | VStr (s : string)
  | VList (l : list value)
  | VDict (d : list (pykey * value)).

(** A [dict] keeps its pairs in insertion order. *)
Module PyDict.

Definition key_eqb (a b : pykey) : bool :=
  match a, b with
  | KInt x, KInt y => x =? y
  | KStr s, KStr t => String.eqb s t
  | _, _ => false
  end.

Section Ops.
Context {V : Type}.

(** [d.get(k)]. *)
Fixpoint get (d : list (pykey * V)) (k : pykey) : option V :=
  match d with
  | [] => None
  | (k', v) :: d' => if key_eqb k' k then Some v else get d' k
  end.

(** [k in d]. *)
Definition contains (d : list (pykey * V)) (k : pykey) : bool :=
  match get d k with Some _ => true | None => false end.

(** [d[k] = v]: a present key keeps its place and takes the new value,
    a new key goes to the end. *)
Fixpoint set (d : list (pykey * V)) (k : pykey) (v : V)
  : list (pykey * V) :=
  match d with
  | [] => [(k, v)]
  | (k', v') :: d' =>
      if key_eqb k' k then (k', v) :: d' else (k', v') :: set d' k v
  end.

(** The dictionary built from pairs read left to right. *)
Definition of_pairs (ps : list (pykey * V)) : list (pykey * V) :=
  fold_left (fun d p => set d (fst p) (snd p)) ps [].
End Ops.

End PyDict.

Module Py.

(** [v.get(k, default)]; only a [dict] has the method. *)
Definition get_default (v : value) (k : string) (default : value)
  : result value :=
  match v with
  | VDict d =>
      Ok (match PyDict.get d (KStr k) with Some x => x | None => default end)
  | _ => Raise AttributeError
  end.

(** [e == uid] for an [int] [uid]; [True == 1] and [False == 0]. *)
Definition eq_int (e : value) (uid : Z) : bool :=
  match e with
  | VInt z => z =? uid
  | VBool b => (if b then 1 else 0) =? uid
  | _ => false
  end.

(** [uid in v] for an [int] [uid]. *)
Definition contains_int (v : value) (uid : Z) : result bool :=
  match v with
  | VDict d => Ok (PyDict.contains d (KInt uid))
  | VList l => Ok (existsb (fun e => eq_int e uid) l)
  | _ => Raise TypeError
  end.

(** The position that the index [i] denotes in a sequence of length [n]. *)
Definition index (n : nat) (i : Z) : option nat :=
  let len := Z.of_nat n in
  if (0 <=? i) && (i <? len) then Some (Z.to_nat i)
  else if (- len <=? i) && (i <? 0) then Some (Z.to_nat (i + len))
  else None.

(** [v[k]]. *)
Definition getitem (v : value) (k : pykey) : result value :=
  match v, k with
  | VDict d, _ =>
      match PyDict.get d k with Some x => Ok x | None => Raise KeyError end
  | VList l, KInt i =>
      match index (List.length l) i with
      | Some n => match nth_error l n with
                  | Some x => Ok x
                  | None => Raise IndexError
                  end
      | None => Raise IndexError
      end
  | VStr s, KInt i =>
      match index (String.length s) i with
      | Some n => match String.get n s with
                  | Some c => Ok (VStr (String c EmptyString))
                  | None => Raise IndexError
                  end
      | None => Raise IndexError
      end
  | _, _ => Raise TypeError
  end.

Fixpoint replace_nth (l : list value) (n : nat) (x : value) : list value :=
  match l, n with
  | [], _ => []
  | _ :: l', O => x :: l'
  | y :: l', S n' => y :: replace_nth l' n' x
  end.

(** [v[uid] = x] for an [int] [uid]. *)
Definition setitem_int (v : value) (uid : Z) (x : value) : result value :=
  match v with
  | VDict d => Ok (VDict (PyDict.set d (KInt uid) x))
  | VList l =>
      match index (List.length l) uid with
      | Some n => Ok (VList (replace_nth l n x))
      | None => Raise IndexError
      end
  | _ => Raise TypeError
  end.

(** [len(v)]. *)
Definition len (v : value) : result Z :=
  match v with
  | VStr s => Ok (Z.of_nat (String.length s))
  | VList l => Ok (Z.of_nat (List.length l))
  | VDict d => Ok (Z.of_nat (List.length d))
  | _ => Raise TypeError
  end.

(** [acc + e] in [sum]: [bool] counts as [int]. *)
Definition add (acc : Z) (e : value) : result Z :=
  match e with
  | VInt z => Ok (acc + z)
  | VBool b => Ok (acc + (if b then 1 else 0))
  | _ => Raise TypeError
  end.

Fixpoint sum_from (acc : Z) (l : list value) : result Z :=
  match l with
  | [] => Ok acc
  | e :: l' => rbind (add acc e) (fun acc' => sum_from acc' l')
  end.

(** [sum(v)]: a [dict] and a [str] are iterated over their keys and
    their characters. *)
Definition sum (v : value) : result Z :=
  match v with
  | VList l => sum_from 0 l
  | VDict d =>
      sum_from 0 (List.map (fun p => match fst p with
                                     | KInt z => VInt z
                                     | KStr s => VStr s
                                     end) d)
  | VStr s => if PyStr.is_empty s then Ok 0 else Raise TypeError
  | _ => Raise TypeError
  end.

(** [v.items()]. *)
Definition items (v : value) : result (list (pykey * value)) :=
  match v with
  | VDict d => Ok d
  | _ => Raise AttributeError
  end.

End Py.

(** ** JSON documents and files *)

(** A parsed JSON text; member names are strings, and a name may occur
    more than once. *)
Inductive json : Set :=
  | JNull
  | JBool (b : bool)
  | JInt (z : Z)
  | JStr (s : string)
  | JArr (l : list json)
  | JObj (members : list (string * json)).

(** What [json.load] returns for a parsed text: of two members with one
    name the later value wins. *)
Fixpoint of_json (j : json) : value :=
  match j with
  | JNull => VNone
  | JBool b => VBool b
  | JInt z => VInt z
  | JStr s => VStr s
  | JArr l => VList (List.map of_json l)
  | JObj members =>
      VDict (PyDict.of_pairs
               (List.map (fun m => (KStr (fst m), of_json (snd m))) members))
  end.

(** [str(z)]. *)
Definition str_of_int (z : Z) : string := NilZero.string_of_int (Z.to_int z).

(** The member name that [json.dump] writes for a key. *)
Definition dump_key (k : pykey) : string :=
  match k with
  | KInt z => str_of_int z
  | KStr s => s
  end.

(** The text that [json.dump] writes, as the document it parses to. *)
Fixpoint to_json (v : value) : json :=
  match v with
  | VNone => JNull
  | VBool b => JBool b
  | VInt z => JInt z
  | VStr s => JStr s
  | VList l => JArr (List.map to_json l)
  | VDict d => JObj (List.map (fun p => (dump_key (fst p), to_json (snd p))) d)
  end.

(** A path on disk, as [open] and [json.load] see it. *)
Inductive file : Set :=
  | Missing                  (* no such file *)
  | Unreadable (directory : bool)
                             (* there, but [open] fails: a directory, or a
                                file that may not be read *)
  | NotUTF8                  (* bytes that are not UTF-8 *)
  | NotJSON                  (* text that is not JSON *)
  | DigitLimit               (* a JSON text with an integer of more digits
                                than [int] converts: a [ValueError] *)
  | Document (j : json).     (* a JSON text that [json.load] parses to [j] *)

(** [os.path.exists]. *)
Definition exists_ (f : file) : bool :=
  match f with Missing => false | _ => true end.

(** The [OSError] of [open(path, 'r')] on a path that is there and cannot
    be opened. *)
Definition open_error (directory : bool) : exn :=
  if directory then IsADirectoryError else PermissionError.

(** [with open(path, 'r', encoding='utf-8') as file: json.load(file)]. *)
Definition json_load (f : file) : result value :=
  match f with
  | Missing => Raise FileNotFoundError
  | Unreadable directory => Raise (open_error directory)
  | NotUTF8 => Raise UnicodeDecodeError
  | NotJSON => Raise JSONDecodeError
  | DigitLimit => Raise ValueError
  | Document j => Ok (of_json j)
  end.

(** ** The process: globals, files, log and sent messages *)

(** The values of [user_states]: ['test_sent'] and ['answers_submitted']. *)
Inductive session_state : Set :=
  | test_sent
  | answers_submitted.

Definition session_state_eqb (a b : session_state) : bool :=
  match a, b with
  | test_sent, test_sent | answers_submitted, answers_submitted => true
  | _, _ => false
  end.

(** One line of the leaderboard: first name, last name, total, percentage. *)
Definition stats_line : Set := value * value * Z * Z.

(** The texts that the handlers send. *)
Inductive message : Set :=
  | MsgWrongCount        (* the number of answers is wrong, send again *)
  | MsgScore (correct_answers total percentage : Z)
             (incorrect_answers : list (Z * string))
  | MsgStats (lines : list stats_line)
  | MsgAlreadySubmitted  (* answers were already sent, use the commands *)
  | MsgError.            (* the message could not be processed *)

(** The records that the handlers and loaders log. *)
Inductive log_record : Set :=
  | ErrAnswerFileNotFound
  | ErrAnswerJSON
  | ErrAnswerValue (e : exn)
  | ErrStatsJSON
  | ErrStatsWrite
  | ErrExcelWrite
  | InfoSubmitCalled
  | WarnWrongCount (user_id : Z)
  | InfoRepeatIgnored (user_id : Z)
  | InfoShowStatsCalled
  | ErrHandler (e : exn).

(** A row of the spreadsheet: name, surname, correct answers. *)
Definition excel_row : Set := value * value * Z.

(** What [df.to_excel] does once the file is open, when it does not write
    the whole sheet: the exception it raises and the sheet that is left.
    openpyxl raises [IllegalCharacterError] for a cell with a control
    character and [OverflowError] for an integer beyond a double; a write
    that fails (a full disk) raises an [IOError]. *)
Definition refusal : Type := exn * option (list excel_row).

(** The process state, the files, and what the platform does to a write. *)
Record world : Type := Build_world {
  ANSWER_FILE : file;
  STATS_FILE : file;
  stats_writable : bool;               (* is STATS_FILE written in full *)
  EXCEL_FILE : option (list excel_row);
  excel_writable : bool;               (* can EXCEL_FILE be opened for writing *)
  user_states : gmap Z session_state;
  cached_stats : value;                (* [VNone] until the first load *)
  log : list log_record;
  outbox : list (Z * message);         (* chat id and text, oldest first *)
  stats_write_leaves : option file;
    (* for a write of STATS_FILE that fails: [None] when [open] fails and
       the file stays as it was; [Some f] when the write fails after
       [open(.., 'w')] has emptied the file, [f] being what is left of it *)
  to_excel_refuses : list excel_row -> option refusal
    (* what [df.to_excel] refuses to write, and how *)
  }.

(** A world of a platform on which a failing write of STATS_FILE fails at
    [open] and [df.to_excel] writes every sheet. *)
Definition mkWorld (ANSWER_FILE STATS_FILE : file) (stats_writable : bool)
    (EXCEL_FILE : option (list excel_row)) (excel_writable : bool)
    (user_states : gmap Z session_state) (cached_stats : value)
    (log : list log_record) (outbox : list (Z * message)) : world :=
  Build_world ANSWER_FILE STATS_FILE stats_writable EXCEL_FILE excel_writable
    user_states cached_stats log outbox None (fun _ => None).

Definition set_STATS_FILE (f : file) (w : world) : world :=
  Build_world (ANSWER_FILE w) f (stats_writable w) (EXCEL_FILE w)
    (excel_writable w) (user_states w) (cached_stats w) (log w) (outbox w)
    (stats_write_leaves w) (to_excel_refuses w).

Definition set_EXCEL_FILE (x : option (list excel_row)) (w : world) : world :=
  Build_world (ANSWER_FILE w) (STATS_FILE w) (stats_writable w) x
    (excel_writable w) (user_states w) (cached_stats w) (log w) (outbox w)
    (stats_write_leaves w) (to_excel_refuses w).

Definition set_user_states (m : gmap Z session_state) (w : world) : world :=
  Build_world (ANSWER_FILE w) (STATS_FILE w) (stats_writable w) (EXCEL_FILE w)
    (excel_writable w) m (cached_stats w) (log w) (outbox w)
    (stats_write_leaves w) (to_excel_refuses w).

Definition set_cached_stats (v : value) (w : world) : world :=
  Build_world (ANSWER_FILE w) (STATS_FILE w) (stats_writable w) (EXCEL_FILE w)
    (excel_writable w) (user_states w) v (log w) (outbox w)
    (stats_write_leaves w) (to_excel_refuses w).

Definition add_log (r : log_record) (w : world) : world :=
  Build_world (ANSWER_FILE w) (STATS_FILE w) (stats_writable w) (EXCEL_FILE w)
    (excel_writable w) (user_states w) (cached_stats w) (log w ++ [r])
    (outbox w) (stats_write_leaves w) (to_excel_refuses w).

Definition add_outbox (chat : Z) (m : message) (w : world) : world :=
  Build_world (ANSWER_FILE w) (STATS_FILE w) (stats_writable w) (EXCEL_FILE w)
    (excel_writable w) (user_states w) (cached_stats w) (log w)
    (outbox w ++ [(chat, m)]) (stats_write_leaves w) (to_excel_refuses w).

(** ** The monad of the handlers *)

(** A computation reads and writes the process state and ends with a value
    or with an exception; what was written before an exception stays. *)
Definition M (A : Type) : Type := world -> result A * world.

Definition ret {A} (a : A) : M A := fun w => (Ok a, w).

Definition bind {A B} (m : M A) (f : A -> M B) : M B :=
  fun w => match m w with
           | (Ok a, w') => f a w'
           | (Raise e, w') => (Raise e, w')
           end.

Definition lift {A} (r : result A) : M A := fun w => (r, w).

Definition gets {A} (f : world -> A) : M A := fun w => (Ok (f w), w).

Definition modify (f : world -> world) : M unit := fun w => (Ok tt, f w).

(** [try: body  except ...:]; [handler e] is the clause that catches [e],
    if there is one. *)
Definition try_except {A} (body : M A) (handler : exn -> option (M A)) : M A :=
  fun w => match body w with
           | (Ok a, w') => (Ok a, w')
           | (Raise e, w') =>
               match handler e with
               | Some h => h w'
               | None => (Raise e, w')
               end
           end.

Declare Scope py_scope.
Delimit Scope py_scope with py.
Notation "x <- c ;; k" := (bind c (fun x => k))
  (at level 100, c at next level, right associativity) : py_scope.
Notation "c ;; k" := (bind c (fun _ => k))
  (at level 100, right associativity) : py_scope.
Local Open Scope py_scope.

(** [mapM] over a list, left to right, for the loops that may raise. *)
Fixpoint map_result {A B} (f : A -> result B) (l : list A) : result (list B) :=
  match l with
  | [] => Ok []
  | a :: l' =>
      rbind (f a) (fun b => rbind (map_result f l') (fun bs => Ok (b :: bs)))
  end.

Definition logger (r : log_record) : M unit := modify (add_log r).

(** ** Loading the answer key *)

Definition is_str (v : value) : bool :=
  match v with VStr _ => true | _ => false end.

Definition str_of (v : value) : string :=
  match v with VStr s => s | _ => EmptyString end.

(** [load_answer_key], line 35. *)
Definition load_answer_key : M (list string) :=
  try_except
    (f <- gets ANSWER_FILE ;;
     data <- lift (json_load f) ;;
     answers <- lift (Py.get_default data "answers" (VList [])) ;;
     match answers with
     | VList l =>
         if forallb is_str l then ret (List.map str_of l)
         else lift (Raise ValueError)
     | _ => lift (Raise ValueError)
     end)
    (fun e =>
       match e with
       | FileNotFoundError => Some (logger ErrAnswerFileNotFound ;; ret [])
       | JSONDecodeError => Some (logger ErrAnswerJSON ;; ret [])
       | _ =>
           if is_ValueError e then Some (logger (ErrAnswerValue e) ;; ret [])
           else None
       end).

(** ** The statistics store *)

Definition is_None (v : value) : bool :=
  match v with VNone => true | _ => false end.

(** [load_stats], line 62.  The value returned is the object that
    [cached_stats] holds. *)
Definition load_stats : M value :=
  c <- gets cached_stats ;;
  (if is_None c then
     f <- gets STATS_FILE ;;
     if exists_ f then
       try_except
         (data <- lift (json_load f) ;;
          users <- lift (Py.get_default data "users" (VDict [])) ;;
          modify (set_cached_stats users))
         (fun e =>
            match e with
            | JSONDecodeError =>
                Some (logger ErrStatsJSON ;; modify (set_cached_stats (VDict [])))
            | _ => None
            end)
     else modify (set_cached_stats (VDict []))
   else ret tt) ;;
  gets cached_stats.

(** [save_stats], line 77.  A write that fails raises an [IOError], which
    line 87 catches and logs; when it fails after [open(.., 'w')], the
    file has been emptied and holds what was written until then. *)
Definition save_stats (stats : value) : M unit :=
  modify (set_cached_stats stats) ;;
  let data := VDict [(KStr "users", stats)] in
  ok <- gets stats_writable ;;
  if ok then modify (set_STATS_FILE (Document (to_json data)))
  else
    remains <- gets stats_write_leaves ;;
    match remains with
    | Some f => modify (set_STATS_FILE f)
    | None => ret tt
    end ;;
    logger ErrStatsWrite.

(** [save_stats_to_excel], line 90.  pandas opens the file before it
    writes the cells, and saves what it has when a cell is refused; only an
    [IOError] is caught, at line 103. *)
Definition save_stats_to_excel (stats : value) : M unit :=
  items <- lift (Py.items stats) ;;
  data <- lift (map_result (fun item =>
            let user_data := snd item in
            rbind (Py.getitem user_data (KStr "scores")) (fun scores =>
            rbind (Py.sum scores) (fun total_correct =>
            rbind (Py.getitem user_data (KStr "first_name")) (fun first =>
            rbind (Py.getitem user_data (KStr "last_name")) (fun last =>
            Ok (first, last, total_correct)))))) items) ;;
  ok <- gets excel_writable ;;
  if ok then
    refused <- gets (fun w => to_excel_refuses w data) ;;
    match refused with
    | None => modify (set_EXCEL_FILE (Some data))
    | Some (e, remains) =>
        modify (set_EXCEL_FILE remains) ;;
        if is_IOError e then logger ErrExcelWrite else lift (Raise e)
    end
  else logger ErrExcelWrite.

(** ** The handlers *)

(** What a handler reads from [update.message], for an update that has a
    message; one that has none is the [NoMessage] case of [incoming].
    Sending a reply is taken to succeed. *)
Record update : Set := mkUpdate {
  chat_id : Z;
  user_id : Z;                  (* from_user.id *)
  first_name : string;          (* from_user.first_name *)
  last_name : option string;    (* from_user.last_name, may be None *)
  text : string
  }.

Definition reply_text (u : update) (m : message) : M unit :=
  modify (add_outbox (chat_id u) m).

Definition value_of_last_name (o : option string) : value :=
  match o with Some s => VStr s | None => VNone end.

(** The record that line 171 stores. *)
Definition new_record (first last : value) (correct_answers : Z) : value :=
  VDict [(KStr "first_name", first); (KStr "last_name", last);
         (KStr "scores", VList [VInt correct_answers])].

(** The test of line 170:
    [user_id not in stats or len(stats[user_id]['scores']) == 0]. *)
Definition is_first_attempt (stats : value) (uid : Z) : result bool :=
  rbind (Py.contains_int stats uid) (fun present =>
  if negb present then Ok true
  else
    rbind (Py.getitem stats (KInt uid)) (fun record =>
    rbind (Py.getitem record (KStr "scores")) (fun scores =>
    rbind (Py.len scores) (fun n => Ok (n =? 0))))).

(** Lines 170-177 on the object [stats]: the object after the statement,
    and whether the attempt was stored. *)
Definition record_first_attempt (stats : value) (uid : Z)
    (first last : value) (correct_answers : Z) : result (value * bool) :=
  rbind (is_first_attempt stats uid) (fun first_attempt =>
  if first_attempt then
    rbind (Py.setitem_int stats uid (new_record first last correct_answers))
      (fun stats' => Ok (stats', true))
  else Ok (stats, false)).

(** [sorted(items, key=..., reverse=True)] on items paired with their keys:
    descending, and items with equal keys keep their order. *)
Section Sorted.
Context {A : Type}.

Fixpoint insert_desc (x : Z * A) (l : list (Z * A)) : list (Z * A) :=
  match l with
  | [] => [x]
  | y :: l' => if fst y <=? fst x then x :: l else y :: insert_desc x l'
  end.

Fixpoint sorted_reverse (l : list (Z * A)) : list (Z * A) :=
  match l with
  | [] => []
  | x :: l' => insert_desc x (sorted_reverse l')
  end.

(** Descending by key. *)
Definition desc (x y : Z * A) : Prop := fst y <= fst x.
End Sorted.

Section Handlers.

(** The module constant [ANSWER_KEY], line 56. *)
Variable ANSWER_KEY : list string.

Definition total_questions : Z := Z.of_nat (List.length ANSWER_KEY).

(** [submit_answers], line 142.  [stats] is the cached object itself, so
    the assignment of line 171 is seen through [cached_stats] at once. *)
Definition submit_answers (u : update) : M unit :=
  logger InfoSubmitCalled ;;
  let user_answers := PyStr.chars (PyStr.strip (text u)) in
  if negb (List.length user_answers =? List.length ANSWER_KEY)%nat then
    reply_text u MsgWrongCount ;;
    logger (WarnWrongCount (user_id u))
  else
    let '(correct_answers, incorrect_answers) :=
      score ANSWER_KEY user_answers in
    percentage <- lift (calculate_percentage correct_answers total_questions) ;;
    reply_text u
      (MsgScore correct_answers total_questions percentage incorrect_answers) ;;
    stats <- load_stats ;;
    r <- lift (record_first_attempt stats (user_id u)
                 (VStr (first_name u)) (value_of_last_name (last_name u))
                 correct_answers) ;;
    modify (set_cached_stats (fst r)) ;;
    (if snd r then ret tt else logger (InfoRepeatIgnored (user_id u))) ;;
    save_stats (fst r) ;;
    save_stats_to_excel (fst r) ;;
    modify (fun w =>
      set_user_states (<[user_id u := answers_submitted]> (user_states w)) w).

(** The key of line 195, [sum(x[1]['scores'])]. *)
Definition total_of (item : pykey * value) : result Z :=
  rbind (Py.getitem (snd item) (KStr "scores")) Py.sum.

(** The body of the loop of line 198 for one item of [sorted_stats]. *)
Definition render_line (item : pykey * value) : result stats_line :=
  let data := snd item in
  rbind (Py.getitem data (KStr "scores")) (fun scores =>
  rbind (Py.sum scores) (fun total_correct =>
  rbind (calculate_percentage total_correct total_questions) (fun percentage =>
  rbind (Py.getitem data (KStr "first_name")) (fun first =>
  rbind (Py.getitem data (KStr "last_name")) (fun last =>
  Ok (first, last, total_correct, percentage)))))).

(** Lines 195-201 on the object [stats]. *)
Definition render (stats : value) : result (list stats_line) :=
  rbind (Py.items stats) (fun items =>
  rbind (map_result (fun item =>
           rbind (total_of item) (fun k => Ok (k, item))) items) (fun keyed =>
  let sorted_stats := List.map snd (sorted_reverse keyed) in
  map_result render_line sorted_stats)).

(** [show_stats], line 191. *)
Definition show_stats (u : update) : M unit :=
  logger InfoShowStatsCalled ;;
  stats <- load_stats ;;
  lines <- lift (render stats) ;;
  reply_text u (MsgStats lines).

(** [handle_message], line 204. *)
Definition handle_message (u : update) : M unit :=
  try_except
    (st <- gets (fun w => user_states w !! user_id u) ;;
     match st with
     | Some answers_submitted => reply_text u MsgAlreadySubmitted
     | _ => submit_answers u
     end)
    (fun e => Some (logger (ErrHandler e) ;; reply_text u MsgError)).

End Handlers.

(** ** The specification's reading of scoring *)

(** The score after the positions [0 .. i-1], told position by position as
    the specification does: a position whose normalized answer equals the
    normalized key counts, any other is appended as a mistake with its
    1-based position. *)
Fixpoint spec_score_upto (key submission : list string) (i : nat)
  : Z * list (Z * string) :=
  match i with
  | O => (0, [])
  | S j =>
      let '(correctCount, mistakes) := spec_score_upto key submission j in
      let a := nth j submission EmptyString in
      if String.eqb (normalize_answer a)
                    (normalize_answer (nth j key EmptyString))
      then (correctCount + 1, mistakes)
      else (correctCount, mistakes ++ [(Z.of_nat j + 1, a)])
  end.

(** ** Doubles of bounded magnitude *)

(** A double that is zero or finite with exponent at most 0 and magnitude
    below [2 ^ B]. *)
Definition small (B : Z) (x : spec_float) : Prop :=
  match x with
  | S754_zero _ => True
  | S754_finite _ m e => e <= 0 /\ Zdigits2 (Z.pos m) + e <= B
  | _ => False
  end.

(** ** Sequences of calls of the first-attempt rule *)

(** One call of lines 170-177: who calls, and with which score. *)
Record attempt : Set := mkAttempt {
  a_user : Z;
  a_first : value;
  a_last : value;
  a_correct : Z
}.

(** The object [stats] after a sequence of calls; a call that raises has
    not assigned. *)
Fixpoint replay (stats : value) (calls : list attempt) : value :=
  match calls with
  | [] => stats
  | a :: rest =>
      match record_first_attempt stats (a_user a) (a_first a) (a_last a)
              (a_correct a) with
      | Ok (stats', _) => replay stats' rest
      | Raise _ => replay stats rest
      end
  end.

(** ** Shapes of documents and records *)

(** Is the top level of the document an object. *)
Definition is_object (j : json) : bool :=
  match j with JObj _ => true | _ => false end.

Definition line_total (line : stats_line) : Z := snd (fst line).
Definition line_percentage (line : stats_line) : Z := snd line.

(** A record as the handlers store it, with a total that is a score out of
    [n] questions. *)
Definition user_record (n : Z) (r : value) : Prop :=
  exists (first last : value) (scores : list Z),
    Py.getitem r (KStr "first_name") = Ok first
    /\ Py.getitem r (KStr "last_name") = Ok last
    /\ Py.getitem r (KStr "scores") = Ok (VList (List.map VInt scores))
    /\ (n = 0 \/ 0 <= fold_right Z.add 0 scores <= n).

(** A dictionary all of whose keys are strings. *)
Definition str_keys (d : list (pykey * value)) : Prop :=
  Forall (fun p => exists s, fst p = KStr s) d.

(** The world after the process is started again: the globals are fresh,
    the files are as they were. *)
Definition restart (w : world) : world :=
  set_cached_stats VNone (set_user_states ∅ w).

(** A stored document with a record for user 42 under the name "42". *)
Definition stored_42 : json :=
  JObj [("users"%string,
         JObj [("42"%string, to_json (new_record (VStr "Ann") VNone 2))])].

(** ** Blank strings and matching positions *)

(** Is every character of [s] blank. *)
Fixpoint all_blank (s : string) : bool :=
  match s with
  | EmptyString => true
  | String c s' => PyStr.isspace c && all_blank s'
  end.

(** The test of line 159 for the answer [a] at index [i]:
    [i < len(ANSWER_KEY) and normalize_answer(a) == normalize_answer(ANSWER_KEY[i])]. *)
Definition matches (ANSWER_KEY : list string) (i : nat) (a : string) : bool :=
  match nth_error ANSWER_KEY i with
  | Some k => String.eqb (normalize_answer a) (normalize_answer k)
  | None => false
  end.

(** Does [s] begin with a blank. *)
Definition starts_blank (s : string) : bool :=
  match s with
  | EmptyString => false
  | String c _ => PyStr.isspace c
  end.

(** Does [s] end with a blank. *)
Fixpoint ends_blank (s : string) : bool :=
  match s with
  | EmptyString => false
  | String c EmptyString => PyStr.isspace c
  | String _ s' => ends_blank s'
  end.

(** ** Values as [json.dump] and [json.load] hand them on *)

(** A value with every key of every dictionary replaced by the member name
    that [json.dump] writes for it. *)
Fixpoint stringify (v : value) : value :=
  match v with
  | VList l => VList (List.map stringify l)
  | VDict d =>
      VDict (List.map (fun p => (KStr (dump_key (fst p)), stringify (snd p))) d)
  | _ => v
  end.

(** In every dictionary of the value the member names that [json.dump]
    writes are different from each other. *)
Fixpoint distinct_names (v : value) : Prop :=
  match v with
  | VList l => fold_right (fun x P => distinct_names x /\ P) True l
  | VDict d =>
      List.NoDup (List.map (fun p => dump_key (fst p)) d)
      /\ fold_right (fun p P => distinct_names (snd p) /\ P) True d
  | _ => True
  end.

(** What [load_stats] returns, from the cache and the file it finds. *)
Definition load_value (cache : value) (f : file) : result value :=
  if is_None cache then
    match f with
    | Missing | NotJSON => Ok (VDict [])
    | Unreadable directory => Raise (open_error directory)
    | NotUTF8 => Raise UnicodeDecodeError
    | DigitLimit => Raise ValueError
    | Document j => Py.get_default (of_json j) "users" (VDict [])
    end
  else Ok cache.

(** ** The menu handlers and the routing of updates *)

(** What [start] and [send_test] log and send, in the order of the code.
    These records and messages are of other kinds than those of the
    scoring handlers; a menu handler returns them instead of appending
    them to [log] and [outbox]. *)
Inductive menu_event : Set :=
  | LogStartCalled
  | SendWelcome (chat : Z)      (* with the keyboard /get_test, /show_stats *)
  | LogGetTestCalled
  | SendPhoto (chat : Z) (path : string)
  | SendFileMissing (chat : Z) (path : string)
  | LogFileMissing (path : string)
  | SendRecommendations (chat : Z).

(** [start], line 106. *)
Definition start (u : update) : M (list menu_event) :=
  ret [LogStartCalled; SendWelcome (chat_id u)].

Section Menu.

(** The image paths of lines 122-126, and whether [open(path, 'rb')]
    finds the file. *)
Variable file_paths : list string.
Variable image_found : string -> bool.

(** The body of the loop of line 127 for one path. *)
Definition send_image (u : update) (file_path : string) : list menu_event :=
  if image_found file_path then [SendPhoto (chat_id u) file_path]
  else [SendFileMissing (chat_id u) file_path; LogFileMissing file_path].

(** [send_test], line 116. *)
Definition send_test (u : update) : M (list menu_event) :=
  modify (fun w =>
    set_user_states (<[user_id u := test_sent]> (user_states w)) w) ;;
  ret (LogGetTestCalled
       :: flat_map (send_image u) file_paths
       ++ [SendRecommendations (chat_id u)]).

(** The four handlers registered at lines 259-268. *)
Inductive handler : Set :=
  | HStart
  | HGetTest
  | HShowStats
  | HText.

(** An update as the handlers receive it: with a message, or without one.
    [update.message] is [None] for an edited message, which the command
    handlers and the text filter of line 262 let through, and for a
    channel post, which the text filter lets through. *)
Inductive incoming : Set :=
  | CmdStart (u : update)
  | CmdGetTest (u : update)
  | CmdShowStats (u : update)
  | PlainText (u : update)
  | NoMessage (h : handler).

Variable ANSWER_KEY : list string.

(** A handler on an update whose [message] is [None]: the first read of
    an attribute of [update.message] raises [AttributeError]; that is line
    114 in [start], line 119 in [send_test], line 202 in [show_stats], and
    in [handle_message] line 207, inside the [try], and then line 214,
    outside of it. *)
Definition without_message (h : handler) : M unit :=
  match h with
  | HStart => lift (Raise AttributeError)
  | HGetTest => lift (Raise AttributeError)
  | HShowStats =>
      logger InfoShowStatsCalled ;;
      stats <- load_stats ;;
      lines <- lift (render ANSWER_KEY stats) ;;
      lift (Raise AttributeError)
  | HText =>
      try_except (lift (Raise AttributeError))
        (fun e => Some (logger (ErrHandler e) ;; lift (Raise AttributeError)))
  end.

(** The handler that an update is routed to. *)
Definition dispatch (i : incoming) : M unit :=
  match i with
  | CmdStart u => start u ;; ret tt
  | CmdGetTest u => send_test u ;; ret tt
  | CmdShowStats u => show_stats ANSWER_KEY u
  | PlainText u => handle_message ANSWER_KEY u
  | NoMessage h => without_message h
  end.

(** The world after a sequence of updates, whatever each handler returns. *)
Fixpoint run (updates : list incoming) (w : world) : world :=
  match updates with
  | [] => w
  | i :: rest => run rest (snd (dispatch i w))
  end.

End Menu.

(** ** States of a process whose statistics are in order *)

(** The mapping that [load_stats] would return is a dictionary of records
    with a name, a surname and a list of integer scores whose sum is a
    score out of the questions of the key. *)
Definition tidy (ANSWER_KEY : list string) (w : world) : Prop :=
  exists d,
    load_value (cached_stats w) (STATS_FILE w) = Ok (VDict d)
    /\ Forall (fun item => user_record (total_questions ANSWER_KEY) (snd item)) d.

(** What lines 170-177 can make of the mapping [d], for a key of [n]
    answers: nothing, or the record of a first attempt with a score out of
    [n]. *)
Definition grows (n : Z) (d d' : list (pykey * value)) : Prop :=
  d' = d
  \/ exists (uid : Z) (first last : value) (c : Z),
       is_first_attempt (VDict d) uid = Ok true
       /\ 0 <= c <= n
       /\ d' = PyDict.set d (KInt uid) (new_record first last c).

(** The record has a score. *)
Definition has_score (r : value) : Prop :=
  exists x xs, Py.getitem r (KStr "scores") = Ok (VList (x :: xs)).

(** The row of line 95 for one item of the mapping. *)
Definition excel_row_of (item : pykey * value) : result excel_row :=
  let user_data := snd item in
  rbind (Py.getitem user_data (KStr "scores")) (fun scores =>
  rbind (Py.sum scores) (fun total_correct =>
  rbind (Py.getitem user_data (KStr "first_name")) (fun first =>
  rbind (Py.getitem user_data (KStr "last_name")) (fun last =>
  Ok (first, last, total_correct))))).

(** Lines 170-183 of [submit_answers], after [load_stats] has returned
    [stats]. *)
Definition store_and_mark (u : update) (correct_answers : Z) (stats : value)
  : M unit :=
  r <- lift (record_first_attempt stats (user_id u)
               (VStr (first_name u)) (value_of_last_name (last_name u))
               correct_answers) ;;
  modify (set_cached_stats (fst r)) ;;
  (if snd r then ret tt else logger (InfoRepeatIgnored (user_id u))) ;;
  save_stats (fst r) ;;
  save_stats_to_excel (fst r) ;;
  modify (fun w =>
    set_user_states (<[user_id u := answers_submitted]> (user_states w)) w).

(** ** Ties on the leaderboard *)

(** Does the item have the total [t], the sort key of line 195. *)
Definition has_total (t : Z) (item : pykey * value) : bool :=
  match total_of item with
  | Ok k => k =? t
  | Raise _ => false
  end.

(** ** Counting what a menu handler does *)

(** Is the event a message to the chat. *)
Definition to_chat (e : menu_event) : bool :=
  match e with
  | SendWelcome _ | SendPhoto _ _ | SendFileMissing _ _
  | SendRecommendations _ => true
  | LogStartCalled | LogGetTestCalled | LogFileMissing _ => false
  end.

(** Is the event a record of [logger.error]. *)
Definition is_error (e : menu_event) : bool :=
  match e with
  | LogFileMissing _ => true
  | _ => false
  end.

(** ** The files after a write *)

(** The world that [save_stats stats] leaves. *)
Definition after_save (stats : value) (w : world) : world :=
  let cached := set_cached_stats stats w in
  if stats_writable w
  then set_STATS_FILE (Document (to_json (VDict [(KStr "users", stats)]))) cached
  else add_log ErrStatsWrite
         match stats_write_leaves w with
         | Some f => set_STATS_FILE f cached
         | None => cached
         end.

(** The result of [df.to_excel] on the rows [data], and the world it
    leaves. *)
Definition after_export (data : list excel_row) (w : world)
  : result unit * world :=
  if excel_writable w then
    match to_excel_refuses w data with
    | None => (Ok tt, set_EXCEL_FILE (Some data) w)
    | Some (e, remains) =>
        if is_IOError e
        then (Ok tt, add_log ErrExcelWrite (set_EXCEL_FILE remains w))
        else (Raise e, set_EXCEL_FILE remains w)
    end
  else (Ok tt, add_log ErrExcelWrite w).

(** ** The specification's reading of the percentage *)



(** * Properties *)

(** ** Strings and normalization *)

Lemma append_cons (c : ascii) (s t : string) :
  String.append (String c s) t = String c (String.append s t).
Proof. reflexivity. Qed.

Lemma append_empty_r (s : string) : String.append s EmptyString = s.
Proof.
  induction s as [|c s IH]; [reflexivity | now rewrite append_cons, IH].
Qed.

Lemma append_assoc (a b c : string) :
  String.append (String.append a b) c = String.append a (String.append b c).
Proof.
  induction a as [|x a IH]; [reflexivity | now rewrite !append_cons, IH].
Qed.

Lemma join_empty_cons (p : string) (rest : list string) :
  PyStr.join EmptyString (p :: rest)
  = String.append p (PyStr.join EmptyString rest).
Proof.
  destruct rest as [|q rest]; simpl; [now rewrite append_empty_r | reflexivity].
Qed.

(** Splitting on blanks and gluing the pieces removes the blanks. *)
Lemma join_split_from (s cur : string) :
  PyStr.join EmptyString (PyStr.split_from cur s)
  = String.append cur (PyStr.remove_blanks s).
Proof.
  revert cur; induction s as [|c s IH]; intros cur; cbn [PyStr.split_from PyStr.remove_blanks].
  - destruct cur as [|x cur]; cbn [PyStr.is_empty PyStr.join];
      [reflexivity | now rewrite append_empty_r].
  - destruct (PyStr.isspace c).
    + destruct cur as [|x cur]; cbn [PyStr.is_empty].
      * now rewrite IH.
      * now rewrite join_empty_cons, IH.
    + now rewrite IH, append_assoc.
Qed.

Lemma normalize_answer_eq (x : string) :
  normalize_answer x = PyStr.lower (PyStr.remove_blanks x).
Proof. unfold normalize_answer, PyStr.split. now rewrite join_split_from. Qed.

Lemma isspace_lower_char (c : ascii) :
  PyStr.isspace (PyStr.lower_char c) = PyStr.isspace c.
Proof. destruct c as [[] [] [] [] [] [] [] []]; reflexivity. Qed.

Lemma lower_char_idem (c : ascii) :
  PyStr.lower_char (PyStr.lower_char c) = PyStr.lower_char c.
Proof. destruct c as [[] [] [] [] [] [] [] []]; reflexivity. Qed.

Lemma remove_blanks_lower (s : string) :
  PyStr.remove_blanks (PyStr.lower s) = PyStr.lower (PyStr.remove_blanks s).
Proof.
  induction s as [|c s IH]; simpl; [reflexivity |].
  rewrite isspace_lower_char.
  destruct (PyStr.isspace c); simpl; now rewrite IH.
Qed.

Lemma remove_blanks_idem (s : string) :
  PyStr.remove_blanks (PyStr.remove_blanks s) = PyStr.remove_blanks s.
Proof.
  induction s as [|c s IH]; simpl; [reflexivity |].
  destruct (PyStr.isspace c) eqn:E; simpl; [assumption |].
  now rewrite E, IH.
Qed.

Lemma lower_idem (s : string) : PyStr.lower (PyStr.lower s) = PyStr.lower s.
Proof.
  induction s as [|c s IH]; simpl; [reflexivity |].
  now rewrite lower_char_idem, IH.
Qed.

(** C8: [normalize_answer] removes every blank character and lowercases
    the rest, and normalizing a normalized answer changes nothing. *)
Theorem normalize_answer_idempotent (x : string) :
  normalize_answer x = PyStr.lower (PyStr.remove_blanks x)
  /\ normalize_answer (normalize_answer x) = normalize_answer x.
Proof.
  split; [apply normalize_answer_eq |].
  rewrite !normalize_answer_eq.
  now rewrite remove_blanks_lower, remove_blanks_idem, lower_idem.
Qed.

(** ** Scoring *)

Lemma nth_middle_app {A} (pre : list A) (a d : A) (rest : list A) :
  nth (List.length pre) (pre ++ a :: rest) d = a.
Proof. induction pre as [|x pre IH]; simpl; [reflexivity | exact IH]. Qed.

(** The loop, started at position [length pre] with the score of the
    positions before it, ends with the score of all positions. *)
Lemma score_loop_upto (key : list string) :
  forall (rest pre : list string) (c : Z) (m : list (Z * string)),
    List.length (pre ++ rest) = List.length key ->
    spec_score_upto key (pre ++ rest) (List.length pre) = (c, m) ->
    score_loop key (List.length pre) rest c m
    = spec_score_upto key (pre ++ rest) (List.length (pre ++ rest)).
Proof.
  induction rest as [|a rest IH]; intros pre c m Hlen Hpre.
  - rewrite app_nil_r in *. simpl. now rewrite Hpre.
  - assert (Hsplit : pre ++ a :: rest = (pre ++ [a]) ++ rest)
      by now rewrite <- app_assoc.
    assert (Hlt : (List.length pre < List.length key)%nat).
    { rewrite <- Hlen, length_app. simpl. lia. }
    assert (Hk : nth_error key (List.length pre)
                 = Some (nth (List.length pre) key EmptyString))
      by now apply nth_error_nth'.
    assert (Hnext : List.length (pre ++ [a]) = S (List.length pre)).
    { rewrite length_app. simpl. lia. }
    cbn [score_loop]. rewrite Hk.
    rewrite Hsplit in Hlen |- *.
    rewrite <- Hnext.
    destruct (String.eqb (normalize_answer a)
                (normalize_answer (nth (List.length pre) key EmptyString)))
      eqn:E; apply IH; try assumption;
      rewrite Hnext; cbn [spec_score_upto];
      rewrite <- Hsplit, Hpre, nth_middle_app, E; reflexivity.
Qed.

(** C6: on a submission as long as the key the loop of [submit_answers]
    computes the position-by-position score: a position whose normalized
    answer equals the normalized key adds one to the count, any other
    position [i] appends [(i+1, submission[i])]; and the key a, b, c with
    the text abd gives 2 correct, the mistake (3, d) and 67 percent. *)
Theorem score_positionwise :
  (forall key submission : list string,
      List.length submission = List.length key ->
      score key submission
      = spec_score_upto key submission (List.length submission))
  /\ score ["a"; "b"; "c"]%string (PyStr.chars (PyStr.strip "abd"))
     = (2, [(3, "d"%string)])
  /\ calculate_percentage 2 3 = Ok 67.
Proof.
  split; [| split; vm_compute; reflexivity].
  intros key submission Hlen.
  exact (score_loop_upto key submission [] 0 [] Hlen eq_refl).
Qed.

Lemma score_positionwise_witness :
  score ["a"; "b"; "c"]%string ["a"; "b"; "d"]%string
  = spec_score_upto ["a"; "b"; "c"]%string ["a"; "b"; "d"]%string 3.
Proof.
  exact (proj1 score_positionwise ["a"; "b"; "c"]%string
           ["a"; "b"; "d"]%string eq_refl).
Defined.

(** One step of the specification's score, spelled out. *)
Lemma spec_score_upto_step (key submission : list string) (i : nat) :
  spec_score_upto key submission (S i)
  = (if String.eqb (normalize_answer (nth i submission EmptyString))
                   (normalize_answer (nth i key EmptyString))
     then (fst (spec_score_upto key submission i) + 1,
           snd (spec_score_upto key submission i))
     else (fst (spec_score_upto key submission i),
           snd (spec_score_upto key submission i)
           ++ [(Z.of_nat i + 1, nth i submission EmptyString)])).
Proof.
  cbn [spec_score_upto]. destruct (spec_score_upto key submission i) as [c m].
  reflexivity.
Qed.

(** ** Floats: the percentage of a score is a finite double *)

Lemma digits2_pos_size (p : positive) : digits2_pos p = Pos.size p.
Proof. induction p as [p IH|p IH|]; simpl; now rewrite ?IH. Qed.

Lemma Zdigits2_log2 (m : Z) : 0 < m -> Zdigits2 m = Z.log2 m + 1.
Proof.
  destruct m as [|p|p]; try lia. intros _. simpl.
  rewrite digits2_pos_size. destruct p; simpl; lia.
Qed.

Lemma Zdigits2_nonneg (m : Z) : 0 <= Zdigits2 m.
Proof. destruct m; simpl; lia. Qed.

Lemma Zdigits2_gt (m : Z) : 0 <= m -> m < 2 ^ Zdigits2 m.
Proof.
  intros H. destruct (Z.eq_dec m 0) as [->|Hne]; [reflexivity|].
  rewrite Zdigits2_log2 by lia. apply Z.log2_spec. lia.
Qed.

Lemma Zdigits2_le (m k : Z) : 0 <= k -> 0 <= m < 2 ^ k -> Zdigits2 m <= k.
Proof.
  intros Hk [H0 Hlt]. destruct (Z.eq_dec m 0) as [->|Hne]; [simpl; lia|].
  rewrite Zdigits2_log2 by lia.
  assert (Z.log2 m < k) by (apply Z.log2_lt_pow2; lia). lia.
Qed.

Lemma Zdigits2_div_pow2 (m k : Z) :
  0 <= m -> 0 <= k -> Zdigits2 (m / 2 ^ k) + k <= Z.max (Zdigits2 m) k.
Proof.
  intros Hm Hk.
  assert (Hp : 0 < 2 ^ k) by (apply Z.pow_pos_nonneg; lia).
  assert (Hq : 0 <= m / 2 ^ k) by (apply Z.div_pos; lia).
  destruct (Z_lt_le_dec (Zdigits2 m) k) as [Hlt|Hge].
  - assert (m < 2 ^ k).
    { eapply Z.lt_le_trans; [apply Zdigits2_gt; lia|].
      apply Z.pow_le_mono_r; lia. }
    rewrite Z.div_small by lia. simpl. lia.
  - assert (Zdigits2 (m / 2 ^ k) <= Zdigits2 m - k); [|lia].
    apply Zdigits2_le; [lia|]. split; [lia|].
    apply Z.div_lt_upper_bound; [lia|].
    rewrite <- Z.pow_add_r by lia.
    replace (k + (Zdigits2 m - k)) with (Zdigits2 m) by lia.
    now apply Zdigits2_gt.
Qed.

Lemma Zdigits2_succ (m : Z) : 0 <= m -> Zdigits2 (m + 1) <= Zdigits2 m + 1.
Proof.
  intros Hm. pose proof (Zdigits2_nonneg m) as Hd.
  apply Zdigits2_le; [lia|]. split; [lia|].
  pose proof (Zdigits2_gt m Hm).
  rewrite Z.pow_add_r by lia. change (2 ^ 1) with 2. lia.
Qed.

Lemma Zdigits2_mul (a b : Z) :
  0 <= a -> 0 <= b -> Zdigits2 (a * b) <= Zdigits2 a + Zdigits2 b.
Proof.
  intros Ha Hb.
  pose proof (Zdigits2_nonneg a). pose proof (Zdigits2_nonneg b).
  pose proof (Zdigits2_gt a Ha). pose proof (Zdigits2_gt b Hb).
  apply Zdigits2_le; [lia|]. split; [nia|].
  rewrite Z.pow_add_r by lia. nia.
Qed.

(** Shifting a rounding record right divides its mantissa. *)
Lemma shr_1_m (r : shr_record) : 0 <= shr_m r -> shr_m (shr_1 r) = shr_m r / 2.
Proof.
  destruct r as [m b s]. simpl. intros Hm.
  destruct m as [|[p|p|]|p]; try lia; simpl.
  - reflexivity.
  - rewrite Pos2Z.inj_xI. apply Z.div_unique with 1; lia.
  - rewrite Pos2Z.inj_xO. apply Z.div_unique with 0; lia.
  - reflexivity.
Qed.

Lemma iter_pos_shr_1_m (p : positive) :
  forall r, 0 <= shr_m r ->
            shr_m (SpecFloat.iter_pos shr_1 p r) = shr_m r / 2 ^ Z.pos p.
Proof.
  assert (Hnn : forall a k, 0 <= a -> 0 < k -> 0 <= a / k)
    by (intros; apply Z.div_pos; lia).
  induction p as [p IH|p IH|]; intros r Hr; cbn [SpecFloat.iter_pos].
  - assert (H2 : 0 < 2 ^ Z.pos p) by (apply Z.pow_pos_nonneg; lia).
    assert (H1 : 0 <= shr_m (shr_1 r)) by (rewrite shr_1_m by lia; apply Hnn; lia).
    rewrite IH; rewrite IH by lia; [|apply Hnn; lia].
    rewrite shr_1_m by lia.
    rewrite !Z.div_div by lia.
    f_equal.
    replace (Z.pos p~1) with (Z.succ (Z.pos p + Z.pos p)) by lia.
    rewrite Z.pow_succ_r, Z.pow_add_r by lia. lia.
  - assert (H2 : 0 < 2 ^ Z.pos p) by (apply Z.pow_pos_nonneg; lia).
    rewrite IH; rewrite IH by lia; [|apply Hnn; lia].
    rewrite !Z.div_div by lia.
    f_equal.
    replace (Z.pos p~0) with (Z.pos p + Z.pos p) by lia.
    rewrite Z.pow_add_r by lia. lia.
  - now rewrite shr_1_m.
Qed.

Lemma shr_spec (r : shr_record) (e n : Z) :
  0 <= shr_m r ->
  shr_m (fst (shr r e n)) = shr_m r / 2 ^ Z.max 0 n
  /\ snd (shr r e n) = e + Z.max 0 n.
Proof.
  intros Hr. destruct n as [|p|p]; cbn [shr fst snd].
  - replace (Z.max 0 0) with 0 by lia. rewrite Z.pow_0_r, Z.div_1_r. lia.
  - replace (Z.max 0 (Z.pos p)) with (Z.pos p) by lia.
    rewrite iter_pos_shr_1_m by lia. lia.
  - replace (Z.max 0 (Z.neg p)) with 0 by lia.
    rewrite Z.pow_0_r, Z.div_1_r. lia.
Qed.

Lemma fexp_eq (x : Z) : fexp 53 1024 x = Z.max (x - 53) (-1074).
Proof. reflexivity. Qed.

Lemma round_nearest_even_bounds (m : Z) (l : location) :
  m <= round_nearest_even m l <= m + 1.
Proof.
  destruct l as [|[]]; simpl; try lia. destruct (Z.even m); lia.
Qed.

Lemma shr_record_of_loc_m (m : Z) (l : location) :
  shr_m (shr_record_of_loc m l) = m.
Proof. destruct l as [|[]]; reflexivity. Qed.

Lemma binary_round_aux_small (s : bool) (mx ex : Z) (lx : location) (B : Z) :
  0 <= mx -> ex <= 0 -> 0 <= B <= 50 -> Zdigits2 mx + ex <= B ->
  small (B + 1) (binary_round_aux 53 1024 s mx ex lx).
Proof.
  intros Hmx Hex HB Hd.
  unfold binary_round_aux, shr_fexp. rewrite !fexp_eq.
  remember (Z.max (Zdigits2 mx + ex - 53) (-1074) - ex) as n1 eqn:Hn1.
  pose proof (shr_spec (shr_record_of_loc mx lx) ex n1) as H1.
  rewrite shr_record_of_loc_m in H1. specialize (H1 Hmx).
  destruct (shr (shr_record_of_loc mx lx) ex n1) as [r1 e1].
  cbn [fst snd] in H1. destruct H1 as [Hm1 He1].
  rewrite ?fexp_eq.
  pose proof (round_nearest_even_bounds (shr_m r1) (loc_of_shr_record r1)) as Hm2.
  remember (round_nearest_even (shr_m r1) (loc_of_shr_record r1)) as m2 eqn:Em2.
  clear Em2.
  assert (Hp1 : 0 < 2 ^ Z.max 0 n1) by (apply Z.pow_pos_nonneg; lia).
  assert (Hr1 : 0 <= shr_m r1) by (rewrite Hm1; apply Z.div_pos; lia).
  pose proof (Zdigits2_div_pow2 mx (Z.max 0 n1) Hmx ltac:(lia)) as Hd1.
  rewrite <- Hm1 in Hd1.
  assert (Hd2 : Zdigits2 m2 <= Zdigits2 (shr_m r1) + 1).
  { destruct (Z.eq_dec m2 (shr_m r1)) as [->|Hne]; [lia|].
    replace m2 with (shr_m r1 + 1) by lia. now apply Zdigits2_succ. }
  remember (Z.max (Zdigits2 m2 + e1 - 53) (-1074) - e1) as n2 eqn:Hn2.
  pose proof (shr_spec (shr_record_of_loc m2 loc_Exact) e1 n2) as H2.
  rewrite shr_record_of_loc_m in H2. specialize (H2 ltac:(lia)).
  destruct (shr (shr_record_of_loc m2 loc_Exact) e1 n2) as [r2 e2].
  cbn [fst snd] in H2. destruct H2 as [Hm3 He2].
  assert (Hp2 : 0 < 2 ^ Z.max 0 n2) by (apply Z.pow_pos_nonneg; lia).
  pose proof (Zdigits2_div_pow2 m2 (Z.max 0 n2) ltac:(lia) ltac:(lia)) as Hd3.
  rewrite <- Hm3 in Hd3.
  pose proof (Zdigits2_nonneg m2). pose proof (Zdigits2_nonneg mx).
  pose proof (Zdigits2_nonneg (shr_m r1)).
  assert (He : e2 <= 0) by lia.
  destruct (shr_m r2) as [|m|m] eqn:Em; cbn [small].
  - exact I.
  - replace (e2 <=? 1024 - 53) with true by (symmetry; apply Z.leb_le; lia).
    split; [exact He | lia].
  - assert (0 <= m2 / 2 ^ Z.max 0 n2) by (apply Z.div_pos; lia). lia.
Qed.

Lemma div_core_small (c t : Z) :
  0 < c <= t ->
  let '(q, e, l) := SFdiv_core_binary 53 1024 c 0 t 0 in
  0 <= q /\ e <= 0 /\ Zdigits2 q + e <= 1.
Proof.
  intros [Hc Hct]. unfold SFdiv_core_binary. rewrite fexp_eq.
  remember (Z.min (Z.max (Zdigits2 c + 0 - (Zdigits2 t + 0) - 53) (-1074)) (0 - 0))
    as e eqn:He.
  assert (He0 : e <= 0) by lia.
  remember (match 0 - 0 - e with
            | 0 => c
            | Z.pos _ => Z.shiftl c (0 - 0 - e)
            | Z.neg _ => 0
            end) as m' eqn:Hm'.
  assert (Hm : m' = c * 2 ^ (- e)).
  { subst m'. replace (0 - 0 - e) with (- e) by lia.
    destruct (- e) as [|p|p] eqn:E; try lia.
    rewrite Z.shiftl_mul_pow2; lia. }
  clear Hm'.
  assert (Hp : 0 < 2 ^ (- e)) by (apply Z.pow_pos_nonneg; lia).
  pose proof (Z_div_mod m' t ltac:(lia)) as Hdm.
  destruct (Z.div_eucl m' t) as [q r]. destruct Hdm as [Hq Hr].
  assert (Hq0 : 0 <= q) by nia.
  assert (Hq1 : q <= 2 ^ (- e)) by nia.
  repeat split; try lia.
  assert (Zdigits2 q <= - e + 1); [|lia].
  apply Zdigits2_le; [lia|]. split; [lia|].
  rewrite Z.pow_add_r by lia. change (2 ^ 1) with 2. lia.
Qed.

(** A quotient [c / t] with [0 <= c <= t] is a double of magnitude below 4. *)
Lemma truediv_small (c t : Z) :
  0 < t -> 0 <= c <= t ->
  exists x, PyFloat.truediv c t = Ok x /\ small 2 x.
Proof.
  intros Ht [Hc Hct]. unfold PyFloat.truediv.
  replace (t =? 0) with false by (symmetry; apply Z.eqb_neq; lia).
  replace (t <? 0) with false by (symmetry; apply Z.ltb_ge; lia).
  replace (c <? 0) with false by (symmetry; apply Z.ltb_ge; lia).
  destruct (Z.eqb_spec c 0) as [->|Hne].
  - eexists; split; [reflexivity | exact I].
  - rewrite !Z.abs_eq by lia.
    pose proof (div_core_small c t ltac:(lia)) as Hcore.
    unfold PyFloat.prec, PyFloat.emax.
    destruct (SFdiv_core_binary 53 1024 c 0 t 0) as [[q e] l].
    destruct Hcore as (Hq & He & Hd).
    pose proof (binary_round_aux_small (xorb false false) q e l 1
                  Hq He ltac:(lia) Hd) as Hs.
    destruct (binary_round_aux 53 1024 (xorb false false) q e l) as [s|s| |s m e'];
      cbn [small] in Hs; try contradiction;
      eexists; (split; [reflexivity | exact Hs]).
Qed.

Lemma of_int_100 :
  PyFloat.of_int 100 = S754_finite false 7036874417766400 (-46).
Proof. vm_compute. reflexivity. Qed.

(** A double of magnitude below 4, times 100, is a double of magnitude
    below 1024. *)
Lemma mul_100_small (x : spec_float) :
  small 2 x -> small 10 (PyFloat.mul x (PyFloat.of_int 100)).
Proof.
  intros Hx. rewrite of_int_100. unfold PyFloat.mul.
  destruct x as [s|s| |s m e]; cbn [small] in Hx; try contradiction.
  - exact I.
  - destruct Hx as [He Hd]. cbn [SFmul PyFloat.prec PyFloat.emax].
    apply (binary_round_aux_small _ _ _ _ 9); try lia.
    rewrite Pos2Z.inj_mul.
    pose proof (Zdigits2_mul (Z.pos m) 7036874417766400 ltac:(lia) ltac:(lia)) as Hm.
    change (Zdigits2 7036874417766400) with 53 in Hm. lia.
Qed.

Lemma round_small (B : Z) (x : spec_float) :
  small B x -> exists p, PyFloat.round x = Ok p.
Proof.
  destruct x as [s|s| |s m e]; cbn [small]; try contradiction;
    intros _; eexists; reflexivity.
Qed.



(** Within range the quotient, the product and the rounding all succeed. *)
Lemma calculate_percentage_in_range (c t : Z) :
  0 < t -> 0 <= c <= t ->
  exists (x : spec_float) (p : Z),
    PyFloat.truediv c t = Ok x
    /\ PyFloat.round (PyFloat.mul x (PyFloat.of_int 100)) = Ok p
    /\ calculate_percentage c t = Ok p.
Proof.
  intros Ht Hc.
  destruct (truediv_small c t Ht Hc) as (x & Hx & Hs).
  destruct (round_small 10 _ (mul_100_small x Hs)) as (p & Hp).
  exists x, p. split; [exact Hx | split; [exact Hp |]].
  unfold calculate_percentage.
  replace (t =? 0) with false by (symmetry; apply Z.eqb_neq; lia).
  rewrite Hx. exact Hp.
Qed.

(** The ties of the percentage follow the doubles, not the fractions:
    1/8 is 12.5 percent and rounds to the even 12, 3/8 is 37.5 and rounds
    to the even 38, and 23/40, which is 57.5 as a fraction, is the double
    57.49999999999999 and rounds to 57. *)
Lemma calculate_percentage_ties :
  calculate_percentage 1 8 = Ok 12
  /\ calculate_percentage 3 8 = Ok 38
  /\ calculate_percentage 23 40 = Ok 57.
Proof. repeat split; vm_compute; reflexivity. Qed.

(** ** Dictionaries *)

Lemma key_eqb_eq (a b : pykey) : PyDict.key_eqb a b = true <-> a = b.
Proof.
  destruct a as [x|s], b as [y|t]; simpl; split; try discriminate.
  - intros H. apply Z.eqb_eq in H. now subst.
  - intros [= ->]. apply Z.eqb_refl.
  - intros H. apply String.eqb_eq in H. now subst.
  - intros [= ->]. apply String.eqb_refl.
Qed.

Lemma key_eqb_refl (a : pykey) : PyDict.key_eqb a a = true.
Proof. now apply key_eqb_eq. Qed.

Lemma key_eqb_neq (a b : pykey) : a <> b -> PyDict.key_eqb a b = false.
Proof.
  intros H. destruct (PyDict.key_eqb a b) eqn:E; [|reflexivity].
  now apply key_eqb_eq in E.
Qed.

Section DictFacts.
Context {V : Type}.
Implicit Types (d : list (pykey * V)) (k : pykey) (v : V).

Lemma get_set_eq d k v : PyDict.get (PyDict.set d k v) k = Some v.
Proof.
  induction d as [|[k' v'] d IH]; cbn [PyDict.set PyDict.get].
  - now rewrite key_eqb_refl.
  - destruct (PyDict.key_eqb k' k) eqn:E; cbn [PyDict.get]; now rewrite E.
Qed.

Lemma get_set_ne d k k' v :
  k <> k' -> PyDict.get (PyDict.set d k v) k' = PyDict.get d k'.
Proof.
  intros Hne. induction d as [|[k0 v0] d IH]; cbn [PyDict.set PyDict.get].
  - now rewrite key_eqb_neq.
  - destruct (PyDict.key_eqb k0 k) eqn:E; cbn [PyDict.get].
    + apply key_eqb_eq in E. subst k0. now rewrite key_eqb_neq.
    + now rewrite IH.
Qed.

(** A new key goes to the end. *)
Lemma set_absent d k v :
  PyDict.get d k = None -> PyDict.set d k v = d ++ [(k, v)].
Proof.
  induction d as [|[k' v'] d IH]; cbn [PyDict.set PyDict.get]; [reflexivity|].
  destruct (PyDict.key_eqb k' k); [discriminate|].
  intros H. now rewrite IH.
Qed.
End DictFacts.

(** ** The first attempt within one process *)

Lemma is_first_attempt_absent (d : list (pykey * value)) (uid : Z) :
  PyDict.get d (KInt uid) = None -> is_first_attempt (VDict d) uid = Ok true.
Proof.
  intros H. unfold is_first_attempt. cbn [Py.contains_int rbind].
  unfold PyDict.contains. now rewrite H.
Qed.

Lemma is_first_attempt_recorded (d : list (pykey * value)) (uid : Z)
    (first last : value) (c : Z) :
  PyDict.get d (KInt uid) = Some (new_record first last c) ->
  is_first_attempt (VDict d) uid = Ok false.
Proof.
  intros H. unfold is_first_attempt. cbn [Py.contains_int rbind].
  unfold PyDict.contains. rewrite H. cbn [negb Py.getitem]. rewrite H.
  reflexivity.
Qed.

(** On a [dict] a call raises, or leaves the object alone, or assigns the
    new record under the caller's id after a test that said first attempt. *)
Lemma record_first_attempt_cases (d : list (pykey * value)) (uid : Z)
    (first last : value) (c : Z) :
  (exists e, record_first_attempt (VDict d) uid first last c = Raise e)
  \/ record_first_attempt (VDict d) uid first last c = Ok (VDict d, false)
  \/ (is_first_attempt (VDict d) uid = Ok true
      /\ record_first_attempt (VDict d) uid first last c
         = Ok (VDict (PyDict.set d (KInt uid) (new_record first last c)), true)).
Proof.
  unfold record_first_attempt.
  destruct (is_first_attempt (VDict d) uid) as [[|]|e]; cbn [rbind Py.setitem_int].
  - right; right. split; reflexivity.
  - right; left. reflexivity.
  - left. now exists e.
Qed.

Lemma replay_keeps_record (uid : Z) (first last : value) (c : Z) :
  forall (calls : list attempt) (d : list (pykey * value)),
    PyDict.get d (KInt uid) = Some (new_record first last c) ->
    exists d', replay (VDict d) calls = VDict d'
               /\ PyDict.get d' (KInt uid) = Some (new_record first last c).
Proof.
  induction calls as [|a calls IH]; intros d Hd; cbn [replay].
  - now exists d.
  - destruct (record_first_attempt_cases d (a_user a) (a_first a) (a_last a)
                (a_correct a)) as [[e ->] | [-> | [Hfirst ->]]].
    + now apply IH.
    + now apply IH.
    + apply IH. destruct (Z.eq_dec (a_user a) uid) as [Heq|Hne].
      * rewrite Heq in Hfirst.
        rewrite (is_first_attempt_recorded d uid first last c Hd) in Hfirst.
        discriminate.
      * rewrite get_set_ne by congruence. exact Hd.
Qed.

(** Within one process, on the object in memory: when the integer [uid]
    is not a key of the mapping, or its record has an empty [scores]
    list, lines 170-177 store the record with [scores = [c1]] under
    [uid]; a later call for [uid] with any names and any score [c2]
    returns the mapping as it is; and after any sequence of later calls,
    by this or any other user, the record under [uid] is still the one
    with [scores = [c1]]. *)
Lemma first_attempt_within_process (d : list (pykey * value)) (uid : Z)
    (first last : value) (c1 : Z) :
  (PyDict.get d (KInt uid) = None
   \/ exists record, PyDict.get d (KInt uid) = Some record
                     /\ Py.getitem record (KStr "scores") = Ok (VList [])) ->
  let stats1 := VDict (PyDict.set d (KInt uid) (new_record first last c1)) in
  record_first_attempt (VDict d) uid first last c1 = Ok (stats1, true)
  /\ Py.getitem stats1 (KInt uid) = Ok (new_record first last c1)
  /\ Py.getitem (new_record first last c1) (KStr "scores") = Ok (VList [VInt c1])
  /\ (forall first2 last2 c2,
         record_first_attempt stats1 uid first2 last2 c2 = Ok (stats1, false))
  /\ (forall calls : list attempt,
         rbind (Py.getitem (replay stats1 calls) (KInt uid))
               (fun record => Py.getitem record (KStr "scores"))
         = Ok (VList [VInt c1])
         /\ Py.getitem (replay stats1 calls) (KInt uid)
            = Ok (new_record first last c1)).
Proof.
  intros Hpre stats1.
  assert (Hfirst : is_first_attempt (VDict d) uid = Ok true).
  { destruct Hpre as [Habs | (record & Hrec & Hscores)].
    - now apply is_first_attempt_absent.
    - unfold is_first_attempt. cbn [Py.contains_int rbind].
      unfold PyDict.contains. rewrite Hrec. cbn [negb Py.getitem].
      rewrite Hrec. cbn [rbind]. rewrite Hscores. reflexivity. }
  assert (Hget : PyDict.get (PyDict.set d (KInt uid) (new_record first last c1))
                   (KInt uid) = Some (new_record first last c1))
    by apply get_set_eq.
  split; [| split; [| split; [| split]]].
  - unfold record_first_attempt. rewrite Hfirst. reflexivity.
  - subst stats1. cbn [Py.getitem]. now rewrite Hget.
  - reflexivity.
  - intros first2 last2 c2. subst stats1. unfold record_first_attempt.
    rewrite (is_first_attempt_recorded _ uid first last c1 Hget). reflexivity.
  - intros calls. subst stats1.
    destruct (replay_keeps_record uid first last c1 calls _ Hget)
      as (d' & -> & Hd').
    cbn [Py.getitem]. rewrite Hd'. split; reflexivity.
Qed.

(** ** C2: the session gate *)

(** C2: when the sender's session state is [answers_submitted],
    [handle_message] sends the already-submitted notice and does nothing
    else: [submit_answers] is not entered (the log, where it would have
    written its first record, is unchanged, and no score is sent), and the
    statistics in memory and on disk, the spreadsheet and the session
    states are unchanged. *)
Theorem gate_blocks_resubmission (ANSWER_KEY : list string) (u : update)
    (w : world) :
  user_states w !! user_id u = Some answers_submitted ->
  handle_message ANSWER_KEY u w
  = (Ok tt, add_outbox (chat_id u) MsgAlreadySubmitted w)
  /\ let w' := snd (handle_message ANSWER_KEY u w) in
     outbox w' = outbox w ++ [(chat_id u, MsgAlreadySubmitted)]
     /\ log w' = log w
     /\ cached_stats w' = cached_stats w
     /\ STATS_FILE w' = STATS_FILE w
     /\ EXCEL_FILE w' = EXCEL_FILE w
     /\ user_states w' = user_states w.
Proof.
  intros Hst.
  assert (H : handle_message ANSWER_KEY u w
              = (Ok tt, add_outbox (chat_id u) MsgAlreadySubmitted w)).
  { unfold handle_message, try_except, bind, gets. rewrite Hst. reflexivity. }
  split; [exact H |]. rewrite H. cbn. repeat split; reflexivity.
Qed.

Lemma gate_blocks_resubmission_witness :
  handle_message ["a"; "b"; "c"]%string
    (mkUpdate 7 42 "Ann" None "abc")
    (mkWorld Missing Missing true None true {[ 42 := answers_submitted ]}
       VNone [] [])
  = (Ok tt,
     mkWorld Missing Missing true None true {[ 42 := answers_submitted ]}
       VNone [] [(7, MsgAlreadySubmitted)]).
Proof.
  refine (proj1 (gate_blocks_resubmission ["a"; "b"; "c"]%string
                   (mkUpdate 7 42 "Ann" None "abc")
                   (mkWorld Missing Missing true None true
                      {[ 42 := answers_submitted ]} VNone [] []) _)).
  reflexivity.
Defined.

(** ** C5: a submission of the wrong length changes nothing *)

Lemma submit_answers_wrong_length (ANSWER_KEY : list string) (u : update)
    (w : world) :
  List.length (PyStr.chars (PyStr.strip (text u))) <> List.length ANSWER_KEY ->
  submit_answers ANSWER_KEY u w
  = (Ok tt,
     add_log (WarnWrongCount (user_id u))
       (add_outbox (chat_id u) MsgWrongCount (add_log InfoSubmitCalled w))).
Proof.
  intros Hlen. unfold submit_answers, bind, logger, modify.
  apply Nat.eqb_neq in Hlen. rewrite Hlen. reflexivity.
Qed.

(** C5: when the stripped text has not as many characters as the key has
    answers, [submit_answers] sends the wrong-count rejection and returns:
    no score is computed or sent, the only other effect is on the log, and
    the cached statistics, the statistics file, the spreadsheet and every
    session state are unchanged. *)
Theorem wrong_length_rejected (ANSWER_KEY : list string) (u : update)
    (w : world) :
  List.length (PyStr.chars (PyStr.strip (text u))) <> List.length ANSWER_KEY ->
  submit_answers ANSWER_KEY u w
  = (Ok tt,
     add_log (WarnWrongCount (user_id u))
       (add_outbox (chat_id u) MsgWrongCount (add_log InfoSubmitCalled w)))
  /\ let w' := snd (submit_answers ANSWER_KEY u w) in
     outbox w' = outbox w ++ [(chat_id u, MsgWrongCount)]
     /\ log w' = log w ++ [InfoSubmitCalled; WarnWrongCount (user_id u)]
     /\ cached_stats w' = cached_stats w
     /\ STATS_FILE w' = STATS_FILE w
     /\ EXCEL_FILE w' = EXCEL_FILE w
     /\ user_states w' = user_states w.
Proof.
  intros Hlen.
  pose proof (submit_answers_wrong_length ANSWER_KEY u w Hlen) as H.
  split; [exact H |]. rewrite H. cbn.
  repeat split; try reflexivity. now rewrite <- app_assoc.
Qed.

Lemma wrong_length_rejected_witness :
  submit_answers ["a"; "b"; "c"]%string
    (mkUpdate 7 42 "Ann" None "ab")
    (mkWorld Missing Missing true None true ∅ VNone [] [])
  = (Ok tt,
     mkWorld Missing Missing true None true ∅ VNone
       [InfoSubmitCalled; WarnWrongCount 42] [(7, MsgWrongCount)]).
Proof.
  refine (proj1 (wrong_length_rejected ["a"; "b"; "c"]%string
                   (mkUpdate 7 42 "Ann" None "ab")
                   (mkWorld Missing Missing true None true ∅ VNone [] []) _)).
  vm_compute. discriminate.
Defined.

(** Through [handle_message] the same holds for every sender whose state
    is not [answers_submitted]. *)
Lemma wrong_length_rejected_by_handler (ANSWER_KEY : list string)
    (u : update) (w : world) :
  user_states w !! user_id u <> Some answers_submitted ->
  List.length (PyStr.chars (PyStr.strip (text u))) <> List.length ANSWER_KEY ->
  handle_message ANSWER_KEY u w
  = (Ok tt,
     add_log (WarnWrongCount (user_id u))
       (add_outbox (chat_id u) MsgWrongCount (add_log InfoSubmitCalled w))).
Proof.
  intros Hst Hlen.
  pose proof (submit_answers_wrong_length ANSWER_KEY u w Hlen) as H.
  unfold handle_message, try_except, bind, gets.
  destruct (user_states w !! user_id u) as [[|]|]; try congruence;
    now rewrite H.
Qed.

(** ** C3 and C4: loading from disk *)

Lemma get_default_not_object (j : json) (k : string) (default : value) :
  is_object j = false ->
  Py.get_default (of_json j) k default = Raise AttributeError.
Proof. destruct j; try discriminate; reflexivity. Qed.

(** What [load_answer_key] absorbs: a missing file, bytes that are not
    UTF-8, text that is not JSON, and an object whose [answers] member is
    not a list of strings are logged and give the empty key. *)
Lemma load_answer_key_absorbed (w : world) :
  (ANSWER_FILE w = Missing ->
   load_answer_key w = (Ok [], add_log ErrAnswerFileNotFound w))
  /\ (ANSWER_FILE w = NotUTF8 ->
      load_answer_key w = (Ok [], add_log (ErrAnswerValue UnicodeDecodeError) w))
  /\ (ANSWER_FILE w = NotJSON ->
      load_answer_key w = (Ok [], add_log ErrAnswerJSON w))
  /\ (forall members answers,
         ANSWER_FILE w = Document (JObj members) ->
         Py.get_default (of_json (JObj members)) "answers" (VList [])
         = Ok answers ->
         (forall l, answers = VList l -> forallb is_str l = false) ->
         load_answer_key w = (Ok [], add_log (ErrAnswerValue ValueError) w)).
Proof.
  unfold load_answer_key, try_except, bind, gets, lift.
  repeat split.
  - intros ->. reflexivity.
  - intros ->. reflexivity.
  - intros ->. reflexivity.
  - intros members answers -> Hget Hbad. cbn [json_load].
    rewrite Hget. destruct answers as [| | | |l|]; try reflexivity.
    now rewrite (Hbad l eq_refl).
Qed.

(** The path without an exception: an object whose [answers] member, or
    the default [[]] when there is none, is a list of strings gives those
    strings, and nothing is logged. *)
Lemma load_answer_key_valid (w : world) (members : list (string * json))
    (l : list value) :
  ANSWER_FILE w = Document (JObj members) ->
  Py.get_default (of_json (JObj members)) "answers" (VList []) = Ok (VList l) ->
  forallb is_str l = true ->
  load_answer_key w = (Ok (List.map str_of l), w).
Proof.
  intros Hf Hget Hl. unfold load_answer_key, try_except, bind, gets, lift.
  rewrite Hf. cbn [json_load]. rewrite Hget, Hl. reflexivity.
Qed.

(** C4: an answer-key file that holds valid JSON whose top level is not an
    object, such as a bare list of answers, is not absorbed:
    [data.get] raises [AttributeError], no clause of [load_answer_key]
    catches it, nothing is logged, and the exception leaves the function;
    at line 56 it ends the import of the module. *)
Theorem load_answer_key_not_object_raises (w : world) (j : json) :
  ANSWER_FILE w = Document j ->
  is_object j = false ->
  load_answer_key w = (Raise AttributeError, w).
Proof.
  intros Hf Hj. unfold load_answer_key, try_except, bind, gets, lift.
  rewrite Hf. cbn [json_load]. now rewrite get_default_not_object.
Qed.

Lemma load_answer_key_not_object_raises_witness :
  load_answer_key
    (mkWorld (Document (JArr [JStr "a"; JStr "b"; JStr "c"])) Missing true
       None true ∅ VNone [] [])
  = (Raise AttributeError,
     mkWorld (Document (JArr [JStr "a"; JStr "b"; JStr "c"])) Missing true
       None true ∅ VNone [] []).
Proof.
  apply (load_answer_key_not_object_raises _
           (JArr [JStr "a"; JStr "b"; JStr "c"])); reflexivity.
Defined.

(** What [load_stats] absorbs on a first load: text that is not JSON is
    logged and gives the empty mapping, a missing file gives the empty
    mapping; either is cached. *)
Lemma load_stats_absorbed (w : world) :
  cached_stats w = VNone ->
  (STATS_FILE w = NotJSON ->
   load_stats w
   = (Ok (VDict []), set_cached_stats (VDict []) (add_log ErrStatsJSON w)))
  /\ (STATS_FILE w = Missing ->
      load_stats w = (Ok (VDict []), set_cached_stats (VDict []) w)).
Proof.
  intros Hc. unfold load_stats, try_except, bind, gets, lift. rewrite Hc.
  cbn [is_None]. split; intros ->; reflexivity.
Qed.

(** The path without an exception: on a first load an object gives its
    [users] member, or [{}] when there is none, as it is; it is cached and
    nothing is logged. *)
Lemma load_stats_object (w : world) (members : list (string * json))
    (users : value) :
  cached_stats w = VNone ->
  STATS_FILE w = Document (JObj members) ->
  Py.get_default (of_json (JObj members)) "users" (VDict []) = Ok users ->
  load_stats w = (Ok users, set_cached_stats users w).
Proof.
  intros Hc Hf Hget. unfold load_stats, try_except, bind, gets, lift.
  rewrite Hc. cbn [is_None]. rewrite Hf. cbn [exists_ json_load].
  rewrite Hget. reflexivity.
Qed.

(** Once loaded, the cache is what [load_stats] returns, whatever is on
    disk. *)
Lemma load_stats_cached (w : world) :
  cached_stats w <> VNone -> load_stats w = (Ok (cached_stats w), w).
Proof.
  intros Hc. unfold load_stats, bind, gets, ret.
  destruct (cached_stats w) eqn:E; try contradiction;
    cbn [is_None]; now rewrite E.
Qed.

(** C3: on a first load, a statistics file whose bytes are not UTF-8, and
    one that holds valid JSON whose top level is not an object, are not
    absorbed: [load_stats] raises ([UnicodeDecodeError], which its one
    clause for [JSONDecodeError] does not catch, and [AttributeError] from
    [.get]), logs nothing and caches nothing. *)
Theorem load_stats_malformed_raises (w : world) :
  cached_stats w = VNone ->
  (STATS_FILE w = NotUTF8 -> load_stats w = (Raise UnicodeDecodeError, w))
  /\ (forall j, STATS_FILE w = Document j -> is_object j = false ->
                load_stats w = (Raise AttributeError, w)).
Proof.
  intros Hc. unfold load_stats, try_except, bind, gets, lift. rewrite Hc.
  cbn [is_None]. split.
  - intros ->. reflexivity.
  - intros j -> Hj. cbn [exists_ json_load].
    now rewrite get_default_not_object.
Qed.

Lemma load_stats_malformed_raises_witness :
  load_stats (mkWorld Missing NotUTF8 true None true ∅ VNone [] [])
  = (Raise UnicodeDecodeError,
     mkWorld Missing NotUTF8 true None true ∅ VNone [] [])
  /\ load_stats (mkWorld Missing (Document (JArr [])) true None true ∅ VNone [] [])
     = (Raise AttributeError,
        mkWorld Missing (Document (JArr [])) true None true ∅ VNone [] []).
Proof.
  split.
  - apply (proj1 (load_stats_malformed_raises
                    (mkWorld Missing NotUTF8 true None true ∅ VNone [] [])
                    eq_refl)).
    reflexivity.
  - apply (proj2 (load_stats_malformed_raises
                    (mkWorld Missing (Document (JArr [])) true None true ∅
                       VNone [] [])
                    eq_refl) (JArr [])); reflexivity.
Defined.

(** ** C9: the leaderboard *)

Section MapResult.
Context {A B : Type} (f : A -> result B).

Lemma map_result_Forall2 (l : list A) :
  forall l', map_result f l = Ok l' ->
             Forall2 (fun a b => f a = Ok b) l l'.
Proof.
  induction l as [|a l IH]; cbn [map_result]; intros l' H.
  - injection H as <-. constructor.
  - destruct (f a) as [b|e] eqn:Ea; cbn [rbind] in H; [|discriminate].
    destruct (map_result f l) as [bs|e]; cbn [rbind] in H; [|discriminate].
    injection H as <-. constructor; [exact Ea | now apply IH].
Qed.

Lemma map_result_total (l : list A) :
  Forall (fun a => exists b, f a = Ok b) l ->
  exists l', map_result f l = Ok l'.
Proof.
  induction 1 as [|a l [b Hb] _ [bs Hbs]]; cbn [map_result].
  - now exists [].
  - rewrite Hb, Hbs. now exists (b :: bs).
Qed.
End MapResult.

Section SortedFacts.
Context {A : Type}.
Implicit Types (x : Z * A) (l : list (Z * A)).

Lemma insert_desc_perm x l : Permutation (insert_desc x l) (x :: l).
Proof.
  induction l as [|y l IH]; cbn [insert_desc]; [reflexivity|].
  destruct (fst y <=? fst x); [reflexivity|].
  rewrite IH. apply perm_swap.
Qed.

Lemma sorted_reverse_perm l : Permutation (sorted_reverse l) l.
Proof.
  induction l as [|x l IH]; cbn [sorted_reverse]; [reflexivity|].
  rewrite insert_desc_perm. now constructor.
Qed.

Lemma insert_desc_sorted x l :
  StronglySorted desc l -> StronglySorted desc (insert_desc x l).
Proof.
  induction 1 as [|y l Hl IH Hy]; cbn [insert_desc].
  - repeat constructor.
  - destruct (Z.leb_spec (fst y) (fst x)) as [Hle|Hgt].
    + constructor; [now constructor|].
      constructor; [exact Hle|].
      eapply List.Forall_impl; [|exact Hy].
      intros z Hz. unfold desc in *. lia.
    + constructor; [exact IH|].
      apply (Permutation_Forall (Permutation_sym (insert_desc_perm x l))).
      constructor; [unfold desc; lia | exact Hy].
Qed.

Lemma sorted_reverse_sorted l : StronglySorted desc (sorted_reverse l).
Proof.
  induction l as [|x l IH]; cbn [sorted_reverse];
    [constructor | now apply insert_desc_sorted].
Qed.
End SortedFacts.

Lemma StronglySorted_Forall2 {A B} (R : A -> A -> Prop) (S : B -> B -> Prop)
    (P : A -> B -> Prop) :
  (forall a1 a2 b1 b2, P a1 b1 -> P a2 b2 -> R a1 a2 -> S b1 b2) ->
  forall la lb, Forall2 P la lb -> StronglySorted R la -> StronglySorted S lb.
Proof.
  intros HRS la lb H. induction H as [|a b la lb Hab Hl IH]; intros Hs.
  - constructor.
  - apply StronglySorted_inv in Hs. destruct Hs as [Hs Ha].
    constructor; [now apply IH|].
    clear IH Hs. induction Hl as [|a' b' la lb Hab' _ IH']; constructor.
    + inversion Ha; subst. eapply HRS; eassumption.
    + inversion Ha; subst. now apply IH'.
Qed.

Lemma render_line_total (ANSWER_KEY : list string) (item : pykey * value)
    (line : stats_line) :
  render_line ANSWER_KEY item = Ok line ->
  total_of item = Ok (line_total line)
  /\ calculate_percentage (line_total line) (total_questions ANSWER_KEY)
     = Ok (line_percentage line).
Proof.
  unfold render_line, total_of.
  destruct (Py.getitem (snd item) (KStr "scores")) as [scores|e];
    cbn [rbind]; [|discriminate].
  destruct (Py.sum scores) as [total|e]; cbn [rbind]; [|discriminate].
  destruct (calculate_percentage total (total_questions ANSWER_KEY))
    as [pct|e] eqn:Ep; cbn [rbind]; [|discriminate].
  destruct (Py.getitem (snd item) (KStr "first_name")) as [first|e];
    cbn [rbind]; [|discriminate].
  destruct (Py.getitem (snd item) (KStr "last_name")) as [last|e];
    cbn [rbind]; [|discriminate].
  intros [= <-]. split; [reflexivity | exact Ep].
Qed.

(** The lines of [render] are the lines of a rearrangement of the items,
    in descending order of their totals. *)
Lemma render_descending (ANSWER_KEY : list string) (stats : value)
    (lines : list stats_line) :
  render ANSWER_KEY stats = Ok lines ->
  exists items sorted_stats : list (pykey * value),
    Py.items stats = Ok items
    /\ Permutation sorted_stats items
    /\ Forall2 (fun item line => render_line ANSWER_KEY item = Ok line)
         sorted_stats lines
    /\ StronglySorted (fun l1 l2 => line_total l2 <= line_total l1) lines.
Proof.
  unfold render. intros H.
  destruct (Py.items stats) as [items|e]; cbn [rbind] in H; [|discriminate].
  destruct (map_result (fun item => rbind (total_of item)
                                      (fun k => Ok (k, item))) items)
    as [keyed|e] eqn:Ek; cbn [rbind] in H; [|discriminate].
  apply map_result_Forall2 in Ek. apply map_result_Forall2 in H.
  assert (Hsnd : List.map snd keyed = items).
  { clear H. induction Ek as [|item p items keyed Hp _ IH]; [reflexivity|].
    cbn [List.map]. rewrite IH. f_equal.
    destruct (total_of item); cbn [rbind] in Hp; [|discriminate].
    now injection Hp as <-. }
  assert (Hkey : Forall (fun p => total_of (snd p) = Ok (fst p)) keyed).
  { clear H Hsnd. induction Ek as [|item p items keyed Hp _ IH]; constructor;
      [|exact IH].
    destruct (total_of item) eqn:E; cbn [rbind] in Hp; [|discriminate].
    now injection Hp as <-. }
  exists items, (List.map snd (sorted_reverse keyed)).
  split; [reflexivity|]. split; [|split; [exact H|]].
  - rewrite <- Hsnd. apply Permutation_map, sorted_reverse_perm.
  - pose proof (Permutation_Forall
                  (Permutation_sym (sorted_reverse_perm keyed)) Hkey) as Hkey'.
    pose proof (sorted_reverse_sorted keyed) as Hsorted.
    revert H Hkey' Hsorted. generalize (sorted_reverse keyed) as sorted.
    intros sorted H Hkey' Hsorted.
    assert (H' : Forall2 (fun p line => fst p = line_total line) sorted lines).
    { revert lines H. induction sorted as [|p sorted IH]; intros lines H;
        inversion H as [|? line ? lines' Hline Hrest]; subst; constructor.
      - apply render_line_total in Hline. destruct Hline as [Ht _].
        inversion Hkey' as [|? ? Hp _]; subst. congruence.
      - inversion Hkey'; inversion Hsorted; subst. now apply IH. }
    eapply StronglySorted_Forall2; [|exact H'|exact Hsorted].
    intros a1 a2 b1 b2 <- <- Hd. exact Hd.
Qed.

Lemma sum_from_ints (scores : list Z) :
  forall acc, Py.sum_from acc (List.map VInt scores)
              = Ok (acc + fold_right Z.add 0 scores).
Proof.
  induction scores as [|z scores IH]; intros acc; cbn [List.map Py.sum_from fold_right].
  - f_equal. lia.
  - cbn [Py.add rbind]. rewrite IH. f_equal. lia.
Qed.

Lemma render_line_user_record (ANSWER_KEY : list string)
    (item : pykey * value) :
  user_record (total_questions ANSWER_KEY) (snd item) ->
  exists line, render_line ANSWER_KEY item = Ok line.
Proof.
  intros (first & last & scores & Hf & Hl & Hs & Hrange).
  unfold render_line. rewrite Hs. cbn [rbind Py.sum].
  rewrite sum_from_ints. cbn [rbind]. rewrite Z.add_0_l.
  assert (Hp : exists p, calculate_percentage (fold_right Z.add 0 scores)
                           (total_questions ANSWER_KEY) = Ok p).
  { destruct Hrange as [H0 | Hr].
    - rewrite H0. now exists 0.
    - destruct (Z.eq_dec (total_questions ANSWER_KEY) 0) as [H0|Hne].
      + rewrite H0. now exists 0.
      + destruct (calculate_percentage_in_range
                    (fold_right Z.add 0 scores) (total_questions ANSWER_KEY))
          as (x & p & _ & _ & Hp); [unfold total_questions in *; lia | exact Hr |].
        now exists p. }
  destruct Hp as [p ->]. cbn [rbind]. rewrite Hf, Hl. cbn [rbind].
  eexists; reflexivity.
Qed.

(** On stored records [render] does return a leaderboard. *)
Lemma render_total (ANSWER_KEY : list string) (d : list (pykey * value)) :
  Forall (fun item => user_record (total_questions ANSWER_KEY) (snd item)) d ->
  exists lines, render ANSWER_KEY (VDict d) = Ok lines.
Proof.
  intros Hd. unfold render. cbn [Py.items rbind].
  assert (Hline : Forall (fun item => exists line,
                              render_line ANSWER_KEY item = Ok line) d).
  { eapply List.Forall_impl; [|exact Hd].
    intros item. apply render_line_user_record. }
  destruct (map_result_total
              (fun item => rbind (total_of item) (fun k => Ok (k, item))) d)
    as [keyed Hk].
  { eapply List.Forall_impl; [|exact Hline].
    intros item [line Hl]. apply render_line_total in Hl.
    destruct Hl as [-> _]. eexists; reflexivity. }
  rewrite Hk. cbn [rbind].
  apply map_result_total.
  assert (Hsnd : List.map snd keyed = d).
  { apply map_result_Forall2 in Hk. clear Hd Hline.
    induction Hk as [|item p items keyed Hp _ IH]; [reflexivity|].
    cbn [List.map]. rewrite IH. f_equal.
    destruct (total_of item); cbn [rbind] in Hp; [|discriminate].
    now injection Hp as <-. }
  eapply Permutation_Forall; [|exact Hline].
  rewrite <- Hsnd. apply Permutation_map, Permutation_sym, sorted_reverse_perm.
Qed.

(** C9: whatever [render] returns lists a rearrangement of the items of
    the mapping, in descending order of [sum(scores)], each line carrying
    that sum and [calculate_percentage] of it and the number of questions;
    on stored records it does return; and three users with the totals 5,
    10 and 3 are listed 10 first, then 5, then 3. *)
Theorem leaderboard_descending :
  (forall (ANSWER_KEY : list string) (stats : value) (lines : list stats_line),
      render ANSWER_KEY stats = Ok lines ->
      exists items sorted_stats : list (pykey * value),
        Py.items stats = Ok items
        /\ Permutation sorted_stats items
        /\ Forall2 (fun item line =>
                      total_of item = Ok (line_total line)
                      /\ calculate_percentage (line_total line)
                           (total_questions ANSWER_KEY)
                         = Ok (line_percentage line)
                      /\ render_line ANSWER_KEY item = Ok line)
             sorted_stats lines
        /\ StronglySorted (fun l1 l2 => line_total l2 <= line_total l1) lines)
  /\ (forall (ANSWER_KEY : list string) (d : list (pykey * value)),
         Forall (fun item =>
                   user_record (total_questions ANSWER_KEY) (snd item)) d ->
         exists lines, render ANSWER_KEY (VDict d) = Ok lines)
  /\ render (repeat "a"%string 10)
       (VDict [(KInt 1, new_record (VStr "Ann") VNone 5);
               (KInt 2, new_record (VStr "Bob") (VStr "Lee") 10);
               (KInt 3, new_record (VStr "Cy") VNone 3)])
     = Ok [(VStr "Bob", VStr "Lee", 10, 100);
           (VStr "Ann", VNone, 5, 50);
           (VStr "Cy", VNone, 3, 30)].
Proof.
  split; [| split; [exact render_total | vm_compute; reflexivity]].
  intros ANSWER_KEY stats lines H.
  destruct (render_descending ANSWER_KEY stats lines H)
    as (items & sorted_stats & Hi & Hp & Hl & Hs).
  exists items, sorted_stats. repeat split; try assumption.
  eapply Forall2_impl; [exact Hl|].
  intros item line Hline. cbv beta.
  destruct (render_line_total ANSWER_KEY item line Hline) as [Ht Hpct].
  now repeat split.
Qed.

Lemma leaderboard_descending_witness :
  exists items sorted_stats : list (pykey * value),
    Py.items (VDict [(KInt 1, new_record (VStr "Ann") VNone 1);
                     (KInt 2, new_record (VStr "Bob") VNone 2)]) = Ok items
    /\ Permutation sorted_stats items
    /\ Forall2 (fun item line =>
                  total_of item = Ok (line_total line)
                  /\ calculate_percentage (line_total line)
                       (total_questions ["a"; "b"]%string)
                     = Ok (line_percentage line)
                  /\ render_line ["a"; "b"]%string item = Ok line)
         sorted_stats
         [(VStr "Bob", VNone, 2, 100); (VStr "Ann", VNone, 1, 50)]
    /\ StronglySorted (fun l1 l2 => line_total l2 <= line_total l1)
         [(VStr "Bob", VNone, 2, 100); (VStr "Ann", VNone, 1, 50)].
Proof.
  apply (proj1 leaderboard_descending ["a"; "b"]%string).
  vm_compute. reflexivity.
Defined.

(** ** C10: a reloaded mapping has no integer keys *)

Lemma str_keys_set (d : list (pykey * value)) (s : string) (v : value) :
  str_keys d -> str_keys (PyDict.set d (KStr s) v).
Proof.
  induction 1 as [|[k' v'] d Hk Hd IH]; cbn [PyDict.set].
  - constructor; [now exists s | constructor].
  - destruct (PyDict.key_eqb k' (KStr s)); constructor;
      solve [exact Hk | exact Hd | exact IH].
Qed.

Lemma str_keys_get_int (d : list (pykey * value)) (uid : Z) :
  str_keys d -> PyDict.get d (KInt uid) = None.
Proof.
  induction 1 as [|[k' v'] d [s Hs] _ IH]; cbn [PyDict.get]; [reflexivity|].
  cbn [fst] in Hs. subst k'. exact IH.
Qed.

Lemma get_set_inv (d : list (pykey * value)) (k k' : pykey) (v x : value) :
  PyDict.get (PyDict.set d k v) k' = Some x ->
  x = v \/ PyDict.get d k' = Some x.
Proof.
  destruct (PyDict.key_eqb k k') eqn:E.
  - apply key_eqb_eq in E. subst k'. rewrite get_set_eq.
    intros [= <-]. now left.
  - rewrite get_set_ne; [now right|].
    intros ->. now rewrite key_eqb_refl in E.
Qed.

(** The dictionary that [json.load] builds from the members of an object:
    its keys are strings and its values are loaded members. *)
Lemma of_pairs_members (members : list (string * json)) :
  forall d0,
    str_keys d0 ->
    let d := fold_left (fun d p => PyDict.set d (fst p) (snd p))
               (List.map (fun m => (KStr (fst m), of_json (snd m))) members) d0 in
    str_keys d
    /\ forall k x, PyDict.get d k = Some x ->
                   (exists j, x = of_json j) \/ PyDict.get d0 k = Some x.
Proof.
  induction members as [|[name j] members IH]; intros d0 H0; cbn [List.map fold_left].
  - split; [exact H0 | intros k x Hx; now right].
  - cbn [fst snd].
    destruct (IH (PyDict.set d0 (KStr name) (of_json j))
                (str_keys_set d0 name (of_json j) H0)) as [Hk Hv].
    split; [exact Hk|].
    intros k x Hx. destruct (Hv k x Hx) as [Hj | Hset]; [now left|].
    apply get_set_inv in Hset. destruct Hset as [-> | Hd0]; [left | now right].
    now exists j.
Qed.

Lemma of_json_str_keys (j : json) (d : list (pykey * value)) :
  of_json j = VDict d -> str_keys d.
Proof.
  destruct j as [| | | | |members]; cbn [of_json]; try discriminate.
  intros [= <-]. unfold PyDict.of_pairs.
  apply (of_pairs_members members []). constructor.
Qed.

(** Whatever dictionary a first [load_stats] returns, its keys are strings. *)
Lemma load_stats_str_keys (w w' : world) (d : list (pykey * value)) :
  cached_stats w = VNone ->
  load_stats w = (Ok (VDict d), w') ->
  str_keys d.
Proof.
  intros Hc. unfold load_stats, try_except, bind, gets, lift, modify, logger.
  rewrite Hc. cbn [is_None].
  destruct (STATS_FILE w) as [|dir| | | |j]; cbn [exists_ json_load].
  - intros [= <- _]. constructor.
  - destruct dir; discriminate.
  - discriminate.
  - intros [= <- _]. constructor.
  - discriminate.
  - destruct j as [| | | | |members]; cbn [of_json Py.get_default];
      try discriminate.
    destruct (PyDict.get _ (KStr "users")) as [x|] eqn:Ex;
      cbn [cached_stats set_cached_stats].
    + intros [= -> _].
      destruct (proj2 (of_pairs_members members [] ltac:(constructor))
                  _ _ Ex) as [[j Hj] | Hnil]; [|discriminate].
      symmetry in Hj. now apply of_json_str_keys in Hj.
    + intros [= <- _]. constructor.
Qed.

(** C10: [json.dump] writes the record of user [uid] under the member name
    [str(uid)] and [json.load] reads it back under that string; and in any
    mapping that a first [load_stats] of the process returns, no integer
    key is present, whatever string keys are: for every user the test of
    line 170 says first attempt, and lines 170-177 store a new record
    under the integer id, after all the loaded ones. *)
Theorem reloaded_stats_miss_int_key :
  (forall (uid : Z) (r : value),
      of_json (to_json (VDict [(KInt uid, r)]))
      = VDict [(KStr (str_of_int uid), of_json (to_json r))])
  /\ (forall (w w' : world) (d : list (pykey * value)),
         cached_stats w = VNone ->
         load_stats w = (Ok (VDict d), w') ->
         forall (uid : Z) (first last : value) (c : Z),
           PyDict.get d (KInt uid) = None
           /\ is_first_attempt (VDict d) uid = Ok true
           /\ record_first_attempt (VDict d) uid first last c
              = Ok (VDict (d ++ [(KInt uid, new_record first last c)]), true)).
Proof.
  split; [reflexivity |].
  intros w w' d Hc Hload uid first last c.
  pose proof (str_keys_get_int d uid (load_stats_str_keys w w' d Hc Hload))
    as Hget.
  pose proof (is_first_attempt_absent d uid Hget) as Hfirst.
  split; [exact Hget | split; [exact Hfirst |]].
  unfold record_first_attempt. rewrite Hfirst. cbn [rbind Py.setitem_int].
  now rewrite set_absent.
Qed.

Lemma reloaded_stats_miss_int_key_witness :
  PyDict.get [(KStr "42", new_record (VStr "Ann") VNone 2)] (KInt 42) = None
  /\ is_first_attempt
       (VDict [(KStr "42", new_record (VStr "Ann") VNone 2)]) 42 = Ok true
  /\ record_first_attempt
       (VDict [(KStr "42", new_record (VStr "Ann") VNone 2)]) 42
       (VStr "Ann") VNone 3
     = Ok (VDict ([(KStr "42", new_record (VStr "Ann") VNone 2)]
                  ++ [(KInt 42, new_record (VStr "Ann") VNone 3)]), true).
Proof.
  refine (proj2 reloaded_stats_miss_int_key
            (mkWorld Missing (Document stored_42) true None true ∅ VNone [] [])
            (mkWorld Missing (Document stored_42) true None true ∅
               (VDict [(KStr "42", new_record (VStr "Ann") VNone 2)]) [] [])
            [(KStr "42", new_record (VStr "Ann") VNone 2)]
            _ _ 42 (VStr "Ann") VNone 3); reflexivity.
Defined.

(** Across a restart the second attempt of a user is stored: it is scored,
    lands in the cache next to the first under the integer key, and is
    written to the file under the same member name. *)
Lemma second_attempt_stored_after_restart :
  let key := ["a"; "b"; "c"]%string in
  let w0 := mkWorld Missing Missing true None true ∅ VNone [] [] in
  let w1 := snd (handle_message key (mkUpdate 7 42 "Ann" None "abd") w0) in
  let w2 := snd (handle_message key (mkUpdate 7 42 "Ann" None "abc")
                   (restart w1)) in
  STATS_FILE w1
  = Document (JObj [("users"%string,
       JObj [("42"%string, to_json (new_record (VStr "Ann") VNone 2))])])
  /\ cached_stats w2
     = VDict [(KStr "42", new_record (VStr "Ann") VNone 2);
              (KInt 42, new_record (VStr "Ann") VNone 3)]
  /\ STATS_FILE w2
     = Document (JObj [("users"%string,
          JObj [("42"%string, to_json (new_record (VStr "Ann") VNone 2));
                ("42"%string, to_json (new_record (VStr "Ann") VNone 3))])]).
Proof. vm_compute. repeat split; reflexivity. Qed.

(** ** The handlers on a loaded cache *)

Lemma score_loop_count (key : list string) :
  forall (rest : list string) (i : nat) (c : Z) (m : list (Z * string)),
    c <= fst (score_loop key i rest c m) <= c + Z.of_nat (List.length rest).
Proof.
  induction rest as [|a rest IH]; intros i c m; cbn [score_loop List.length].
  - cbn [fst]. lia.
  - destruct (nth_error key i) as [k|];
      [destruct (String.eqb (normalize_answer a) (normalize_answer k))|];
      match goal with
      | |- _ <= fst (score_loop _ _ _ ?c' ?m') <= _ =>
          pose proof (IH (S i) c' m')
      end; lia.
Qed.

(** A submission of the right length has a percentage. *)
Lemma score_percentage (key user_answers : list string) :
  List.length user_answers = List.length key ->
  exists p, calculate_percentage (fst (score key user_answers))
              (total_questions key) = Ok p.
Proof.
  intros Hlen. unfold total_questions.
  pose proof (score_loop_count key user_answers 0 0 []) as Hc.
  fold (score key user_answers) in Hc. rewrite Hlen in Hc.
  destruct (List.length key) as [|n] eqn:En.
  - now exists 0.
  - destruct (calculate_percentage_in_range (fst (score key user_answers))
                (Z.of_nat (S n))) as (x & p & _ & _ & Hp); try lia.
    now exists p.
Qed.

(** The export touches the spreadsheet and the log only. *)
Lemma save_stats_to_excel_frame (stats : value) (w : world) :
  let w' := snd (save_stats_to_excel stats w) in
  cached_stats w' = cached_stats w
  /\ STATS_FILE w' = STATS_FILE w
  /\ outbox w' = outbox w
  /\ user_states w' = user_states w.
Proof.
  unfold save_stats_to_excel, bind, lift, gets, modify, logger.
  destruct (Py.items stats) as [items|e]; [|now cbn].
  destruct (map_result _ items) as [data|e]; [|now cbn].
  destruct (excel_writable w); [|now cbn].
  destruct (to_excel_refuses w data) as [[e remains]|]; [|now cbn].
  destruct (is_IOError e); now cbn.
Qed.

(** [show_stats] sends what [render] returns for the cached mapping. *)
Lemma show_stats_replies (ANSWER_KEY : list string) (u : update) (w : world)
    (lines : list stats_line) :
  cached_stats w <> VNone ->
  render ANSWER_KEY (cached_stats w) = Ok lines ->
  show_stats ANSWER_KEY u w
  = (Ok tt, add_outbox (chat_id u) (MsgStats lines)
              (add_log InfoShowStatsCalled w)).
Proof.
  intros Hc Hr. unfold show_stats, bind, logger, modify at 1.
  rewrite (load_stats_cached (add_log InfoShowStatsCalled w)) by exact Hc.
  unfold lift. cbn [cached_stats add_log]. rewrite Hr. reflexivity.
Qed.

(** * Further properties *)

(** ** Normalization and stripping *)

Lemma remove_blanks_app (a b : string) :
  PyStr.remove_blanks (String.append a b)
  = String.append (PyStr.remove_blanks a) (PyStr.remove_blanks b).
Proof.
  induction a as [|c a IH]; [reflexivity|].
  rewrite append_cons. cbn [PyStr.remove_blanks].
  destruct (PyStr.isspace c); [exact IH | now rewrite append_cons, IH].
Qed.

Lemma remove_blanks_all_blank (s : string) :
  all_blank s = true -> PyStr.remove_blanks s = EmptyString.
Proof.
  induction s as [|c s IH]; cbn [all_blank PyStr.remove_blanks]; [reflexivity|].
  intros H. apply andb_prop in H. destruct H as [Hc Hs].
  now rewrite Hc, IH.
Qed.

Lemma remove_blanks_no_blank (s : string) (c : ascii) :
  In c (list_ascii_of_string (PyStr.remove_blanks s)) -> PyStr.isspace c = false.
Proof.
  induction s as [|x s IH]; cbn [PyStr.remove_blanks list_ascii_of_string].
  - intros [].
  - destruct (PyStr.isspace x) eqn:E; [exact IH|].
    cbn [list_ascii_of_string]. intros [<- | H]; [exact E | now apply IH].
Qed.

Lemma lower_chars (s : string) :
  list_ascii_of_string (PyStr.lower s)
  = List.map PyStr.lower_char (list_ascii_of_string s).
Proof.
  induction s as [|x s IH]; cbn [PyStr.lower list_ascii_of_string List.map];
    [reflexivity | now rewrite IH].
Qed.

(** X1: blanks do not count in an answer.  Blanks put anywhere into a
    string do not change its normal form, a string of blanks has the empty
    normal form, and a normal form holds no blank character. *)
Theorem normalize_answer_ignores_blanks :
  (forall a blanks b : string,
      all_blank blanks = true ->
      normalize_answer (String.append a (String.append blanks b))
      = normalize_answer (String.append a b))
  /\ (forall blanks : string,
         all_blank blanks = true -> normalize_answer blanks = EmptyString)
  /\ (forall (x : string) (c : ascii),
         In c (list_ascii_of_string (normalize_answer x)) ->
         PyStr.isspace c = false).
Proof.
  split; [| split].
  - intros a blanks b Hb. rewrite !normalize_answer_eq.
    rewrite !remove_blanks_app, (remove_blanks_all_blank blanks Hb).
    reflexivity.
  - intros blanks Hb. rewrite normalize_answer_eq.
    now rewrite (remove_blanks_all_blank blanks Hb).
  - intros x c. rewrite normalize_answer_eq, lower_chars.
    intros H. apply in_map_iff in H. destruct H as (y & <- & Hy).
    rewrite isspace_lower_char. now apply remove_blanks_no_blank in Hy.
Qed.

Lemma normalize_answer_ignores_blanks_witness :
  normalize_answer (String.append "A" (String.append "  " "b"))
  = normalize_answer (String.append "A" "b").
Proof.
  apply (proj1 normalize_answer_ignores_blanks "A" "  " "b")%string.
  reflexivity.
Defined.

Lemma lstrip_blanks_app (blanks s : string) :
  all_blank blanks = true ->
  PyStr.lstrip (String.append blanks s) = PyStr.lstrip s.
Proof.
  induction blanks as [|c b IH]; [reflexivity|].
  cbn [all_blank]. intros H. apply andb_prop in H. destruct H as [Hc Hb].
  rewrite append_cons. cbn [PyStr.lstrip]. rewrite Hc. now apply IH.
Qed.

Lemma lstrip_all_blank (s : string) :
  all_blank s = true -> PyStr.lstrip s = EmptyString.
Proof.
  intros H. rewrite <- (append_empty_r s). now rewrite lstrip_blanks_app.
Qed.

Lemma lstrip_id (s : string) : starts_blank s = false -> PyStr.lstrip s = s.
Proof. destruct s as [|c s]; [reflexivity|]. cbn. now intros ->. Qed.

Lemma rstrip_all_blank (s : string) :
  all_blank s = true -> PyStr.rstrip s = EmptyString.
Proof.
  induction s as [|c s IH]; [reflexivity|]. cbn [all_blank PyStr.rstrip].
  intros H. apply andb_prop in H. destruct H as [Hc Hs].
  now rewrite IH, Hc.
Qed.

Lemma rstrip_app_blanks (s blanks : string) :
  all_blank blanks = true ->
  PyStr.rstrip (String.append s blanks) = PyStr.rstrip s.
Proof.
  intros Hb. induction s as [|c s IH].
  - cbn [String.append]. now rewrite rstrip_all_blank.
  - rewrite append_cons. cbn [PyStr.rstrip]. now rewrite IH.
Qed.

Lemma rstrip_id (s : string) : ends_blank s = false -> PyStr.rstrip s = s.
Proof.
  induction s as [|c s IH]; [reflexivity|].
  cbn [ends_blank PyStr.rstrip]. destruct s as [|c' s].
  - cbn [PyStr.rstrip PyStr.is_empty]. intros ->. reflexivity.
  - intros H. rewrite (IH H). cbn [PyStr.is_empty].
    now rewrite andb_false_r.
Qed.

Lemma starts_blank_app (s t : string) :
  s <> EmptyString -> starts_blank (String.append s t) = starts_blank s.
Proof. destruct s as [|c s]; [congruence | reflexivity]. Qed.

Lemma strip_core (l core r : string) :
  all_blank l = true -> all_blank r = true ->
  starts_blank core = false -> ends_blank core = false ->
  PyStr.strip (String.append l (String.append core r)) = core.
Proof.
  intros Hl Hr Hs He. unfold PyStr.strip. rewrite lstrip_blanks_app by exact Hl.
  destruct core as [|c core].
  - cbn [String.append]. now rewrite lstrip_all_blank.
  - rewrite lstrip_id by (rewrite starts_blank_app; [exact Hs | discriminate]).
    rewrite rstrip_app_blanks by exact Hr. now apply rstrip_id.
Qed.

Lemma length_chars (s : string) :
  List.length (PyStr.chars s) = String.length s.
Proof.
  induction s as [|c s IH]; cbn [PyStr.chars List.length String.length];
    [reflexivity | now rewrite IH].
Qed.

(** X2: the text of a message is read without the blanks around it and
    with the blanks inside it: for a text [l ++ core ++ r] with [l] and
    [r] blank and [core] neither beginning nor ending with a blank,
    [submit_answers] takes exactly the characters of [core] as the
    answers, and does what it does on the text [core]. *)
Theorem submission_ignores_outer_blanks (ANSWER_KEY : list string)
    (chat uid : Z) (first : string) (last : option string)
    (l core r : string) (w : world) :
  all_blank l = true -> all_blank r = true ->
  starts_blank core = false -> ends_blank core = false ->
  let padded := String.append l (String.append core r) in
  PyStr.chars (PyStr.strip padded) = PyStr.chars core
  /\ List.length (PyStr.chars (PyStr.strip padded)) = String.length core
  /\ submit_answers ANSWER_KEY (mkUpdate chat uid first last padded) w
     = submit_answers ANSWER_KEY (mkUpdate chat uid first last core) w.
Proof.
  intros Hl Hr Hs He padded.
  assert (H1 : PyStr.strip padded = core) by now apply strip_core.
  assert (H2 : PyStr.strip core = core).
  { pose proof (strip_core EmptyString core EmptyString eq_refl eq_refl Hs He)
      as H. cbn [String.append] in H. now rewrite append_empty_r in H. }
  split; [now rewrite H1 | split; [now rewrite H1, length_chars |]].
  unfold submit_answers. cbn [text user_id chat_id first_name last_name].
  now rewrite H1, H2.
Qed.

Lemma submission_ignores_outer_blanks_witness :
  PyStr.chars (PyStr.strip (String.append " " (String.append "a b" "  ")))
  = PyStr.chars "a b".
Proof.
  apply (proj1 (submission_ignores_outer_blanks [] 0 0 "" None
                  " " "a b" "  "
                  (mkWorld Missing Missing true None true ∅ VNone [] [])
                  eq_refl eq_refl eq_refl eq_refl))%string.
Defined.

(** ** The scoring loop on any submission *)

Lemma score_loop_cons (key : list string) (i : nat) (a : string)
    (rest : list string) (c : Z) (m : list (Z * string)) :
  score_loop key i (a :: rest) c m
  = if matches key i a
    then score_loop key (S i) rest (c + 1) m
    else score_loop key (S i) rest c (m ++ [(Z.of_nat i + 1, a)]).
Proof.
  cbn [score_loop]. unfold matches.
  destruct (nth_error key i) as [k|]; reflexivity.
Qed.

(** What the loop adds to its accumulators from index [i] on. *)
Lemma score_loop_shape (key : list string) :
  forall (rest : list string) (i : nat) (c : Z) (m : list (Z * string)),
  exists new : list (Z * string),
    snd (score_loop key i rest c m) = m ++ new
    /\ fst (score_loop key i rest c m) + Z.of_nat (List.length new)
       = c + Z.of_nat (List.length rest)
    /\ StronglySorted Z.lt (List.map fst new)
    /\ (forall p a, In (p, a) new <->
                    exists j, p = Z.of_nat (i + j) + 1
                              /\ nth_error rest j = Some a
                              /\ matches key (i + j) a = false).
Proof.
  induction rest as [|a rest IH]; intros i c m.
  - exists []. cbn [score_loop fst snd List.length List.map].
    rewrite app_nil_r. repeat split; try lia; try constructor.
    + intros [].
    + intros (j & _ & Hj & _). destruct j; discriminate.
  - rewrite score_loop_cons. destruct (matches key i a) eqn:Em.
    + destruct (IH (S i) (c + 1) m) as (new & Hs & Hc & Hsort & Hin).
      exists new. split; [exact Hs | split; [| split; [exact Hsort |]]].
      * cbn [List.length]. lia.
      * intros p x. rewrite Hin. split.
        -- intros (j & Hp & Hj & Hm). exists (S j).
           replace (i + S j)%nat with (S i + j)%nat by lia. now repeat split.
        -- intros (j & Hp & Hj & Hm). destruct j as [|j].
           ++ cbn [nth_error] in Hj. injection Hj as <-.
              rewrite Nat.add_0_r in Hm. congruence.
           ++ exists j. replace (S i + j)%nat with (i + S j)%nat by lia.
              now repeat split.
    + destruct (IH (S i) c (m ++ [(Z.of_nat i + 1, a)]))
        as (new & Hs & Hc & Hsort & Hin).
      exists ((Z.of_nat i + 1, a) :: new).
      split; [| split; [| split]].
      * rewrite Hs, <- app_assoc. reflexivity.
      * cbn [List.length]. lia.
      * cbn [List.map fst]. constructor; [exact Hsort |].
        apply List.Forall_forall. intros p Hp. apply in_map_iff in Hp.
        destruct Hp as ([p' x] & <- & Hx). apply Hin in Hx.
        destruct Hx as (j & -> & _). cbn [fst]. lia.
      * intros p x. cbn [In]. rewrite Hin. split.
        -- intros [[= <- <-] | (j & Hp & Hj & Hm)].
           ++ exists 0%nat. rewrite Nat.add_0_r. now repeat split.
           ++ exists (S j). replace (i + S j)%nat with (S i + j)%nat by lia.
              now repeat split.
        -- intros (j & Hp & Hj & Hm). destruct j as [|j].
           ++ left. cbn [nth_error] in Hj. injection Hj as <-.
              rewrite Nat.add_0_r in Hp. now subst p.
           ++ right. exists j.
              replace (S i + j)%nat with (i + S j)%nat by lia.
              now repeat split.
Qed.

(** X3: on any key and any submission, of whatever lengths, every position
    is either counted as correct or listed as a mistake and never both:
    the count plus the number of mistakes is the number of answers, the
    count lies between 0 and that number, the mistakes are listed by
    strictly increasing position, a mistake is listed exactly for the
    positions whose test of line 159 fails, and the list is empty exactly
    when all answers are counted. *)
Theorem score_accounts_for_every_position (key submission : list string) :
  let n := Z.of_nat (List.length submission) in
  let correct := fst (score key submission) in
  let mistakes := snd (score key submission) in
  correct + Z.of_nat (List.length mistakes) = n
  /\ 0 <= correct <= n
  /\ StronglySorted Z.lt (List.map fst mistakes)
  /\ (forall p a, In (p, a) mistakes <->
                  exists i, p = Z.of_nat i + 1
                            /\ nth_error submission i = Some a
                            /\ matches key i a = false)
  /\ (mistakes = [] <-> correct = n).
Proof.
  intros n correct mistakes. subst n correct mistakes. unfold score.
  destruct (score_loop_shape key submission 0 0 [])
    as (new & Hs & Hc & Hsort & Hin).
  pose proof (score_loop_count key submission 0 0 []) as Hcount.
  cbn [app] in Hs. rewrite Hs.
  split; [lia | split; [lia | split; [exact Hsort | split]]].
  - intros p a. rewrite Hin. cbn [Nat.add]. reflexivity.
  - split.
    + intros ->. cbn [List.length] in Hc. lia.
    + intros H. destruct new as [|x new]; [reflexivity|].
      cbn [List.length] in Hc. lia.
Qed.

(** X4: an answer is one character of the text.  A key entry whose normal
    form has two or more characters is therefore listed as a mistake for
    every answer whose normal form has at most one character, which is
    every character but the few that [str.lower] turns into two; and a
    blank inside the text is a mistake unless the key entry at its
    position normalizes to the empty string. *)
Theorem long_key_entry_never_matches (key : list string) (text : string)
    (i : nat) (a k : string) :
  nth_error (PyStr.chars text) i = Some a ->
  nth_error key i = Some k ->
  ((String.length (normalize_answer a) <= 1)%nat ->
   (2 <= String.length (normalize_answer k))%nat ->
   In (Z.of_nat i + 1, a) (snd (score key (PyStr.chars text))))
  /\ (all_blank a = true -> normalize_answer k <> EmptyString ->
      In (Z.of_nat i + 1, a) (snd (score key (PyStr.chars text)))).
Proof.
  intros Ha Hk.
  assert (Hin : matches key i a = false ->
                In (Z.of_nat i + 1, a) (snd (score key (PyStr.chars text)))).
  { intros Hm. unfold score.
    destruct (score_loop_shape key (PyStr.chars text) 0 0 [])
      as (new & Hs & _ & _ & Hnew).
    rewrite Hs. cbn [app]. apply Hnew. exists i. now repeat split. }
  split.
  - intros Hone Hlen. apply Hin. unfold matches. rewrite Hk.
    apply String.eqb_neq. intros Heq. rewrite Heq in Hone. lia.
  - intros Hb Hne. apply Hin. unfold matches. rewrite Hk.
    apply String.eqb_neq. intros Heq. apply Hne. rewrite <- Heq.
    rewrite normalize_answer_eq. now rewrite (remove_blanks_all_blank a Hb).
Qed.

Lemma long_key_entry_never_matches_witness :
  In (1, "a"%string) (snd (score ["ab"%string] (PyStr.chars "a"))).
Proof.
  refine (proj1 (long_key_entry_never_matches ["ab"%string] "a" 0 "a" "ab"
                   eq_refl eq_refl) _ _); vm_compute; lia.
Defined.

(** ** The range of the percentage *)

Lemma Zdigits2_mono (a b : Z) : 0 <= a <= b -> Zdigits2 a <= Zdigits2 b.
Proof.
  intros [Ha Hab]. pose proof (Zdigits2_nonneg b).
  apply Zdigits2_le; [lia|]. split; [lia|].
  eapply Z.le_lt_trans; [exact Hab|]. apply Zdigits2_gt. lia.
Qed.

(** Rounding to a double, step by step: the mantissa is cut by [k1] bits,
    moved up by at most one, and cut by [k2] more bits. *)
Lemma binary_round_aux_inv (s : bool) (mx ex : Z) (lx : location) :
  0 <= mx ->
  exists k1 m2 k2 : Z,
    k1 = Z.max 0 (Z.max (Zdigits2 mx + ex - 53) (-1074) - ex)
    /\ mx / 2 ^ k1 <= m2 <= mx / 2 ^ k1 + 1
    /\ 0 <= k2 <= 1
    /\ binary_round_aux 53 1024 s mx ex lx
       = match m2 / 2 ^ k2 with
         | 0 => S754_zero s
         | Z.pos m =>
             if ex + k1 + k2 <=? 1024 - 53
             then S754_finite s m (ex + k1 + k2)
             else S754_infinity s
         | Z.neg _ => S754_nan
         end.
Proof.
  intros Hmx. unfold binary_round_aux, shr_fexp. rewrite !fexp_eq.
  remember (Z.max (Zdigits2 mx + ex - 53) (-1074) - ex) as n1 eqn:Hn1.
  pose proof (shr_spec (shr_record_of_loc mx lx) ex n1) as H1.
  rewrite shr_record_of_loc_m in H1. specialize (H1 Hmx).
  destruct (shr (shr_record_of_loc mx lx) ex n1) as [r1 e1].
  cbn [fst snd] in H1. destruct H1 as [Hm1 He1].
  rewrite ?fexp_eq.
  pose proof (round_nearest_even_bounds (shr_m r1) (loc_of_shr_record r1)) as Hm2.
  remember (round_nearest_even (shr_m r1) (loc_of_shr_record r1)) as m2 eqn:Em2.
  clear Em2.
  assert (Hp1 : 0 < 2 ^ Z.max 0 n1) by (apply Z.pow_pos_nonneg; lia).
  assert (Hr1 : 0 <= shr_m r1) by (rewrite Hm1; apply Z.div_pos; lia).
  remember (Z.max (Zdigits2 m2 + e1 - 53) (-1074) - e1) as n2 eqn:Hn2.
  pose proof (shr_spec (shr_record_of_loc m2 loc_Exact) e1 n2) as H2.
  rewrite shr_record_of_loc_m in H2. specialize (H2 ltac:(lia)).
  destruct (shr (shr_record_of_loc m2 loc_Exact) e1 n2) as [r2 e2].
  cbn [fst snd] in H2. destruct H2 as [Hm3 He2].
  pose proof (Zdigits2_div_pow2 mx (Z.max 0 n1) Hmx ltac:(lia)) as Hd1.
  rewrite <- Hm1 in Hd1.
  assert (Hd2 : Zdigits2 m2 <= Zdigits2 (shr_m r1) + 1).
  { destruct (Z.eq_dec m2 (shr_m r1)) as [->|Hne]; [lia|].
    replace m2 with (shr_m r1 + 1) by lia. now apply Zdigits2_succ. }
  pose proof (Zdigits2_nonneg m2). pose proof (Zdigits2_nonneg mx).
  pose proof (Zdigits2_nonneg (shr_m r1)).
  exists (Z.max 0 n1), m2, (Z.max 0 n2).
  split; [reflexivity | split; [rewrite <- Hm1; exact Hm2 | split; [lia|]]].
  rewrite Hm3, He2, He1. reflexivity.
Qed.

(** The double is at most the rounded number plus one unit of the first
    cut, both scaled by [2 ^ 1200]. *)
Lemma binary_round_aux_upper (s : bool) (mx ex : Z) (lx : location)
    (s' : bool) (m : positive) (e : Z) :
  0 <= mx -> -1200 <= ex ->
  binary_round_aux 53 1024 s mx ex lx = S754_finite s' m e ->
  s' = s /\ ex <= e
  /\ Z.pos m * 2 ^ (e + 1200)
     <= mx * 2 ^ (ex + 1200)
        + 2 ^ (Z.max ex (Z.max (Zdigits2 mx + ex - 53) (-1074)) + 1200).
Proof.
  intros Hmx Hex Hres.
  destruct (binary_round_aux_inv s mx ex lx Hmx)
    as (k1 & m2 & k2 & Hk1 & Hm2 & Hk2 & Heq).
  rewrite Heq in Hres. clear Heq.
  assert (H0k1 : 0 <= k1) by lia.
  assert (Hp1 : 0 < 2 ^ k1) by (apply Z.pow_pos_nonneg; lia).
  assert (Hp2 : 0 < 2 ^ k2) by (apply Z.pow_pos_nonneg; lia).
  assert (HA : 0 < 2 ^ (ex + 1200)) by (apply Z.pow_pos_nonneg; lia).
  destruct (m2 / 2 ^ k2) as [|m3|m3] eqn:Em3; try discriminate.
  destruct (ex + k1 + k2 <=? 1024 - 53); try discriminate.
  injection Hres as <- <- <-.
  split; [reflexivity | split; [lia|]].
  replace (Z.max ex (Z.max (Zdigits2 mx + ex - 53) (-1074)) + 1200)
    with (k1 + (ex + 1200)) by lia.
  replace (ex + k1 + k2 + 1200) with (k2 + (k1 + (ex + 1200))) by lia.
  rewrite !Z.pow_add_r by lia.
  pose proof (Z.mul_div_le m2 (2 ^ k2) Hp2) as Hd2. rewrite Em3 in Hd2.
  pose proof (Z.mul_div_le mx (2 ^ k1) Hp1) as Hd1.
  assert (Hq1 : 0 <= mx / 2 ^ k1) by (apply Z.div_pos; lia).
  set (A := 2 ^ (ex + 1200)) in *. set (P1 := 2 ^ k1) in *.
  set (P2 := 2 ^ k2) in *. set (q1 := mx / P1) in *.
  assert (H1 : Z.pos m3 * P2 <= m2) by lia.
  assert (H2 : m2 * P1 <= mx + P1) by nia.
  assert (H3 : Z.pos m3 * P2 * P1 <= mx + P1) by nia.
  assert (H4 : Z.pos m3 * P2 * P1 * A <= (mx + P1) * A).
  { apply Z.mul_le_mono_nonneg_r; lia. }
  lia.
Qed.

Lemma div_core_bounds (c t : Z) :
  0 < c <= t ->
  let '(q, e, l) := SFdiv_core_binary 53 1024 c 0 t 0 in
  0 <= q /\ -1074 <= e <= -53 /\ q <= 2 ^ (- e) /\ Zdigits2 q + e <= 1.
Proof.
  intros [Hc Hct].
  pose proof (div_core_small c t (conj Hc Hct)) as Hsmall.
  pose proof (Zdigits2_mono c t ltac:(lia)) as Hmono.
  unfold SFdiv_core_binary in *. rewrite fexp_eq in *.
  remember (Z.min (Z.max (Zdigits2 c + 0 - (Zdigits2 t + 0) - 53) (-1074)) (0 - 0))
    as e eqn:He.
  assert (He0 : -1074 <= e <= -53) by lia.
  remember (match 0 - 0 - e with
            | 0 => c
            | Z.pos _ => Z.shiftl c (0 - 0 - e)
            | Z.neg _ => 0
            end) as m' eqn:Hm'.
  assert (Hm : m' = c * 2 ^ (- e)).
  { subst m'. replace (0 - 0 - e) with (- e) by lia.
    destruct (- e) as [|p|p] eqn:E; try lia.
    rewrite Z.shiftl_mul_pow2; lia. }
  clear Hm'.
  assert (Hp : 0 < 2 ^ (- e)) by (apply Z.pow_pos_nonneg; lia).
  pose proof (Z_div_mod m' t ltac:(lia)) as Hdm.
  destruct (Z.div_eucl m' t) as [q r]. destruct Hdm as [Hq Hr].
  destruct Hsmall as (Hq0 & _ & Hd).
  repeat split; try lia. nia.
Qed.

(** A quotient [c / t] with [0 < c <= t] is zero (when [t] is so large
    that the quotient underflows) or a positive double that is at most one
    and one unit in the last place. *)
Lemma truediv_upper (c t : Z) :
  0 < c <= t ->
  PyFloat.truediv c t = Ok (S754_zero false)
  \/ exists (m : positive) (e : Z),
       PyFloat.truediv c t = Ok (S754_finite false m e)
       /\ -1074 <= e <= 0
       /\ Zdigits2 (Z.pos m) + e <= 2
       /\ Z.pos m * 2 ^ (e + 1200) <= 2 ^ 1200 + 2 ^ 1148.
Proof.
  intros [Hc Hct].
  destruct (truediv_small c t ltac:(lia) ltac:(lia)) as (x & Hx & Hs).
  unfold PyFloat.truediv in *.
  replace (t =? 0) with false in * by (symmetry; apply Z.eqb_neq; lia).
  replace (t <? 0) with false in * by (symmetry; apply Z.ltb_ge; lia).
  replace (c <? 0) with false in * by (symmetry; apply Z.ltb_ge; lia).
  replace (c =? 0) with false in * by (symmetry; apply Z.eqb_neq; lia).
  rewrite !Z.abs_eq in * by lia.
  pose proof (div_core_bounds c t (conj Hc Hct)) as Hcore.
  unfold PyFloat.prec, PyFloat.emax in *.
  destruct (SFdiv_core_binary 53 1024 c 0 t 0) as [[q e0] l].
  destruct Hcore as (Hq & He0 & Hq2 & Hd).
  destruct (binary_round_aux 53 1024 (xorb false false) q e0 l)
    as [s|s| |s m e] eqn:Er; cbv iota in Hx; try discriminate;
    injection Hx as Hx; subst x; cbn [small] in Hs; try contradiction.
  - left. destruct (binary_round_aux_inv (xorb false false) q e0 l Hq)
      as (k1 & m2 & k2 & _ & _ & _ & Heq).
    rewrite Heq in Er.
    destruct (m2 / 2 ^ k2); [| destruct (_ <=? _) |]; try discriminate.
    now injection Er as <-.
  - right. destruct Hs as [He Hds].
    destruct (binary_round_aux_upper _ q e0 l s m e Hq ltac:(lia) Er)
      as (-> & Hee & Hup).
    exists m, e. split; [reflexivity | split; [lia | split; [exact Hds |]]].
    assert (H1 : q * 2 ^ (e0 + 1200) <= 2 ^ 1200).
    { replace 1200 with (- e0 + (e0 + 1200)) at 2 by lia.
      rewrite (Z.pow_add_r 2 (- e0) (e0 + 1200)) by lia.
      apply Z.mul_le_mono_nonneg_r; [apply Z.pow_nonneg; lia | exact Hq2]. }
    assert (H2 : 2 ^ (Z.max e0 (Z.max (Zdigits2 q + e0 - 53) (-1074)) + 1200)
                 <= 2 ^ 1148).
    { apply Z.pow_le_mono_r; lia. }
    lia.
Qed.

Lemma mul_100_upper (m : positive) (e : Z) :
  -1074 <= e <= 0 ->
  Zdigits2 (Z.pos m) + e <= 2 ->
  Z.pos m * 2 ^ (e + 1200) <= 2 ^ 1200 + 2 ^ 1148 ->
  PyFloat.mul (S754_finite false m e) (PyFloat.of_int 100) = S754_zero false
  \/ exists (m' : positive) (e' : Z),
       PyFloat.mul (S754_finite false m e) (PyFloat.of_int 100)
       = S754_finite false m' e'
       /\ -1200 <= e'
       /\ Z.pos m' * 2 ^ (e' + 1200)
          <= 100 * 2 ^ 1200 + 100 * 2 ^ 1148 + 2 ^ 1156.
Proof.
  intros He Hd Hv.
  pose proof (mul_100_small (S754_finite false m e) (conj (proj2 He) Hd)) as Hs.
  rewrite of_int_100 in *. unfold PyFloat.mul in *.
  cbn [SFmul PyFloat.prec PyFloat.emax] in *.
  pose proof (Zdigits2_mul (Z.pos m) 7036874417766400 ltac:(lia) ltac:(lia)) as Hm.
  change (Zdigits2 7036874417766400) with 53 in Hm.
  rewrite Pos2Z.inj_mul in *. unfold PyFloat.prec, PyFloat.emax in *.
  destruct (binary_round_aux 53 1024 (xorb false false)
              (Z.pos m * 7036874417766400) (e + -46) loc_Exact)
    as [s|s| |s m' e'] eqn:Er; cbn [small] in Hs; try contradiction.
  - left. destruct (binary_round_aux_inv (xorb false false)
                      (Z.pos m * 7036874417766400) (e + -46) loc_Exact
                      ltac:(lia)) as (k1 & m2 & k2 & _ & _ & _ & Heq).
    rewrite Heq in Er.
    destruct (m2 / 2 ^ k2); [| destruct (_ <=? _) |]; try discriminate.
    now injection Er as <-.
  - right.
    destruct (binary_round_aux_upper (xorb false false)
                (Z.pos m * 7036874417766400) (e + -46) loc_Exact s m' e'
                ltac:(lia) ltac:(lia) Er)
      as (-> & Hee & Hup).
    exists m', e'. split; [reflexivity | split; [lia |]].
    assert (H1 : Z.pos m * 7036874417766400 * 2 ^ (e + -46 + 1200)
                 = 100 * (Z.pos m * 2 ^ (e + 1200))).
    { replace (e + 1200) with (46 + (e + -46 + 1200)) by lia.
      rewrite (Z.pow_add_r 2 46) by lia.
      change 7036874417766400 with (100 * 2 ^ 46). ring. }
    assert (H2 : 2 ^ (Z.max (e + -46)
                        (Z.max (Zdigits2 (Z.pos m * 7036874417766400)
                                + (e + -46) - 53) (-1074)) + 1200)
                 <= 2 ^ 1156).
    { apply Z.pow_le_mono_r; lia. }
    lia.
Qed.

Lemma round_le_100 (m : positive) (e : Z) :
  -1200 <= e ->
  Z.pos m * 2 ^ (e + 1200) <= 100 * 2 ^ 1200 + 100 * 2 ^ 1148 + 2 ^ 1156 ->
  exists p, PyFloat.round (S754_finite false m e) = Ok p /\ 0 <= p <= 100.
Proof.
  intros He Hv. cbn [PyFloat.round].
  set (T := 2 ^ 1148) in *.
  assert (HT : 0 < T) by (apply Z.pow_pos_nonneg; lia).
  replace (2 ^ 1200) with (2 ^ 52 * T) in Hv
    by (unfold T; rewrite <- Z.pow_add_r by lia; reflexivity).
  replace (2 ^ 1156) with (2 ^ 8 * T) in Hv
    by (unfold T; rewrite <- Z.pow_add_r by lia; reflexivity).
  change (2 ^ 52) with 4503599627370496 in Hv. change (2 ^ 8) with 256 in Hv.
  destruct (Z.leb_spec 0 e) as [Hpos|Hneg].
  - eexists; split; [reflexivity|].
    assert (Hp : 0 < 2 ^ e) by (apply Z.pow_pos_nonneg; lia).
    replace (e + 1200) with (e + (52 + 1148)) in Hv by lia.
    rewrite !Z.pow_add_r in Hv by lia. fold T in Hv.
    change (2 ^ 52) with 4503599627370496 in Hv.
    set (p := Z.pos m * 2 ^ e) in *.
    assert (0 <= p) by (unfold p; nia).
    assert (p * 4503599627370496 * T <= (100 * 4503599627370496 + 356) * T)
      by nia.
    assert (p * 4503599627370496 <= 100 * 4503599627370496 + 356)
      by (apply (Z.mul_le_mono_pos_r _ _ T); lia).
    lia.
  - eexists; split; [reflexivity|].
    set (d := 2 ^ (- e)).
    assert (Hd : 0 < d) by (apply Z.pow_pos_nonneg; lia).
    assert (Hv' : Z.pos m * 4503599627370496
                  <= (100 * 4503599627370496 + 356) * d).
    { apply (Z.mul_le_mono_pos_r _ _ T); [exact HT|].
      apply (Z.mul_le_mono_pos_r _ _ (2 ^ (e + 1200)));
        [apply Z.pow_pos_nonneg; lia|].
      assert (Hsplit : d * 2 ^ (e + 1200) = 4503599627370496 * T).
      { unfold d, T. rewrite <- Z.pow_add_r by lia.
        replace (- e + (e + 1200)) with (52 + 1148) by lia.
        rewrite Z.pow_add_r by lia. reflexivity. }
      nia. }
    unfold PyFloat.div_half_even. fold d.
    pose proof (Z.div_mod (Z.pos m) d ltac:(lia)) as Hdm.
    pose proof (Z.mod_pos_bound (Z.pos m) d Hd) as Hr.
    set (q := Z.pos m / d) in *. set (r := Z.pos m mod d) in *.
    assert (Hq0 : 0 <= q) by (unfold q; apply Z.div_pos; lia).
    assert (Hq100 : q <= 100) by nia.
    destruct (Z.compare_spec (2 * r) d) as [Heq|Hlt|Hgt].
    + destruct (Z.even q); [lia|].
      assert (q <> 100) by nia. lia.
    + lia.
    + assert (q <> 100) by nia. lia.
Qed.

Lemma calculate_percentage_zero (t : Z) : calculate_percentage 0 t = Ok 0.
Proof.
  unfold calculate_percentage, PyFloat.truediv.
  destruct (t =? 0); [reflexivity|].
  cbn [Z.eqb Z.ltb Z.compare rbind xorb]. rewrite of_int_100.
  destruct (t <? 0); reflexivity.
Qed.

(** The three roundings never carry the percentage of a positive count
    out of [0, 100]. *)
Lemma percentage_bounds_pos (c t : Z) :
  0 < c <= t ->
  exists p, calculate_percentage c t = Ok p /\ 0 <= p <= 100.
Proof.
  intros [Hc Hct].
  unfold calculate_percentage.
  replace (t =? 0) with false by (symmetry; apply Z.eqb_neq; lia).
  destruct (truediv_upper c t ltac:(lia)) as [-> | (m & e & -> & He & Hd & Hv)];
    cbn [rbind].
  - exists 0. rewrite of_int_100. split; [reflexivity | lia].
  - destruct (mul_100_upper m e He Hd Hv) as [-> | (m' & e' & -> & He' & Hv')].
    + exists 0. split; [reflexivity | lia].
    + apply round_le_100; assumption.
Qed.

(** X5: for [0 <= c <= t] the percentage is an integer between 0 and 100:
    the rounding of the quotient to a double, of the product to a double
    and of the result to an integer never carry it past 100. *)
Theorem calculate_percentage_range (c t : Z) :
  0 <= c <= t ->
  exists p, calculate_percentage c t = Ok p /\ 0 <= p <= 100.
Proof.
  intros [Hc Hct].
  destruct (Z.eq_dec c 0) as [->|Hne].
  - exists 0. split; [apply calculate_percentage_zero | lia].
  - apply percentage_bounds_pos. lia.
Qed.

Lemma calculate_percentage_range_witness :
  exists p, calculate_percentage 23 40 = Ok p /\ 0 <= p <= 100.
Proof. apply calculate_percentage_range. lia. Defined.

Lemma div_core_same (t : Z) :
  0 < t ->
  SFdiv_core_binary 53 1024 t 0 t 0 = (2 ^ 53, -53, loc_Exact).
Proof.
  intros Ht. unfold SFdiv_core_binary. rewrite fexp_eq.
  replace (Zdigits2 t + 0 - (Zdigits2 t + 0)) with 0 by lia.
  change (Z.min (Z.max (0 - 53) (-1074)) (0 - 0)) with (-53).
  change (0 - 0 - -53) with 53. cbv iota.
  rewrite Z.shiftl_mul_pow2 by lia.
  pose proof (Z_div_mod (t * 2 ^ 53) t ltac:(lia)) as Hdm.
  destruct (Z.div_eucl (t * 2 ^ 53) t) as [q r]. destruct Hdm as [Hq Hr].
  assert (r = 0 /\ q = 2 ^ 53) as [-> ->].
  { assert (t * (2 ^ 53 - q) = r) by lia.
    assert (- 1 < 2 ^ 53 - q < 1) by nia. split; nia. }
  unfold new_location, new_location_even, new_location_odd.
  destruct (Z.even t); reflexivity.
Qed.

(** X6: the two ends of the scale, for a key of any length [t > 0]: no
    correct answer is 0 percent and all answers correct is 100 percent. *)
Theorem calculate_percentage_ends (t : Z) :
  0 < t ->
  calculate_percentage 0 t = Ok 0 /\ calculate_percentage t t = Ok 100.
Proof.
  intros Ht. split; [apply calculate_percentage_zero |].
  unfold calculate_percentage, PyFloat.truediv.
  replace (t =? 0) with false by (symmetry; apply Z.eqb_neq; lia).
  replace (t <? 0) with false by (symmetry; apply Z.ltb_ge; lia).
  rewrite Z.abs_eq by lia. unfold PyFloat.prec, PyFloat.emax.
  rewrite div_core_same by exact Ht.
  vm_compute. reflexivity.
Qed.

Lemma calculate_percentage_ends_witness :
  calculate_percentage 0 30 = Ok 0 /\ calculate_percentage 30 30 = Ok 100.
Proof. apply calculate_percentage_ends. lia. Defined.

(** ** C7: the percentage and the fraction *)











(** ** Saving and loading the statistics *)

(** Induction on values, through the lists and dictionaries inside. *)
Lemma value_nested_ind (P : value -> Prop) :
  P VNone -> (forall b, P (VBool b)) -> (forall z, P (VInt z)) ->
  (forall s, P (VStr s)) ->
  (forall l, Forall P l -> P (VList l)) ->
  (forall d, Forall (fun p => P (snd p)) d -> P (VDict d)) ->
  forall v, P v.
Proof.
  intros HN HB HI HS HL HD.
  fix IH 1. intros [| b | z | s | l | d].
  - exact HN.
  - apply HB.
  - apply HI.
  - apply HS.
  - apply HL. induction l as [|x l IHl]; constructor; [apply IH | exact IHl].
  - apply HD. induction d as [|[k x] d IHd]; constructor;
      [apply IH | exact IHd].
Qed.

Lemma get_not_in (d : list (pykey * value)) (k : pykey) :
  ~ In k (List.map fst d) -> PyDict.get d k = None.
Proof.
  induction d as [|[k' v] d IH]; cbn [List.map fst In PyDict.get];
    [reflexivity|].
  intros H. rewrite key_eqb_neq by tauto. apply IH. tauto.
Qed.

(** Pairs with different keys build the dictionary that lists them. *)
Lemma fold_set_distinct (ps : list (pykey * value)) :
  forall acc,
    List.NoDup (List.map fst (acc ++ ps)) ->
    fold_left (fun d p => PyDict.set d (fst p) (snd p)) ps acc = acc ++ ps.
Proof.
  induction ps as [|[k v] ps IH]; intros acc Hnd; cbn [fold_left fst snd].
  - now rewrite app_nil_r.
  - assert (Hk : PyDict.get acc k = None).
    { apply get_not_in. rewrite map_app in Hnd. cbn [List.map fst] in Hnd.
      apply NoDup_remove_2 in Hnd. intros Hin. apply Hnd.
      apply in_or_app. now left. }
    rewrite (set_absent acc k v Hk).
    replace (acc ++ (k, v) :: ps) with ((acc ++ [(k, v)]) ++ ps)
      in * by now rewrite <- app_assoc.
    now apply IH.
Qed.

Lemma NoDup_map_KStr (names : list string) :
  List.NoDup names -> List.NoDup (List.map KStr names).
Proof.
  induction 1 as [|x l Hx _ IH]; cbn [List.map]; constructor; [|exact IH].
  intros Hin. apply in_map_iff in Hin. destruct Hin as (y & [= ->] & Hy).
  contradiction.
Qed.

Lemma of_json_to_json (v : value) :
  distinct_names v -> of_json (to_json v) = stringify v.
Proof.
  induction v as [| b | z | s | l IHl | d IHd] using value_nested_ind;
    cbn [distinct_names to_json of_json stringify]; try reflexivity.
  - intros Hd. f_equal. rewrite map_map.
    induction IHl as [|x l Hx _ IH]; [reflexivity|].
    cbn [fold_right] in Hd. destruct Hd as [Hdx Hdl].
    cbn [List.map]. now rewrite Hx, IH.
  - intros [Hnd Hd]. f_equal. rewrite map_map. cbn [fst snd].
    assert (Hmap : List.map (fun x => (KStr (dump_key (fst x)),
                                       of_json (to_json (snd x)))) d
                   = List.map (fun p => (KStr (dump_key (fst p)),
                                         stringify (snd p))) d).
    { clear Hnd. induction IHd as [|p d Hp _ IH]; [reflexivity|].
      cbn [fold_right] in Hd. destruct Hd as [Hdp Hdd].
      cbn [List.map]. now rewrite Hp, IH. }
    rewrite Hmap. unfold PyDict.of_pairs.
    apply (fold_set_distinct _ []). cbn [app]. rewrite map_map. cbn [fst].
    apply NoDup_map_KStr in Hnd. now rewrite map_map in Hnd.
Qed.

(** Where the cache and the file end up after [load_stats]. *)
Lemma load_stats_fields (w : world) :
  fst (load_stats w) = load_value (cached_stats w) (STATS_FILE w)
  /\ cached_stats (snd (load_stats w))
     = match load_value (cached_stats w) (STATS_FILE w) with
       | Ok v => v
       | Raise _ => cached_stats w
       end
  /\ STATS_FILE (snd (load_stats w)) = STATS_FILE w
  /\ EXCEL_FILE (snd (load_stats w)) = EXCEL_FILE w
  /\ stats_writable (snd (load_stats w)) = stats_writable w
  /\ excel_writable (snd (load_stats w)) = excel_writable w
  /\ user_states (snd (load_stats w)) = user_states w
  /\ outbox (snd (load_stats w)) = outbox w
  /\ (log (snd (load_stats w)) = log w
      \/ log (snd (load_stats w)) = log w ++ [ErrStatsJSON]).
Proof.
  unfold load_stats, load_value, try_except, bind, gets, lift, modify, logger, ret.
  destruct (cached_stats w) eqn:Ec; cbn [is_None];
    [| cbn; rewrite ?Ec; repeat split; solve [reflexivity | now left] ..].
  destruct (STATS_FILE w) as [|[]| | | |j] eqn:Ef; cbn [exists_ json_load];
    [| | | | | | destruct (of_json j)];
    cbn; rewrite ?Ec, ?Ef; repeat split;
    solve [reflexivity | now left | now right].
Qed.

Lemma save_stats_run (stats : value) (w : world) :
  save_stats stats w = (Ok tt, after_save stats w).
Proof.
  unfold save_stats, after_save, bind, modify, gets, logger, ret.
  cbn [stats_writable stats_write_leaves set_cached_stats].
  destruct (stats_writable w); [reflexivity |].
  change (stats_write_leaves (set_cached_stats stats w))
    with (stats_write_leaves w).
  destruct (stats_write_leaves w); reflexivity.
Qed.

(** X7: what is saved is what the next process loads, up to the keys:
    when the file can be written and the member names are distinct in
    every dictionary of [stats], [load_stats] after a restart returns
    [stats] with each key replaced by its member name ([str(uid)] for an
    integer id); a mapping whose keys are all strings comes back as it
    was. *)
Theorem save_then_reload (stats : value) (w : world) :
  stats_writable w = true ->
  distinct_names stats ->
  let w' := restart (snd (save_stats stats w)) in
  fst (load_stats w') = Ok (stringify stats)
  /\ cached_stats (snd (load_stats w')) = stringify stats
  /\ (stringify stats = stats -> fst (load_stats w') = Ok stats).
Proof.
  intros Hw Hd w'.
  destruct (load_stats_fields w') as (Hfst & Hcache & _).
  assert (Hv : load_value (cached_stats w') (STATS_FILE w')
               = Ok (stringify stats)).
  { subst w'. rewrite save_stats_run. unfold after_save. rewrite Hw.
    rewrite <- (of_json_to_json stats Hd). reflexivity. }
  rewrite Hv in Hfst, Hcache.
  split; [exact Hfst | split; [exact Hcache |]].
  intros Hs. now rewrite Hfst, Hs.
Qed.

Lemma save_then_reload_witness :
  fst (load_stats
         (restart
            (snd (save_stats
                    (VDict [(KInt 42, new_record (VStr "Ann") VNone 2)])
                    (mkWorld Missing Missing true None true ∅ VNone [] [])))))
  = Ok (stringify (VDict [(KInt 42, new_record (VStr "Ann") VNone 2)])).
Proof.
  refine (proj1 (save_then_reload
                   (VDict [(KInt 42, new_record (VStr "Ann") VNone 2)])
                   (mkWorld Missing Missing true None true ∅ VNone [] [])
                   eq_refl _)).
  cbn. repeat constructor; cbn; intuition discriminate.
Defined.

(** X8: a write of the statistics that fails is silent for the caller:
    [save_stats] returns normally with one error record in the log, and for
    the rest of the process [load_stats] serves the mapping that was not
    written (any value but [None]).  When it was [open] that failed, the
    file is as before and the next process loads it.  When the write
    failed after [open] had emptied the file, the next process loads what
    is left: from a text that is not JSON it logs the decoding error and
    starts from the empty mapping, every stored record gone; from bytes
    cut inside a character [load_stats] raises. *)
Theorem failed_write_diverges (stats : value) (w : world) :
  stats_writable w = false ->
  stats <> VNone ->
  let w' := snd (save_stats stats w) in
  fst (save_stats stats w) = Ok tt
  /\ log w' = log w ++ [ErrStatsWrite]
  /\ fst (load_stats w') = Ok stats
  /\ STATS_FILE w'
     = match stats_write_leaves w with
       | Some f => f
       | None => STATS_FILE w
       end
  /\ fst (load_stats (restart w')) = load_value VNone (STATS_FILE w')
  /\ (stats_write_leaves w = Some NotJSON ->
      fst (load_stats (restart w')) = Ok (VDict [])
      /\ log (snd (load_stats (restart w')))
         = log w ++ [ErrStatsWrite; ErrStatsJSON])
  /\ (stats_write_leaves w = Some NotUTF8 ->
      fst (load_stats (restart w')) = Raise UnicodeDecodeError).
Proof.
  intros Hw Hs w'. subst w'. rewrite save_stats_run. unfold after_save.
  rewrite Hw. cbn [fst snd].
  split; [reflexivity |].
  split; [destruct (stats_write_leaves w); reflexivity |].
  split.
  { rewrite load_stats_cached
      by (destruct (stats_write_leaves w); exact Hs).
    destruct (stats_write_leaves w); reflexivity. }
  split; [destruct (stats_write_leaves w); reflexivity |].
  split.
  { match goal with
    | |- fst (load_stats ?x) = _ =>
        destruct (load_stats_fields x) as (-> & _)
    end.
    reflexivity. }
  split.
  - intros ->. unfold load_stats, try_except, bind, gets, lift, modify, logger.
    cbn. split; [reflexivity | now rewrite <- app_assoc].
  - intros ->. reflexivity.
Qed.

Lemma failed_write_diverges_witness :
  let w := Build_world Missing
             (Document (to_json (VDict [(KStr "users", VDict [])]))) false
             None true ∅ VNone [] [] (Some NotJSON) (fun _ => None) in
  let stats := VDict [(KInt 42, new_record (VStr "Ann") VNone 2)] in
  fst (load_stats (snd (save_stats stats w))) = Ok stats
  /\ fst (load_stats (restart (snd (save_stats stats w)))) = Ok (VDict []).
Proof.
  intros w stats.
  pose proof (failed_write_diverges stats w eq_refl) as H.
  split.
  - apply H. discriminate.
  - apply H; [discriminate | reflexivity].
Defined.

(** ** An accepted submission, step by step *)

Lemma submit_answers_right_length (ANSWER_KEY : list string) (u : update)
    (w : world) (p : Z) :
  let s := score ANSWER_KEY (PyStr.chars (PyStr.strip (text u))) in
  List.length (PyStr.chars (PyStr.strip (text u))) = List.length ANSWER_KEY ->
  calculate_percentage (fst s) (total_questions ANSWER_KEY) = Ok p ->
  submit_answers ANSWER_KEY u w
  = bind load_stats (store_and_mark u (fst s))
      (add_outbox (chat_id u)
         (MsgScore (fst s) (total_questions ANSWER_KEY) p (snd s))
         (add_log InfoSubmitCalled w)).
Proof.
  intros s Hlen Hp. subst s. unfold submit_answers.
  apply Nat.eqb_eq in Hlen. rewrite Hlen. cbn [negb].
  destruct (score ANSWER_KEY (PyStr.chars (PyStr.strip (text u))))
    as [correct incorrect]. cbn [fst snd] in *.
  unfold bind at 1. unfold logger at 1, modify at 1.
  unfold bind at 1. unfold lift at 1. rewrite Hp.
  unfold bind at 1. unfold reply_text at 1, modify at 1.
  reflexivity.
Qed.

Lemma save_stats_to_excel_run (d : list (pykey * value))
    (rows : list excel_row) (w : world) :
  map_result excel_row_of d = Ok rows ->
  save_stats_to_excel (VDict d) w = after_export rows w.
Proof.
  intros Hrows.
  unfold save_stats_to_excel, after_export, bind, lift, gets, modify, logger.
  cbn [Py.items]. change (map_result _ d) with (map_result excel_row_of d).
  rewrite Hrows.
  destruct (excel_writable w); [|reflexivity].
  destruct (to_excel_refuses w rows) as [[e remains]|]; [|reflexivity].
  destruct (is_IOError e); reflexivity.
Qed.

(** The export leaves the platform as it is. *)
Lemma save_stats_to_excel_env (stats : value) (w : world) :
  let w' := snd (save_stats_to_excel stats w) in
  stats_writable w' = stats_writable w
  /\ stats_write_leaves w' = stats_write_leaves w
  /\ excel_writable w' = excel_writable w
  /\ to_excel_refuses w' = to_excel_refuses w.
Proof.
  unfold save_stats_to_excel, bind, lift, gets, modify, logger.
  destruct (Py.items stats) as [items|e]; [|now cbn].
  destruct (map_result _ items) as [data|e]; [|now cbn].
  destruct (excel_writable w) eqn:Ew; [|cbn; now rewrite Ew].
  destruct (to_excel_refuses w data) as [[e remains]|]; [|cbn; now rewrite Ew].
  destruct (is_IOError e); cbn; now rewrite Ew.
Qed.

Lemma load_stats_env (w : world) :
  let w' := snd (load_stats w) in
  stats_write_leaves w' = stats_write_leaves w
  /\ to_excel_refuses w' = to_excel_refuses w.
Proof.
  unfold load_stats, try_except, bind, gets, lift, modify, logger, ret.
  destruct (cached_stats w) eqn:Ec; cbn [is_None];
    [| cbn; split; reflexivity ..].
  destruct (STATS_FILE w) as [|[]| | | |j]; cbn [exists_ json_load];
    [| | | | | | destruct (of_json j)]; cbn; split; reflexivity.
Qed.

Lemma after_save_fields (stats : value) (w : world) :
  cached_stats (after_save stats w) = stats
  /\ EXCEL_FILE (after_save stats w) = EXCEL_FILE w
  /\ user_states (after_save stats w) = user_states w
  /\ outbox (after_save stats w) = outbox w
  /\ stats_writable (after_save stats w) = stats_writable w
  /\ stats_write_leaves (after_save stats w) = stats_write_leaves w
  /\ excel_writable (after_save stats w) = excel_writable w
  /\ to_excel_refuses (after_save stats w) = to_excel_refuses w.
Proof.
  unfold after_save.
  destruct (stats_writable w) eqn:Ew, (stats_write_leaves w) eqn:El; cbn;
    rewrite ?Ew, ?El; repeat split; reflexivity.
Qed.

Lemma user_record_new (n : Z) (first last : value) (c : Z) :
  n = 0 \/ 0 <= c <= n -> user_record n (new_record first last c).
Proof.
  intros H. exists first, last, [c]. repeat split; try reflexivity.
  cbn [fold_right]. lia.
Qed.

Lemma Forall_set {P : pykey * value -> Prop} (d : list (pykey * value))
    (k : pykey) (v : value) :
  (forall k', P (k', v)) -> Forall P d -> Forall P (PyDict.set d k v).
Proof.
  intros Hv. induction 1 as [|[k' v'] d Hp Hd IH]; cbn [PyDict.set].
  - constructor; [apply Hv | constructor].
  - destruct (PyDict.key_eqb k' k); constructor;
      solve [apply Hv | exact Hp | exact Hd | exact IH].
Qed.


Lemma bind_run {A B} (m : M A) (f : A -> M B) (w w' : world) (a : A) :
  m w = (Ok a, w') -> bind m f w = f a w'.
Proof. intros H. unfold bind. now rewrite H. Qed.


(** Lines 170-183 on any object and in any state: either the
    first-attempt rule raises and the statistics are as before, or what it
    returns is cached and saved, whatever the export does after that. *)
Lemma store_and_mark_stats (u : update) (c : Z) (stats : value) (w : world) :
  let w' := snd (store_and_mark u c stats w) in
  stats_writable w' = stats_writable w
  /\ stats_write_leaves w' = stats_write_leaves w
  /\ match record_first_attempt stats (user_id u) (VStr (first_name u))
             (value_of_last_name (last_name u)) c with
     | Raise _ => cached_stats w' = cached_stats w
                  /\ STATS_FILE w' = STATS_FILE w
     | Ok (stats', _) =>
         cached_stats w' = stats'
         /\ STATS_FILE w' = STATS_FILE (after_save stats' w)
     end.
Proof.
  destruct (store_and_mark u c stats w) as [r w'] eqn:H. cbn [snd].
  unfold store_and_mark in H. unfold bind at 1 in H. unfold lift at 1 in H.
  destruct (record_first_attempt stats (user_id u) (VStr (first_name u))
              (value_of_last_name (last_name u)) c) as [[stats' b]|e].
  2: { injection H as _ <-. repeat split; reflexivity. }
  cbn [fst snd] in H.
  erewrite bind_run in H by reflexivity.
  set (w1 := set_cached_stats stats' w) in H.
  set (w2 := if b then w1 else add_log (InfoRepeatIgnored (user_id u)) w1).
  erewrite (bind_run (if b then ret tt else _) _ w1 w2 tt) in H
    by (subst w2; destruct b; reflexivity).
  erewrite bind_run in H by apply save_stats_run.
  set (w3 := after_save stats' w2) in H.
  pose proof (save_stats_to_excel_frame stats' w3) as (Fc & Ff & _ & _).
  pose proof (save_stats_to_excel_env stats' w3) as (Es & El & _ & _).
  destruct (after_save_fields stats' w2) as (Sc & _ & _ & _ & Ss & Sl & _ & _).
  fold w3 in Sc, Ss, Sl.
  assert (Hfile : STATS_FILE w3 = STATS_FILE (after_save stats' w)).
  { subst w3 w2 w1. unfold after_save.
    destruct b; cbn; destruct (stats_writable w), (stats_write_leaves w);
      reflexivity. }
  assert (Hsw : stats_writable w2 = stats_writable w
                /\ stats_write_leaves w2 = stats_write_leaves w)
    by (subst w2 w1; destruct b; split; reflexivity).
  destruct Hsw as [Hsw Hsl].
  unfold bind in H.
  destruct (save_stats_to_excel stats' w3) as [[[]|e] w4];
    cbn [fst snd] in *; unfold modify in H; injection H as _ <-;
    cbn [stats_writable stats_write_leaves cached_stats STATS_FILE
         set_user_states];
    (split; [congruence | split; [congruence | split; congruence]]).
Qed.

(** ** What the handlers do to the statistics, in any state *)

Lemma is_first_attempt_scored (d : list (pykey * value)) (uid : Z)
    (r : value) :
  PyDict.get d (KInt uid) = Some r ->
  has_score r ->
  is_first_attempt (VDict d) uid = Ok false.
Proof.
  intros Hg (x & xs & Hs). unfold is_first_attempt.
  cbn [Py.contains_int rbind]. unfold PyDict.contains. rewrite Hg.
  cbn [negb Py.getitem]. rewrite Hg. cbn [rbind]. rewrite Hs.
  cbn [rbind Py.len List.length].
  replace (Z.of_nat (S (List.length xs)) =? 0) with false
    by (symmetry; apply Z.eqb_neq; lia).
  reflexivity.
Qed.

Lemma grows_records (n : Z) (d d' : list (pykey * value)) :
  grows n d d' ->
  Forall (fun item => user_record n (snd item)) d ->
  Forall (fun item => user_record n (snd item)) d'.
Proof.
  intros [-> | (uid & first & last & c & _ & Hc & ->)] Hd; [exact Hd |].
  apply Forall_set; [| exact Hd].
  intros k'. apply user_record_new. now right.
Qed.

Lemma grows_keeps (n : Z) (d d' : list (pykey * value)) (k : pykey)
    (r : value) :
  grows n d d' ->
  PyDict.get d k = Some r -> has_score r -> PyDict.get d' k = Some r.
Proof.
  intros [-> | (uid & first & last & c & Hfirst & _ & ->)] Hk Hs;
    [exact Hk |].
  rewrite get_set_ne; [exact Hk |].
  intros Heq. subst k.
  rewrite (is_first_attempt_scored d uid r Hk Hs) in Hfirst. discriminate.
Qed.

Lemma grows_refl (n : Z) (d : list (pykey * value)) : grows n d d.
Proof. now left. Qed.

(** [submit_answers] in any state in which [load_stats] returns a
    mapping: whatever it sends, raises or fails to write, the mapping that
    [load_stats] returns afterwards is the same one or has the record of
    one first attempt more. *)
Lemma submit_answers_grows (ANSWER_KEY : list string) (u : update)
    (w : world) (d : list (pykey * value)) :
  load_value (cached_stats w) (STATS_FILE w) = Ok (VDict d) ->
  exists d',
    load_value (cached_stats (snd (submit_answers ANSWER_KEY u w)))
      (STATS_FILE (snd (submit_answers ANSWER_KEY u w))) = Ok (VDict d')
    /\ grows (total_questions ANSWER_KEY) d d'.
Proof.
  intros Hload.
  destruct (Nat.eq_dec (List.length (PyStr.chars (PyStr.strip (text u))))
              (List.length ANSWER_KEY)) as [Hlen|Hlen].
  2: { rewrite (submit_answers_wrong_length ANSWER_KEY u w Hlen).
       exists d. split; [exact Hload | apply grows_refl]. }
  destruct (score_percentage ANSWER_KEY _ Hlen) as [p Hp].
  rewrite (submit_answers_right_length ANSWER_KEY u w p Hlen Hp).
  set (s := score ANSWER_KEY (PyStr.chars (PyStr.strip (text u)))) in *.
  assert (Hc : 0 <= fst s <= total_questions ANSWER_KEY).
  { subst s. unfold total_questions, score. rewrite <- Hlen.
    pose proof (score_loop_count ANSWER_KEY
                  (PyStr.chars (PyStr.strip (text u))) 0 0 []). lia. }
  set (w2 := add_outbox (chat_id u)
               (MsgScore (fst s) (total_questions ANSWER_KEY) p (snd s))
               (add_log InfoSubmitCalled w)).
  destruct (load_stats_fields w2) as (Lfst & Lcache & _).
  change (cached_stats w2) with (cached_stats w) in *.
  change (STATS_FILE w2) with (STATS_FILE w) in *.
  rewrite Hload in Lfst, Lcache.
  unfold bind.
  destruct (load_stats w2) as [r3 w3]. cbn [fst snd] in *. subst r3.
  destruct (store_and_mark_stats u (fst s) (VDict d) w3) as (_ & _ & Hst).
  destruct (record_first_attempt_cases d (user_id u) (VStr (first_name u))
              (value_of_last_name (last_name u)) (fst s))
    as [[e He] | [Hno | [Hfirst Hset]]].
  - rewrite He in Hst. destruct Hst as [Hsame _].
    exists d. rewrite Hsame, Lcache.
    split; [reflexivity | apply grows_refl].
  - rewrite Hno in Hst. destruct Hst as [Hcache _].
    exists d. rewrite Hcache. split; [reflexivity | apply grows_refl].
  - rewrite Hset in Hst. destruct Hst as [Hcache _].
    eexists. rewrite Hcache. split; [reflexivity |].
    right. exists (user_id u), (VStr (first_name u)),
             (value_of_last_name (last_name u)), (fst s).
    split; [exact Hfirst | split; [exact Hc | reflexivity]].
Qed.

Lemma handle_message_grows (ANSWER_KEY : list string) (u : update)
    (w : world) (d : list (pykey * value)) :
  load_value (cached_stats w) (STATS_FILE w) = Ok (VDict d) ->
  exists d',
    load_value (cached_stats (snd (handle_message ANSWER_KEY u w)))
      (STATS_FILE (snd (handle_message ANSWER_KEY u w))) = Ok (VDict d')
    /\ grows (total_questions ANSWER_KEY) d d'.
Proof.
  intros Hload.
  destruct (submit_answers_grows ANSWER_KEY u w d Hload) as (d' & Hl & Hg).
  unfold handle_message, try_except, bind, gets.
  destruct (user_states w !! user_id u) as [[|]|].
  2: { exists d. split; [exact Hload | apply grows_refl]. }
  all: destruct (submit_answers ANSWER_KEY u w) as [[[]|e] w1];
    cbn [snd] in *; exists d'; (split; [exact Hl | exact Hg]).
Qed.

(** Loading for a handler caches the mapping and changes nothing else of
    the statistics. *)
Lemma load_stats_grows (w : world) (d : list (pykey * value)) :
  load_value (cached_stats w) (STATS_FILE w) = Ok (VDict d) ->
  fst (load_stats w) = Ok (VDict d)
  /\ cached_stats (snd (load_stats w)) = VDict d.
Proof.
  intros Hload. destruct (load_stats_fields w) as (Lfst & Lcache & _).
  rewrite Hload in Lfst, Lcache. now split.
Qed.

Lemma show_stats_grows (ANSWER_KEY : list string) (u : update)
    (w : world) (d : list (pykey * value)) :
  load_value (cached_stats w) (STATS_FILE w) = Ok (VDict d) ->
  load_value (cached_stats (snd (show_stats ANSWER_KEY u w)))
    (STATS_FILE (snd (show_stats ANSWER_KEY u w))) = Ok (VDict d).
Proof.
  intros Hload. unfold show_stats.
  erewrite bind_run by reflexivity.
  destruct (load_stats_grows (add_log InfoShowStatsCalled w) d Hload)
    as [Lfst Lcache].
  unfold bind.
  destruct (load_stats (add_log InfoShowStatsCalled w)) as [r w2].
  cbn [fst snd] in *. subst r. unfold lift.
  destruct (render ANSWER_KEY (VDict d)); cbn [snd];
    cbn [cached_stats reply_text modify add_outbox snd]; now rewrite Lcache.
Qed.

(** [show_stats] in a tidy state. *)
Lemma show_stats_step (ANSWER_KEY : list string) (u : update) (w : world)
    (d : list (pykey * value)) :
  load_value (cached_stats w) (STATS_FILE w) = Ok (VDict d) ->
  Forall (fun item => user_record (total_questions ANSWER_KEY) (snd item)) d ->
  exists (lines : list stats_line) (w' : world) (logged : list log_record),
    render ANSWER_KEY (VDict d) = Ok lines
    /\ show_stats ANSWER_KEY u w = (Ok tt, w')
    /\ cached_stats w' = VDict d
    /\ STATS_FILE w' = STATS_FILE w
    /\ EXCEL_FILE w' = EXCEL_FILE w
    /\ user_states w' = user_states w
    /\ outbox w' = outbox w ++ [(chat_id u, MsgStats lines)]
    /\ log w' = log w ++ logged
    /\ Forall (fun r => forall e, r <> ErrHandler e) logged.
Proof.
  intros Hload Hd.
  destruct (render_total ANSWER_KEY d Hd) as [lines Hlines].
  set (w1 := add_log InfoShowStatsCalled w).
  destruct (load_stats_fields w1)
    as (Lfst & Lcache & Lfile & Lexcel & _ & _ & Lus & Lout & Llog).
  change (cached_stats w1) with (cached_stats w) in *.
  change (STATS_FILE w1) with (STATS_FILE w) in *.
  rewrite Hload in Lfst, Lcache.
  destruct (load_stats w1) as [r2 w2] eqn:El. cbn [fst snd] in *. subst r2.
  assert (Hlog : exists logged,
             log w2 = log w ++ logged
             /\ Forall (fun r => forall e, r <> ErrHandler e) logged).
  { destruct Llog as [Heq|Heq]; rewrite Heq; cbn [log w1 add_log].
    - exists [InfoShowStatsCalled].
      split; [reflexivity | repeat constructor; discriminate].
    - exists [InfoShowStatsCalled; ErrStatsJSON].
      split; [now rewrite <- app_assoc | repeat constructor; discriminate]. }
  destruct Hlog as (logged & Hlogged & Flogged).
  exists lines, (add_outbox (chat_id u) (MsgStats lines) w2), logged.
  split; [exact Hlines |]. split.
  { unfold show_stats.
    erewrite bind_run by reflexivity. fold w1.
    erewrite bind_run by exact El.
    erewrite bind_run by (unfold lift; rewrite Hlines; reflexivity).
    reflexivity. }
  cbn [cached_stats STATS_FILE EXCEL_FILE user_states outbox log add_outbox].
  split; [exact Lcache | split; [exact Lfile | split; [exact Lexcel |]]].
  split; [exact Lus | split; [now rewrite Lout | now split]].
Qed.

Section MenuFacts.

Variable file_paths : list string.
Variable image_found : string -> bool.
Variable ANSWER_KEY : list string.

Lemma without_message_grows (h : handler) (w : world)
    (d : list (pykey * value)) :
  load_value (cached_stats w) (STATS_FILE w) = Ok (VDict d) ->
  load_value (cached_stats (snd (without_message ANSWER_KEY h w)))
    (STATS_FILE (snd (without_message ANSWER_KEY h w))) = Ok (VDict d).
Proof.
  intros Hload. destruct h; cbn [without_message]; try exact Hload.
  erewrite bind_run by reflexivity.
  destruct (load_stats_grows (add_log InfoShowStatsCalled w) d Hload)
    as [Lfst Lcache].
  unfold bind.
  destruct (load_stats (add_log InfoShowStatsCalled w)) as [r w2].
  cbn [fst snd] in *. subst r. unfold lift.
  destruct (render ANSWER_KEY (VDict d)); cbn [snd]; now rewrite Lcache.
Qed.

(** Any update in any state in which [load_stats] returns a mapping. *)
Lemma dispatch_grows (i : incoming) (w : world) (d : list (pykey * value)) :
  load_value (cached_stats w) (STATS_FILE w) = Ok (VDict d) ->
  exists d',
    load_value
      (cached_stats (snd (dispatch file_paths image_found ANSWER_KEY i w)))
      (STATS_FILE (snd (dispatch file_paths image_found ANSWER_KEY i w)))
    = Ok (VDict d')
    /\ grows (total_questions ANSWER_KEY) d d'.
Proof.
  intros Hload. destruct i as [u|u|u|u|h]; cbn [dispatch].
  - exists d. split; [exact Hload | apply grows_refl].
  - exists d. split; [exact Hload | apply grows_refl].
  - exists d. split; [now apply show_stats_grows | apply grows_refl].
  - now apply handle_message_grows.
  - exists d. split; [now apply without_message_grows | apply grows_refl].
Qed.

Lemma run_grows (updates : list incoming) :
  forall (w : world) (d : list (pykey * value)),
    load_value (cached_stats w) (STATS_FILE w) = Ok (VDict d) ->
    exists d',
      load_value
        (cached_stats (run file_paths image_found ANSWER_KEY updates w))
        (STATS_FILE (run file_paths image_found ANSWER_KEY updates w))
      = Ok (VDict d')
      /\ (Forall (fun item =>
                    user_record (total_questions ANSWER_KEY) (snd item)) d ->
          Forall (fun item =>
                    user_record (total_questions ANSWER_KEY) (snd item)) d')
      /\ (forall k r, PyDict.get d k = Some r -> has_score r ->
                      PyDict.get d' k = Some r).
Proof.
  induction updates as [|i updates IH]; intros w d Hload; cbn [run].
  - exists d. split; [exact Hload | split; [tauto | tauto]].
  - destruct (dispatch_grows i w d Hload) as (d1 & Hl1 & Hg).
    destruct (IH _ d1 Hl1) as (d' & Hl' & Hrec & Hkeep).
    exists d'. split; [exact Hl' | split].
    + intros Hd. apply Hrec. now apply (grows_records _ d).
    + intros k r Hk Hs. apply Hkeep; [| exact Hs].
      exact (grows_keeps _ d d1 k r Hg Hk Hs).
Qed.

End MenuFacts.

(** ** The process as a whole *)


Lemma tidy_fresh (ANSWER_KEY : list string) (w : world) :
  cached_stats w = VNone ->
  STATS_FILE w = Missing \/ STATS_FILE w = NotJSON ->
  tidy ANSWER_KEY w.
Proof.
  intros Hc Hf. exists []. rewrite Hc.
  split; [destruct Hf as [-> | ->]; reflexivity | constructor].
Qed.


(** What a submission of the right length leaves in the cache and in the
    statistics file, whatever the export does and whatever
    [handle_message] sends after it. *)
Lemma handle_message_saved (ANSWER_KEY : list string) (u : update)
    (w : world) (d d' : list (pykey * value)) (b : bool) :
  user_states w !! user_id u <> Some answers_submitted ->
  List.length (PyStr.chars (PyStr.strip (text u))) = List.length ANSWER_KEY ->
  load_value (cached_stats w) (STATS_FILE w) = Ok (VDict d) ->
  record_first_attempt (VDict d) (user_id u) (VStr (first_name u))
    (value_of_last_name (last_name u))
    (fst (score ANSWER_KEY (PyStr.chars (PyStr.strip (text u)))))
  = Ok (VDict d', b) ->
  let w' := snd (handle_message ANSWER_KEY u w) in
  cached_stats w' = VDict d'
  /\ STATS_FILE w' = STATS_FILE (after_save (VDict d') w)
  /\ stats_writable w' = stats_writable w
  /\ stats_write_leaves w' = stats_write_leaves w.
Proof.
  intros Hst Hlen Hload Hrec.
  destruct (score_percentage ANSWER_KEY _ Hlen) as [p Hp].
  set (s := score ANSWER_KEY (PyStr.chars (PyStr.strip (text u)))) in *.
  set (w2 := add_outbox (chat_id u)
               (MsgScore (fst s) (total_questions ANSWER_KEY) p (snd s))
               (add_log InfoSubmitCalled w)).
  destruct (load_stats_fields w2)
    as (Lfst & Lcache & Lfile & _ & Lsw & _ & _ & _ & _).
  destruct (load_stats_env w2) as (Lleaves & _).
  change (cached_stats w2) with (cached_stats w) in *.
  change (STATS_FILE w2) with (STATS_FILE w) in *.
  change (stats_writable w2) with (stats_writable w) in *.
  change (stats_write_leaves w2) with (stats_write_leaves w) in *.
  rewrite Hload in Lfst, Lcache.
  assert (Hsub : let w1 := snd (submit_answers ANSWER_KEY u w) in
                 cached_stats w1 = VDict d'
                 /\ STATS_FILE w1 = STATS_FILE (after_save (VDict d') w)
                 /\ stats_writable w1 = stats_writable w
                 /\ stats_write_leaves w1 = stats_write_leaves w).
  { rewrite (submit_answers_right_length ANSWER_KEY u w p Hlen Hp).
    fold s w2. unfold bind.
    destruct (load_stats w2) as [r3 w3]. cbn [fst snd] in *. subst r3.
    destruct (store_and_mark_stats u (fst s) (VDict d) w3)
      as (Hsw & Hsl & Hst3).
    rewrite Hrec in Hst3. destruct Hst3 as [Hc Hf].
    split; [exact Hc |]. split; [| split; congruence].
    rewrite Hf. unfold after_save. rewrite Lsw, Lleaves.
    destruct (stats_writable w); [reflexivity |].
    destruct (stats_write_leaves w); [reflexivity |].
    cbn [STATS_FILE add_log set_cached_stats]. exact Lfile. }
  unfold handle_message, try_except, bind, gets.
  destruct (user_states w !! user_id u) as [[|]|]; try congruence.
  all: destruct (submit_answers ANSWER_KEY u w) as [[[]|e] w1];
    cbn [snd] in *; exact Hsub.
Qed.

(** ** C1: the first attempt across restarts *)

(** What [json.load] makes of a record that [json.dump] wrote. *)
Lemma of_json_new_record (first : string) (last : option string) (c : Z) :
  of_json (to_json (new_record (VStr first) (value_of_last_name last) c))
  = new_record (VStr first) (value_of_last_name last) c.
Proof. destruct last; reflexivity. Qed.

(** C1: the first attempt does not outlive the process.  A user with no
    record sends answers of the right length: the record with the score
    is stored under the integer id and written to the file.  The next
    process loads it under the member name [str(id)]; when the same user
    sends answers again, the test of line 170 looks for the integer id,
    finds none and takes the second attempt for a first one: it is stored
    next to the first and written under the same member name.  The
    process after that loads one record for the user, and it is the
    second attempt: the score of the first attempt is gone. *)
Theorem first_attempt_lost_after_restart (ANSWER_KEY : list string)
    (u1 u2 : update) (w0 : world) :
  user_id u1 = user_id u2 ->
  List.length (PyStr.chars (PyStr.strip (text u1))) = List.length ANSWER_KEY ->
  List.length (PyStr.chars (PyStr.strip (text u2))) = List.length ANSWER_KEY ->
  cached_stats w0 = VNone ->
  STATS_FILE w0 = Missing ->
  stats_writable w0 = true ->
  user_states w0 !! user_id u1 <> Some answers_submitted ->
  let uid := user_id u1 in
  let record1 :=
    new_record (VStr (first_name u1)) (value_of_last_name (last_name u1))
      (fst (score ANSWER_KEY (PyStr.chars (PyStr.strip (text u1))))) in
  let record2 :=
    new_record (VStr (first_name u2)) (value_of_last_name (last_name u2))
      (fst (score ANSWER_KEY (PyStr.chars (PyStr.strip (text u2))))) in
  let w1 := snd (handle_message ANSWER_KEY u1 w0) in
  let w2 := snd (handle_message ANSWER_KEY u2 (restart w1)) in
  fst (load_stats w1) = Ok (VDict [(KInt uid, record1)])
  /\ fst (load_stats (restart w1))
     = Ok (VDict [(KStr (str_of_int uid), record1)])
  /\ fst (load_stats w2)
     = Ok (VDict [(KStr (str_of_int uid), record1); (KInt uid, record2)])
  /\ fst (load_stats (restart w2))
     = Ok (VDict [(KStr (str_of_int uid), record2)]).
Proof.
  intros Hu Hlen1 Hlen2 Hc Hf Hw Hst uid record1 record2 w1 w2.
  assert (Hload0 : load_value (cached_stats w0) (STATS_FILE w0)
                   = Ok (VDict [])) by (now rewrite Hc, Hf).
  destruct (handle_message_saved ANSWER_KEY u1 w0 [] [(KInt uid, record1)]
              true Hst Hlen1 Hload0 eq_refl)
    as (Hc1 & Hf1 & Hw1 & _).
  fold w1 in Hc1, Hf1, Hw1.
  unfold after_save in Hf1. rewrite Hw in Hf1.
  cbn [STATS_FILE set_STATS_FILE] in Hf1.
  assert (Hload1 : load_value (cached_stats (restart w1))
                     (STATS_FILE (restart w1))
                   = Ok (VDict [(KStr (str_of_int uid), record1)])).
  { change (cached_stats (restart w1)) with VNone.
    change (STATS_FILE (restart w1)) with (STATS_FILE w1). rewrite Hf1.
    cbn [load_value is_None]. subst record1.
    cbn [to_json List.map fst snd dump_key of_json PyDict.of_pairs fold_left
         PyDict.set Py.get_default PyDict.get PyDict.key_eqb String.eqb
         Ascii.eqb Bool.eqb].
    rewrite <- (of_json_new_record (first_name u1) (last_name u1)) at 2.
    reflexivity. }
  assert (Hrec2 : record_first_attempt
                    (VDict [(KStr (str_of_int uid), record1)]) (user_id u2)
                    (VStr (first_name u2)) (value_of_last_name (last_name u2))
                    (fst (score ANSWER_KEY
                            (PyStr.chars (PyStr.strip (text u2)))))
                  = Ok (VDict [(KStr (str_of_int uid), record1);
                               (KInt uid, record2)], true)).
  { rewrite <- Hu. reflexivity. }
  assert (Hst2 : user_states (restart w1) !! user_id u2
                 <> Some answers_submitted).
  { change (user_states (restart w1)) with (∅ : gmap Z session_state).
    rewrite lookup_empty. discriminate. }
  destruct (handle_message_saved ANSWER_KEY u2 (restart w1) _ _ true
              Hst2 Hlen2 Hload1 Hrec2)
    as (Hc2 & Hf2 & _ & _).
  fold w2 in Hc2, Hf2.
  unfold after_save in Hf2.
  change (stats_writable (restart w1)) with (stats_writable w1) in Hf2.
  rewrite Hw1, Hw in Hf2. cbn [STATS_FILE set_STATS_FILE] in Hf2.
  split.
  { destruct (load_stats_fields w1) as (-> & _). now rewrite Hc1. }
  split.
  { destruct (load_stats_fields (restart w1)) as (-> & _). exact Hload1. }
  split.
  { destruct (load_stats_fields w2) as (-> & _). now rewrite Hc2. }
  destruct (load_stats_fields (restart w2)) as (-> & _).
  change (cached_stats (restart w2)) with VNone.
  change (STATS_FILE (restart w2)) with (STATS_FILE w2). rewrite Hf2.
  cbn [load_value is_None]. subst record1 record2.
  cbn [to_json List.map fst snd dump_key of_json PyDict.of_pairs fold_left
       PyDict.set Py.get_default PyDict.get PyDict.key_eqb String.eqb
       Ascii.eqb Bool.eqb].
  rewrite String.eqb_refl.
  rewrite <- (of_json_new_record (first_name u2) (last_name u2)) at 2.
  reflexivity.
Qed.

Lemma first_attempt_lost_after_restart_witness :
  let key := ["a"; "b"; "c"]%string in
  let w0 := mkWorld Missing Missing true None true ∅ VNone [] [] in
  let w1 := snd (handle_message key (mkUpdate 7 42 "Ann" None "abd") w0) in
  let w2 := snd (handle_message key (mkUpdate 7 42 "Ann" None "abc")
                   (restart w1)) in
  fst (load_stats w1)
  = Ok (VDict [(KInt 42, new_record (VStr "Ann") VNone 2)])
  /\ fst (load_stats (restart w1))
     = Ok (VDict [(KStr "42", new_record (VStr "Ann") VNone 2)])
  /\ fst (load_stats w2)
     = Ok (VDict [(KStr "42", new_record (VStr "Ann") VNone 2);
                  (KInt 42, new_record (VStr "Ann") VNone 3)])
  /\ fst (load_stats (restart w2))
     = Ok (VDict [(KStr "42", new_record (VStr "Ann") VNone 3)]).
Proof.
  intros key w0 w1 w2.
  refine (first_attempt_lost_after_restart key
            (mkUpdate 7 42 "Ann" None "abd") (mkUpdate 7 42 "Ann" None "abc")
            w0 eq_refl eq_refl eq_refl eq_refl eq_refl eq_refl _).
  vm_compute. discriminate.
Defined.



(** X10: well-formed statistics are an invariant of the process.  From a
    state in which [load_stats] would return a mapping of records with a
    name, a surname and a list of integer scores whose total is a score
    out of the questions of the key, [load_stats] returns such a mapping
    again after any sequence of updates: commands, texts and updates
    without a message, whatever a handler raises on the way, whatever
    [df.to_excel] refuses and whichever write fails. *)
Theorem well_formed_statistics_invariant (file_paths : list string)
    (image_found : string -> bool) (ANSWER_KEY : list string)
    (updates : list incoming) (w : world) :
  tidy ANSWER_KEY w ->
  tidy ANSWER_KEY (run file_paths image_found ANSWER_KEY updates w).
Proof.
  intros (d & Hload & Hd).
  destruct (run_grows file_paths image_found ANSWER_KEY updates w d Hload)
    as (d' & Hload' & Hrec & _).
  exists d'. split; [exact Hload' | now apply Hrec].
Qed.

Lemma well_formed_statistics_invariant_witness :
  let refuse := fun rows : list excel_row =>
                  Some (IllegalCharacterError, None) in
  let w0 := Build_world Missing Missing false None true ∅ VNone [] []
              (Some NotJSON) refuse in
  let updates := [PlainText (mkUpdate 7 42 "Ann" None "abd");
                  NoMessage HText;
                  CmdGetTest (mkUpdate 7 42 "Ann" None "/get_test");
                  PlainText (mkUpdate 7 42 "Ann" None "abc");
                  CmdShowStats (mkUpdate 7 42 "Ann" None "/show_stats")] in
  tidy ["a"; "b"; "c"]%string
    (run [] (fun _ => false) ["a"; "b"; "c"]%string updates w0).
Proof.
  intros refuse w0 updates.
  apply well_formed_statistics_invariant.
  apply tidy_fresh; [reflexivity | now left].
Defined.

(** X11: the first attempt stays for the lifetime of the process.  A
    record with a non-empty list of scores that [load_stats] would return
    is returned again, unchanged and under the same key, after any
    sequence of updates, further submissions of the same user and
    /get_test included, in any state: the other records may be malformed,
    handlers may raise and writes may fail. *)
Theorem scored_record_is_permanent (file_paths : list string)
    (image_found : string -> bool) (ANSWER_KEY : list string)
    (updates : list incoming) (w : world) (d : list (pykey * value))
    (k : pykey) (r : value) :
  load_value (cached_stats w) (STATS_FILE w) = Ok (VDict d) ->
  PyDict.get d k = Some r ->
  has_score r ->
  let w' := run file_paths image_found ANSWER_KEY updates w in
  exists d', load_value (cached_stats w') (STATS_FILE w') = Ok (VDict d')
             /\ PyDict.get d' k = Some r.
Proof.
  intros Hl Hk Hs w'.
  destruct (run_grows file_paths image_found ANSWER_KEY updates w d Hl)
    as (d' & Hl' & _ & Hkeep).
  exists d'. split; [exact Hl' | now apply Hkeep].
Qed.

Lemma scored_record_is_permanent_witness :
  let rec42 := new_record (VStr "Ann") VNone 2 in
  let w := mkWorld Missing Missing true None true ∅
             (VDict [(KInt 42, rec42); (KInt 43, VNone)]) [] [] in
  let w' := run [] (fun _ => false) ["a"; "b"; "c"]%string
              [CmdGetTest (mkUpdate 7 42 "Ann" None "/get_test");
               PlainText (mkUpdate 7 42 "Ann" None "abc");
               PlainText (mkUpdate 8 43 "Bob" None "abc")] w in
  exists d', load_value (cached_stats w') (STATS_FILE w') = Ok (VDict d')
             /\ PyDict.get d' (KInt 42) = Some rec42.
Proof.
  intros rec42 w w'.
  refine (scored_record_is_permanent [] (fun _ => false)
            ["a"; "b"; "c"]%string _ w _ (KInt 42) rec42
            eq_refl eq_refl _).
  exists (VInt 2), []. reflexivity.
Defined.



(** A line rendered from a stored record shows a total within the number
    of questions and a percentage within [0, 100]. *)
Lemma render_line_bounds (ANSWER_KEY : list string) (item : pykey * value)
    (line : stats_line) :
  user_record (total_questions ANSWER_KEY) (snd item) ->
  render_line ANSWER_KEY item = Ok line ->
  0 <= line_percentage line <= 100.
Proof.
  intros (first & last & scores & Hf & Hl & Hs & Hrange).
  unfold render_line. rewrite Hs. cbn [rbind Py.sum].
  rewrite sum_from_ints. cbn [rbind]. rewrite Z.add_0_l.
  assert (Hp : exists p, calculate_percentage (fold_right Z.add 0 scores)
                           (total_questions ANSWER_KEY) = Ok p
                         /\ 0 <= p <= 100).
  { destruct Hrange as [H0 | Hr].
    - rewrite H0. exists 0. split; [reflexivity | lia].
    - destruct (Z.eq_dec (fold_right Z.add 0 scores) 0) as [->|Hne].
      + exists 0. split; [apply calculate_percentage_zero | lia].
      + apply percentage_bounds_pos. lia. }
  destruct Hp as (p & -> & Hp). cbn [rbind]. rewrite Hf, Hl. cbn [rbind].
  intros H. injection H as <-. exact Hp.
Qed.

(** X13: /show_stats only reads.  From a state whose statistics are in
    order it returns normally and sends one message with one line per
    stored record, each with a percentage between 0 and 100; the
    statistics file, the spreadsheet and the sessions are as before, the
    statistics as [load_stats] returns them are the same mapping, and
    asking again sends the same lines. *)
Theorem show_stats_only_reads (ANSWER_KEY : list string) (u : update)
    (w : world) (d : list (pykey * value)) :
  load_value (cached_stats w) (STATS_FILE w) = Ok (VDict d) ->
  Forall (fun item => user_record (total_questions ANSWER_KEY) (snd item)) d ->
  exists (lines : list stats_line) (w' : world),
    show_stats ANSWER_KEY u w = (Ok tt, w')
    /\ outbox w' = outbox w ++ [(chat_id u, MsgStats lines)]
    /\ List.length lines = List.length d
    /\ Forall (fun line => 0 <= line_percentage line <= 100) lines
    /\ STATS_FILE w' = STATS_FILE w
    /\ EXCEL_FILE w' = EXCEL_FILE w
    /\ user_states w' = user_states w
    /\ load_value (cached_stats w') (STATS_FILE w') = Ok (VDict d)
    /\ exists w'',
         show_stats ANSWER_KEY u w' = (Ok tt, w'')
         /\ outbox w'' = outbox w' ++ [(chat_id u, MsgStats lines)].
Proof.
  intros Hload Hd.
  destruct (show_stats_step ANSWER_KEY u w d Hload Hd)
    as (lines & w' & logged & Hr & Hrun & Fc & Ff & Fe & Fu & Fo & _ & _).
  assert (Hload' : load_value (cached_stats w') (STATS_FILE w') = Ok (VDict d))
    by (now rewrite Fc).
  exists lines, w'. split; [exact Hrun | split; [exact Fo |]].
  destruct (render_descending ANSWER_KEY (VDict d) lines Hr)
    as (items & sorted_stats & Hi & Hperm & Hlines & _).
  cbn [Py.items] in Hi. injection Hi as <-.
  split.
  { rewrite <- (Forall2_length _ _ _ Hlines). now apply Permutation_length. }
  split.
  { assert (Hs : Forall (fun item => user_record (total_questions ANSWER_KEY)
                                       (snd item)) sorted_stats).
    { eapply Permutation_Forall; [apply Permutation_sym, Hperm | exact Hd]. }
    clear Hperm Hr Fo.
    induction Hlines as [|item line sorted_stats lines Hl _ IH].
    - constructor.
    - inversion Hs; subst. constructor; [| now apply IH].
      now apply (render_line_bounds ANSWER_KEY item). }
  split; [exact Ff | split; [exact Fe | split; [exact Fu |]]].
  split; [exact Hload' |].
  destruct (show_stats_step ANSWER_KEY u w' d Hload' Hd)
    as (lines' & w'' & logged' & Hr' & Hrun' & _ & _ & _ & _ & Fo' & _ & _).
  rewrite Hr in Hr'. injection Hr' as <-.
  exists w''. split; [exact Hrun' | exact Fo'].
Qed.

Lemma show_stats_only_reads_witness :
  let d := [(KInt 1, new_record (VStr "Ann") VNone 1);
            (KInt 2, new_record (VStr "Bob") (VStr "Lee") 3)] in
  let w := mkWorld Missing Missing true None true ∅ (VDict d) [] [] in
  let u := mkUpdate 7 42 "Ann" None "/show_stats" in
  exists (lines : list stats_line) (w' : world),
    show_stats ["a"; "b"; "c"]%string u w = (Ok tt, w')
    /\ outbox w' = outbox w ++ [(chat_id u, MsgStats lines)]
    /\ List.length lines = List.length d
    /\ Forall (fun line => 0 <= line_percentage line <= 100) lines
    /\ STATS_FILE w' = STATS_FILE w
    /\ EXCEL_FILE w' = EXCEL_FILE w
    /\ user_states w' = user_states w
    /\ load_value (cached_stats w') (STATS_FILE w') = Ok (VDict d)
    /\ exists w'',
         show_stats ["a"; "b"; "c"]%string u w' = (Ok tt, w'')
         /\ outbox w'' = outbox w' ++ [(chat_id u, MsgStats lines)].
Proof.
  intros d w u.
  apply (show_stats_only_reads ["a"; "b"; "c"]%string u w d eq_refl).
  repeat constructor; apply user_record_new; right; vm_compute;
    split; discriminate.
Defined.

(** ** Failures at the handlers *)

(** A first load that fails leaves by the exception, with nothing logged
    and nothing cached. *)
Lemma load_stats_raises (w : world) (e : exn) :
  cached_stats w = VNone ->
  load_value VNone (STATS_FILE w) = Raise e ->
  load_stats w = (Raise e, w).
Proof.
  intros Hc. unfold load_value, load_stats, try_except, bind, gets, lift.
  rewrite Hc. cbn [is_None].
  destruct (STATS_FILE w) as [|[]| | | |j]; cbn [exists_ json_load];
    try discriminate.
  - intros H. injection H as <-. reflexivity.
  - intros H. injection H as <-. reflexivity.
  - intros H. injection H as <-. reflexivity.
  - intros H. injection H as <-. reflexivity.
  - destruct (of_json j); cbn; intros H; try discriminate;
      injection H as <-; reflexivity.
Qed.

(** X15: a statistics file that cannot be loaded, at the two handlers
    that load it.  A text of the right length is scored and the score is
    sent before the statistics are loaded; the exception of [load_stats]
    is then caught by [handle_message], which logs it and sends the error
    notice: the sender gets both messages, nothing is stored and the
    session is not closed.  /show_stats has no handler of its own and
    the same exception leaves it. *)
Theorem unreadable_stats_at_the_handlers (ANSWER_KEY : list string)
    (u : update) (w : world) (e : exn) :
  cached_stats w = VNone ->
  load_value VNone (STATS_FILE w) = Raise e ->
  user_states w !! user_id u <> Some answers_submitted ->
  List.length (PyStr.chars (PyStr.strip (text u))) = List.length ANSWER_KEY ->
  let s := score ANSWER_KEY (PyStr.chars (PyStr.strip (text u))) in
  let n := total_questions ANSWER_KEY in
  exists p,
    calculate_percentage (fst s) n = Ok p
    /\ handle_message ANSWER_KEY u w
       = (Ok tt,
          add_outbox (chat_id u) MsgError
            (add_log (ErrHandler e)
               (add_outbox (chat_id u) (MsgScore (fst s) n p (snd s))
                  (add_log InfoSubmitCalled w))))
    /\ show_stats ANSWER_KEY u w = (Raise e, add_log InfoShowStatsCalled w).
Proof.
  intros Hc Hload Hst Hlen s n.
  destruct (score_percentage ANSWER_KEY _ Hlen) as [p Hp]. fold s n in Hp.
  exists p. split; [exact Hp |].
  split.
  - pose proof (submit_answers_right_length ANSWER_KEY u w p Hlen Hp) as Hs.
    cbv zeta in Hs. fold s n in Hs.
    unfold bind at 1 in Hs.
    rewrite (load_stats_raises _ e) in Hs by (cbn; assumption).
    unfold handle_message, try_except, bind, gets.
    destruct (user_states w !! user_id u) as [[|]|]; try congruence;
      rewrite Hs; reflexivity.
  - unfold show_stats. unfold bind at 1. unfold logger at 1, modify at 1.
    unfold bind at 1.
    rewrite (load_stats_raises _ e) by (cbn; assumption). reflexivity.
Qed.

Lemma unreadable_stats_at_the_handlers_witness :
  let w := mkWorld Missing NotUTF8 true None true ∅ VNone [] [] in
  let u := mkUpdate 7 42 "Ann" None "abd" in
  exists p,
    calculate_percentage 2 3 = Ok p
    /\ handle_message ["a"; "b"; "c"]%string u w
       = (Ok tt,
          add_outbox 7 MsgError
            (add_log (ErrHandler UnicodeDecodeError)
               (add_outbox 7 (MsgScore 2 3 p [(3, "d"%string)])
                  (add_log InfoSubmitCalled w))))
    /\ show_stats ["a"; "b"; "c"]%string u w
       = (Raise UnicodeDecodeError, add_log InfoShowStatsCalled w).
Proof.
  intros w u.
  refine (unreadable_stats_at_the_handlers ["a"; "b"; "c"]%string u w
            UnicodeDecodeError eq_refl eq_refl _ eq_refl).
  vm_compute. discriminate.
Defined.

(** X16: what [load_answer_key] returns and what it lets out, over the
    states of the answers file that the model tells apart.  A key that is
    not empty comes with nothing logged and nothing changed, and is the
    list of strings under [answers] of an object document.  Whenever
    something is logged, it is one record and the key is empty.  An
    answers file that is there and cannot be opened (a directory, a file
    without read permission) is not absorbed: its [OSError] leaves the
    function, and with it the import at line 56.  A document with an
    integer that [json.load] does not convert is absorbed by the clause
    for [ValueError]. *)
Theorem load_answer_key_outcomes (w : world) :
  (forall (key : list string) (w' : world),
      load_answer_key w = (Ok key, w') ->
      (key <> [] ->
       w' = w
       /\ exists members l,
            ANSWER_FILE w = Document (JObj members)
            /\ Py.get_default (of_json (JObj members)) "answers" (VList [])
               = Ok (VList l)
            /\ forallb is_str l = true
            /\ key = List.map str_of l)
      /\ (w' = w \/ (key = [] /\ exists r, w' = add_log r w)))
  /\ (forall directory,
         ANSWER_FILE w = Unreadable directory ->
         load_answer_key w = (Raise (open_error directory), w))
  /\ (ANSWER_FILE w = DigitLimit ->
      load_answer_key w = (Ok [], add_log (ErrAnswerValue ValueError) w)).
Proof.
  destruct (load_answer_key_absorbed w) as (Hm & Hu & Hn & Hbad).
  split; [| split].
  - intros key w' Hrun.
    destruct (ANSWER_FILE w) as [|dir| | | |j] eqn:Ef.
    + rewrite (Hm eq_refl) in Hrun. injection Hrun as <- <-.
      split; [intros H; now contradiction H | right; split; eauto].
    + unfold load_answer_key, try_except, bind, gets, lift in Hrun.
      rewrite Ef in Hrun. destruct dir; discriminate.
    + rewrite (Hu eq_refl) in Hrun. injection Hrun as <- <-.
      split; [intros H; now contradiction H | right; split; eauto].
    + rewrite (Hn eq_refl) in Hrun. injection Hrun as <- <-.
      split; [intros H; now contradiction H | right; split; eauto].
    + unfold load_answer_key, try_except, bind, gets, lift, logger, modify,
        ret in Hrun.
      rewrite Ef in Hrun. cbn in Hrun. injection Hrun as <- <-.
      split; [intros H; now contradiction H | right; split; eauto].
    + destruct (is_object j) eqn:Ej.
      * destruct j as [| | | | |members]; try discriminate.
        destruct (Py.get_default (of_json (JObj members)) "answers" (VList []))
          as [answers|e] eqn:Eg; [| cbn in Eg; discriminate].
        assert (Hcases : (exists l, answers = VList l
                                    /\ forallb is_str l = true)
                         \/ (forall l, answers = VList l ->
                                       forallb is_str l = false)).
        { destruct answers as [| | | |l|];
            try (right; intros l' Hl'; discriminate).
          destruct (forallb is_str l) eqn:El.
          - left. now exists l.
          - right. intros l' Hl'. now injection Hl' as <-. }
        destruct Hcases as [(l & -> & Hl) | Hno].
        -- rewrite (load_answer_key_valid w members l Ef Eg Hl) in Hrun.
           injection Hrun as <- <-.
           split; [| now left].
           intros _. split; [reflexivity |].
           exists members, l. repeat split; assumption.
        -- rewrite (Hbad members answers eq_refl Eg Hno) in Hrun.
           injection Hrun as <- <-.
           split; [intros H; now contradiction H | right; split; eauto].
      * unfold load_answer_key, try_except, bind, gets, lift in Hrun.
        rewrite Ef in Hrun. cbn [json_load] in Hrun.
        rewrite get_default_not_object in Hrun by exact Ej. discriminate.
  - intros dir Ef. unfold load_answer_key, try_except, bind, gets, lift.
    rewrite Ef. destruct dir; reflexivity.
  - intros Ef. unfold load_answer_key, try_except, bind, gets, lift.
    rewrite Ef. reflexivity.
Qed.

(** ** Ties on the leaderboard *)

Lemma filter_insert_desc {A} (t : Z) (x : Z * A) (l : list (Z * A)) :
  List.filter (fun p => fst p =? t) (insert_desc x l)
  = if fst x =? t then x :: List.filter (fun p => fst p =? t) l
    else List.filter (fun p => fst p =? t) l.
Proof.
  induction l as [|y l IH]; cbn [insert_desc List.filter].
  - reflexivity.
  - destruct (fst y <=? fst x) eqn:Ele; cbn [List.filter].
    + reflexivity.
    + rewrite IH. apply Z.leb_gt in Ele.
      destruct (fst x =? t) eqn:Ex; [| reflexivity].
      apply Z.eqb_eq in Ex.
      replace (fst y =? t) with false by (symmetry; apply Z.eqb_neq; lia).
      reflexivity.
Qed.

(** [sorted(..., reverse=True)] is stable: the items with one key are in
    the order they had. *)
Lemma sorted_reverse_stable {A} (t : Z) (l : list (Z * A)) :
  List.filter (fun p => fst p =? t) (sorted_reverse l)
  = List.filter (fun p => fst p =? t) l.
Proof.
  induction l as [|x l IH]; cbn [sorted_reverse List.filter]; [reflexivity |].
  rewrite filter_insert_desc, IH. reflexivity.
Qed.

Lemma map_result_filter {A B} (f : A -> result B) (P : A -> bool)
    (Q : B -> bool) (l : list A) :
  (forall a b, f a = Ok b -> P a = Q b) ->
  forall l', map_result f l = Ok l' ->
             map_result f (List.filter P l) = Ok (List.filter Q l').
Proof.
  intros HPQ. induction l as [|a l IH]; cbn [map_result]; intros l' H.
  - now injection H as <-.
  - destruct (f a) as [b|e] eqn:Ea; cbn [rbind] in H; [|discriminate].
    destruct (map_result f l) as [bs|e]; cbn [rbind] in H; [|discriminate].
    injection H as <-. cbn [List.filter]. rewrite (HPQ a b Ea).
    destruct (Q b); cbn [map_result]; rewrite ?Ea; cbn [rbind];
      rewrite (IH bs eq_refl); reflexivity.
Qed.

Lemma filter_map_snd_keyed (t : Z) (keyed : list (Z * (pykey * value))) :
  Forall (fun p => total_of (snd p) = Ok (fst p)) keyed ->
  List.filter (has_total t) (List.map snd keyed)
  = List.map snd (List.filter (fun p => fst p =? t) keyed).
Proof.
  induction 1 as [|p keyed Hp _ IH]; cbn [List.map List.filter];
    [reflexivity |].
  unfold has_total at 1. rewrite Hp, IH.
  destruct (fst p =? t); reflexivity.
Qed.

(** X17: ties on the leaderboard keep the order of the mapping.  For every
    total [t], the lines of [render] with that total are the lines of the
    records with that total, in the order in which the mapping holds them
    (the order in which the users first submitted): the sort of line 195
    is stable also under [reverse=True]. *)
Theorem leaderboard_ties_keep_order (ANSWER_KEY : list string)
    (d : list (pykey * value)) (lines : list stats_line) (t : Z) :
  render ANSWER_KEY (VDict d) = Ok lines ->
  map_result (render_line ANSWER_KEY) (List.filter (has_total t) d)
  = Ok (List.filter (fun line => line_total line =? t) lines).
Proof.
  unfold render. cbn [Py.items rbind]. intros H.
  destruct (map_result (fun item => rbind (total_of item)
                                      (fun k => Ok (k, item))) d)
    as [keyed|e] eqn:Ek; cbn [rbind] in H; [|discriminate].
  apply map_result_Forall2 in Ek.
  assert (Hsnd : List.map snd keyed = d).
  { clear H. induction Ek as [|item p items keyed Hp _ IH]; [reflexivity|].
    cbn [List.map]. rewrite IH. f_equal.
    destruct (total_of item); cbn [rbind] in Hp; [|discriminate].
    now injection Hp as <-. }
  assert (Hkey : Forall (fun p => total_of (snd p) = Ok (fst p)) keyed).
  { clear Hsnd H. induction Ek as [|item p items keyed Hp _ IH]; constructor;
      [|exact IH].
    destruct (total_of item) eqn:E; cbn [rbind] in Hp; [|discriminate].
    now injection Hp as <-. }
  assert (Hkey' : Forall (fun p => total_of (snd p) = Ok (fst p))
                    (sorted_reverse keyed)).
  { eapply Permutation_Forall; [| exact Hkey].
    apply Permutation_sym, sorted_reverse_perm. }
  rewrite <- Hsnd, (filter_map_snd_keyed t keyed Hkey).
  rewrite <- (sorted_reverse_stable t keyed).
  rewrite <- (filter_map_snd_keyed t _ Hkey').
  apply map_result_filter; [| exact H].
  intros item line Hline. apply render_line_total in Hline.
  destruct Hline as [Ht _]. unfold has_total. now rewrite Ht.
Qed.

Lemma leaderboard_ties_keep_order_witness :
  let ann := (KInt 1, new_record (VStr "Ann") VNone 2) in
  let bob := (KInt 2, new_record (VStr "Bob") VNone 3) in
  let cy := (KInt 3, new_record (VStr "Cy") VNone 2) in
  map_result (render_line ["a"; "b"; "c"]%string)
    (List.filter (has_total 2) [ann; bob; cy])
  = Ok (List.filter (fun line => line_total line =? 2)
          [(VStr "Bob", VNone, 3, 100); (VStr "Ann", VNone, 2, 67);
           (VStr "Cy", VNone, 2, 67)]).
Proof.
  intros ann bob cy.
  apply (leaderboard_ties_keep_order ["a"; "b"; "c"]%string [ann; bob; cy]).
  vm_compute. reflexivity.
Defined.

(** ** The spreadsheet and the leaderboard *)

Lemma render_line_excel_row (ANSWER_KEY : list string) (item : pykey * value)
    (line : stats_line) :
  render_line ANSWER_KEY item = Ok line ->
  excel_row_of item = Ok (fst line).
Proof.
  unfold render_line, excel_row_of.
  destruct (Py.getitem (snd item) (KStr "scores")) as [scores|e];
    cbn [rbind]; [|discriminate].
  destruct (Py.sum scores) as [total|e]; cbn [rbind]; [|discriminate].
  destruct (calculate_percentage total (total_questions ANSWER_KEY))
    as [pct|e]; cbn [rbind]; [|discriminate].
  destruct (Py.getitem (snd item) (KStr "first_name")) as [first|e];
    cbn [rbind]; [|discriminate].
  destruct (Py.getitem (snd item) (KStr "last_name")) as [last|e];
    cbn [rbind]; [|discriminate].
  intros H. injection H as <-. reflexivity.
Qed.

Lemma map_result_flat_map {A B} (f : A -> result B) (l : list A)
    (r : list B) :
  map_result f l = Ok r ->
  r = flat_map (fun a => match f a with Ok b => [b] | Raise _ => [] end) l.
Proof.
  revert r. induction l as [|a l IH]; cbn [map_result flat_map]; intros r H.
  - now injection H as <-.
  - destruct (f a) as [b|e]; cbn [rbind] in H; [|discriminate].
    destruct (map_result f l) as [bs|e]; cbn [rbind] in H; [|discriminate].
    injection H as <-. cbn [app]. f_equal. now apply IH.
Qed.

(** X18: the spreadsheet and the leaderboard tell the same.  For a mapping
    that [render] can list, the rows of the sheet can be computed, one for
    each record in the order of the mapping, and the leaderboard lines
    without their percentages are these rows, rearranged.  If
    [df.to_excel] does not refuse the rows, [save_stats_to_excel] returns
    normally and, when the file can be opened, the sheet holds them; if it
    refuses them with an exception that is not an [IOError], that
    exception leaves [save_stats_to_excel]. *)
Theorem spreadsheet_matches_leaderboard (ANSWER_KEY : list string)
    (d : list (pykey * value)) (lines : list stats_line) (w : world) :
  render ANSWER_KEY (VDict d) = Ok lines ->
  exists rows,
    map_result excel_row_of d = Ok rows
    /\ List.length rows = List.length d
    /\ Permutation (List.map fst lines) rows
    /\ (to_excel_refuses w rows = None ->
        save_stats_to_excel (VDict d) w
        = (Ok tt, if excel_writable w then set_EXCEL_FILE (Some rows) w
                  else add_log ErrExcelWrite w))
    /\ (forall (e : exn) (remains : option (list excel_row)),
           excel_writable w = true ->
           to_excel_refuses w rows = Some (e, remains) ->
           is_IOError e = false ->
           save_stats_to_excel (VDict d) w
           = (Raise e, set_EXCEL_FILE remains w)).
Proof.
  intros Hr.
  destruct (render_descending ANSWER_KEY (VDict d) lines Hr)
    as (items & sorted_stats & Hi & Hperm & Hlines & _).
  cbn [Py.items] in Hi. injection Hi as <-.
  assert (Hsorted : map_result excel_row_of sorted_stats
                    = Ok (List.map fst lines)).
  { clear Hperm Hr. induction Hlines as [|item line ss ls Hl _ IH];
      cbn [map_result List.map]; [reflexivity |].
    rewrite (render_line_excel_row ANSWER_KEY item line Hl), IH. reflexivity. }
  assert (Hall : Forall (fun item => exists row, excel_row_of item = Ok row) d).
  { eapply Permutation_Forall; [exact Hperm |].
    clear Hperm Hr Hsorted. induction Hlines as [|item line ss ls Hl _ IH];
      constructor; [| exact IH].
    exists (fst line). now apply (render_line_excel_row ANSWER_KEY). }
  destruct (map_result_total excel_row_of d Hall) as [rows Hrows].
  exists rows. split; [exact Hrows |].
  split.
  { symmetry. apply (Forall2_length _ _ _ (map_result_Forall2 _ _ _ Hrows)). }
  split.
  { rewrite (map_result_flat_map _ _ _ Hsorted),
      (map_result_flat_map _ _ _ Hrows).
    now apply Permutation_flat_map. }
  rewrite (save_stats_to_excel_run d rows w Hrows). unfold after_export.
  split.
  - intros ->. destruct (excel_writable w); reflexivity.
  - intros e remains -> -> ->. reflexivity.
Qed.

Lemma spreadsheet_matches_leaderboard_witness :
  let d := [(KInt 1, new_record (VStr "Ann") VNone 2);
            (KInt 2, new_record (VStr "Bob") VNone 3)] in
  let w := mkWorld Missing Missing true None true ∅ (VDict d) [] [] in
  exists rows,
    map_result excel_row_of d = Ok rows
    /\ List.length rows = List.length d
    /\ Permutation
         (List.map fst [(VStr "Bob", VNone, 3, 100); (VStr "Ann", VNone, 2, 67)])
         rows
    /\ save_stats_to_excel (VDict d) w = (Ok tt, set_EXCEL_FILE (Some rows) w).
Proof.
  intros d w.
  destruct (spreadsheet_matches_leaderboard ["a"; "b"; "c"]%string d
              [(VStr "Bob", VNone, 3, 100); (VStr "Ann", VNone, 2, 67)] w)
    as (rows & Hrows & Hlen & Hperm & Hok & _).
  - vm_compute. reflexivity.
  - exists rows. repeat split; try assumption. now apply Hok.
Defined.

(** ** The menu *)

Lemma send_image_counts (image_found : string -> bool) (u : update)
    (file_paths : list string) :
  List.length (List.filter to_chat
                 (flat_map (send_image image_found u) file_paths))
  = List.length file_paths
  /\ List.length (List.filter is_error
                    (flat_map (send_image image_found u) file_paths))
     = List.length (List.filter (fun p => negb (image_found p)) file_paths).
Proof.
  induction file_paths as [|p file_paths [IH1 IH2]]; [split; reflexivity |].
  cbn [flat_map List.filter]. rewrite !List.filter_app, !List.length_app.
  rewrite IH1, IH2. unfold send_image.
  destruct (image_found p); cbn; split; reflexivity.
Qed.

(** X19: what /get_test does.  The chat receives one message for each
    path of the list, the photo or the notice that the file is missing,
    and the recommendations, which come last whatever was found; one
    error is logged for each missing file; when every file is found the
    events are the photos in the order of the list and the
    recommendations.  The
    sender's session becomes "test_sent" whatever it was, no other
    session changes, and neither the statistics nor the files do. *)
Theorem send_test_events (file_paths : list string)
    (image_found : string -> bool) (u : update) (w : world) :
  exists events w',
    send_test file_paths image_found u w = (Ok events, w')
    /\ List.length (List.filter to_chat events)
       = S (List.length file_paths)
    /\ List.length (List.filter is_error events)
       = List.length (List.filter (fun p => negb (image_found p)) file_paths)
    /\ List.last events LogStartCalled = SendRecommendations (chat_id u)
    /\ (forallb image_found file_paths = true ->
        events = LogGetTestCalled
                 :: List.map (SendPhoto (chat_id u)) file_paths
                 ++ [SendRecommendations (chat_id u)])
    /\ user_states w' !! user_id u = Some test_sent
    /\ (forall other, other <> user_id u ->
                      user_states w' !! other = user_states w !! other)
    /\ cached_stats w' = cached_stats w
    /\ STATS_FILE w' = STATS_FILE w
    /\ EXCEL_FILE w' = EXCEL_FILE w.
Proof.
  eexists _, _. split; [reflexivity |].
  destruct (send_image_counts image_found u file_paths) as [Hc He].
  split.
  { cbn [List.filter to_chat]. rewrite List.filter_app, List.length_app, Hc.
    cbn. lia. }
  split.
  { cbn [List.filter is_error]. rewrite List.filter_app, List.length_app, He.
    cbn. lia. }
  split.
  { change (LogGetTestCalled
            :: flat_map (send_image image_found u) file_paths
            ++ [SendRecommendations (chat_id u)])
      with ((LogGetTestCalled
             :: flat_map (send_image image_found u) file_paths)
            ++ [SendRecommendations (chat_id u)]).
    apply List.last_last. }
  split.
  { intros Hall. f_equal. f_equal. clear Hc He.
    induction file_paths as [|p file_paths IH]; [reflexivity |].
    cbn [forallb] in Hall. apply andb_true_iff in Hall as [Hp Hall].
    cbn [flat_map List.map]. unfold send_image at 1. rewrite Hp.
    cbn [app]. f_equal. now apply IH. }
  cbn [user_states set_user_states cached_stats STATS_FILE EXCEL_FILE].
  split; [apply lookup_insert_eq |].
  split; [intros other Hne; now apply lookup_insert_ne |].
  repeat split; reflexivity.
Qed.
